(** * Company information system: query pipeline and result cache

    A shallow embedding of the query orchestration pipeline
    ([app/core/workflow.py]), its collaborators ([app/services/query_parser.py],
    [app/services/data_retriever.py], [app/services/evaluator.py]) and the
    Redis result cache ([app/services/cache.py],
    [app/constants/cache_constants.py]), followed by the properties of the
    design document that are checked against it.

    Conventions of the embedding.
    - A Python [str] is a Rocq [string] holding its UTF-8 encoding.  [len]
      and slices count characters, not bytes, and white space is that of
      [str.isspace], whatever the number of bytes of a character.  Case
      mapping is that of the letters A to Z; other characters pass through
      [lower] unchanged.
    - A Python [float] is a binary64 primitive float; literals round as
      Python's do.
    - Exceptions are values of [exn]; a computation that can raise returns a
      [result].  External collaborators (language model chains, the two
      evidence providers, the Redis server, the clock, the JSON codec) are
      the fields of an environment record [Env]; every call that reaches a
      model, a provider or the server is recorded in the world's call log.
    - Dictionaries are records of the keys the code gives them.  A retrieval
      payload [{"results": [...], "source": ...}] is never empty, hence true
      where Python tests it; an answer of a model chain that does not have
      the expected shape counts as a raised exception, which is how the code
      treats it.
    - The two retrieval stages of the graph run side by side on the same
      state; the model runs the encyclopedia's first. *)

From Stdlib Require Import ZArith String Ascii List Bool Floats Lia.
From stdpp Require Import gmap strings list.
Import ListNotations.

Set Warnings "-inexact-float".
Local Open Scope string_scope.

(** ** Python string operations *)

Module Py.

Definition is_upper (c : ascii) : bool :=
  let n := nat_of_ascii c in (65 <=? n)%nat && (n <=? 90)%nat.

Definition lower_char (c : ascii) : ascii :=
  if is_upper c then ascii_of_nat (nat_of_ascii c + 32) else c.

(** [s.lower()] *)
Fixpoint lower (s : string) : string :=
  match s with
  | EmptyString => EmptyString
  | String c r => String (lower_char c) (lower r)
  end.

(** [c.isspace()] for the characters of one byte: TAB, LF, VT, FF, CR, FS,
    GS, RS, US, SPACE. *)
Definition is_space (c : ascii) : bool :=
  let n := nat_of_ascii c in
  ((9 <=? n)%nat && (n <=? 13)%nat) || ((28 <=? n)%nat && (n <=? 32)%nat).

(** The white space characters of two bytes: U+0085 and U+00A0. *)
Definition is_space2 (c d : ascii) : bool :=
  (nat_of_ascii c =? 194)%nat
  && ((nat_of_ascii d =? 133)%nat || (nat_of_ascii d =? 160)%nat).

(** Those of three bytes: U+1680, U+2000 to U+200A, U+2028, U+2029, U+202F,
    U+205F and U+3000.  With the two above and the ten of one byte they are
    the characters for which [str.isspace] holds. *)
Definition is_space3 (c d e : ascii) : bool :=
  let c := nat_of_ascii c in
  let d := nat_of_ascii d in
  let e := nat_of_ascii e in
  ((c =? 225)%nat && (d =? 154)%nat && (e =? 128)%nat)
  || ((c =? 226)%nat && (d =? 128)%nat
      && (((128 <=? e)%nat && (e <=? 138)%nat)
          || (e =? 168)%nat || (e =? 169)%nat || (e =? 175)%nat))
  || ((c =? 226)%nat && (d =? 129)%nat && (e =? 159)%nat)
  || ((c =? 227)%nat && (d =? 128)%nat && (e =? 128)%nat).

(** The number of bytes of the white space character a text begins with;
    0 when it begins with none. *)
Definition space_width (s : string) : nat :=
  match s with
  | String c r =>
      if is_space c then 1
      else match r with
           | String d r2 =>
               if is_space2 c d then 2
               else match r2 with
                    | String e _ => if is_space3 c d e then 3 else 0
                    | EmptyString => 0
                    end
           | EmptyString => 0
           end
  | EmptyString => 0
  end.

(** A text without its first [n] bytes. *)
Fixpoint skip (n : nat) (s : string) : string :=
  match n, s with
  | S k, String _ r => skip k r
  | _, _ => s
  end.

(** A byte that continues a character of several bytes. *)
Definition is_continuation (c : ascii) : bool :=
  let n := nat_of_ascii c in (128 <=? n)%nat && (n <? 192)%nat.

(** [len(s)]: the number of characters. *)
Fixpoint len (s : string) : nat :=
  match s with
  | EmptyString => 0
  | String c r => if is_continuation c then len r else S (len r)
  end.

Definition is_empty (s : string) : bool :=
  match s with EmptyString => true | String _ _ => false end.

(** Truth value of a string: [bool(s)]. *)
Definition truthy (s : string) : bool := negb (is_empty s).

(** [s.lstrip()]: the text from its first character that is not white
    space. *)
Fixpoint lstrip (s : string) : string :=
  match s with
  | EmptyString => EmptyString
  | String c r =>
      if is_space c then lstrip r
      else match r with
           | String d r2 =>
               if is_space2 c d then lstrip r2
               else match r2 with
                    | String e r3 => if is_space3 c d e then lstrip r3 else s
                    | EmptyString => s
                    end
           | EmptyString => s
           end
  end.

(** [s.rstrip()]: the text up to the point from which only white space
    follows. *)
Fixpoint rstrip (s : string) : string :=
  match s with
  | EmptyString => EmptyString
  | String c r => if is_empty (lstrip s) then EmptyString else String c (rstrip r)
  end.

(** [s.strip()] *)
Definition strip (s : string) : string := rstrip (lstrip s).

(** [sub in s] *)
Fixpoint contains (sub s : string) : bool :=
  String.prefix sub s ||
  match s with
  | EmptyString => false
  | String _ r => contains sub r
  end.

(** [s[:n]]: the first [n] characters, each with the bytes that continue
    it. *)
Fixpoint take (n : nat) (s : string) {struct s} : string :=
  match s with
  | EmptyString => EmptyString
  | String c r =>
      if is_continuation c then String c (take n r)
      else match n with
           | O => EmptyString
           | S k => String c (take k r)
           end
  end.

(** [sep.join(parts)] *)
Fixpoint join (sep : string) (parts : list string) : string :=
  match parts with
  | [] => EmptyString
  | [p] => p
  | p :: rest => p ++ sep ++ join sep rest
  end.

(** [s.split()]: the maximal runs of characters that are not white space.
    [cur] is the run being read. *)
Definition flush (cur : string) (runs : list string) : list string :=
  if is_empty cur then runs else cur :: runs.

Fixpoint split_from (cur s : string) {struct s} : list string :=
  match s with
  | EmptyString => flush cur []
  | String c r =>
      if is_space c then flush cur (split_from EmptyString r)
      else match r with
           | String d r2 =>
               if is_space2 c d then flush cur (split_from EmptyString r2)
               else match r2 with
                    | String e r3 =>
                        if is_space3 c d e
                        then flush cur (split_from EmptyString r3)
                        else split_from (cur ++ String c EmptyString) r
                    | EmptyString => split_from (cur ++ String c EmptyString) r
                    end
           | EmptyString => split_from (cur ++ String c EmptyString) r
           end
  end.

Definition split (s : string) : list string := split_from EmptyString s.

(** [s.endswith('.')] *)
Fixpoint endswith_dot (s : string) : bool :=
  match s with
  | EmptyString => false
  | String c EmptyString => Ascii.eqb c "."
  | String _ r => endswith_dot r
  end.

(** [s.rsplit('.', 1)[0]]: what precedes the last dot, the whole string
    when it has none. *)
Fixpoint before_last_dot (s : string) : option string :=
  match s with
  | EmptyString => None
  | String c r =>
      match before_last_dot r with
      | Some p => Some (String c p)
      | None => if Ascii.eqb c "." then Some EmptyString else None
      end
  end.

Definition rsplit_dot_head (s : string) : string :=
  match before_last_dot s with Some p => p | None => s end.

(** [re.split(r'[.!?]', s)[0]] *)
Fixpoint first_sentence (s : string) : string :=
  match s with
  | EmptyString => EmptyString
  | String c r =>
      if Ascii.eqb c "." || Ascii.eqb c "!" || Ascii.eqb c "?"
      then EmptyString
      else String c (first_sentence r)
  end.

(** Distance from the character after a ['['] to the end of the shortest
    match of [.*?\]]: the dot of a regular expression stops at a line
    feed. *)
Fixpoint close_offset (s : string) : option nat :=
  match s with
  | EmptyString => None
  | String c r =>
      if Ascii.eqb c "]" then Some 1%nat
      else if Ascii.eqb c "010" then None
      else option_map S (close_offset r)
  end.

(** [re.sub(r'\[.*?\]', '', s)], reading left to right; [skip] counts the
    characters of the current match still to drop. *)
Fixpoint sub_brackets_from (skip : nat) (s : string) : string :=
  match s with
  | EmptyString => EmptyString
  | String c r =>
      match skip with
      | S k => sub_brackets_from k r
      | O =>
          if Ascii.eqb c "["
          then match close_offset r with
               | Some n => sub_brackets_from n r
               | None => String c (sub_brackets_from 0 r)
               end
          else String c (sub_brackets_from 0 r)
      end
  end.

Definition sub_brackets (s : string) : string := sub_brackets_from 0 s.

(** [re.sub(re.escape(lit), '', s)] for a non-empty literal. *)
Fixpoint remove_literal_from (lit : string) (skip : nat) (s : string) : string :=
  match s with
  | EmptyString => EmptyString
  | String c r =>
      match skip with
      | S k => remove_literal_from lit k r
      | O =>
          if String.prefix lit s
          then remove_literal_from lit (String.length lit - 1) r
          else String c (remove_literal_from lit 0 r)
      end
  end.

Definition remove_literal (lit s : string) : string :=
  remove_literal_from lit 0 s.

(** [re.sub(r'\.{2,}', '.', s)]: every run of dots becomes one dot. *)
Fixpoint sub_dots_from (after_dot : bool) (s : string) : string :=
  match s with
  | EmptyString => EmptyString
  | String c r =>
      if Ascii.eqb c "."
      then (if after_dot then sub_dots_from true r
            else String c (sub_dots_from true r))
      else String c (sub_dots_from false r)
  end.

Definition sub_dots (s : string) : string := sub_dots_from false s.

(** Distinct elements in order of first appearance. *)
Fixpoint distinct (l : list string) : list string :=
  match l with
  | [] => []
  | x :: r => x :: filter (fun y => negb (String.eqb x y)) (distinct r)
  end.

End Py.

(** ** SHA-256 ([hashlib.sha256(...).hexdigest()]), FIPS 180-4 *)

Module Sha256.
Local Open Scope Z_scope.

Definition wrap (x : Z) : Z := Z.land x 4294967295.
Definition add32 (x y : Z) : Z := wrap (x + y).
Definition rotr (n x : Z) : Z := Z.lor (Z.shiftr x n) (wrap (Z.shiftl x (32 - n))).
Definition not32 (x : Z) : Z := Z.lxor x 4294967295.

Definition choose (x y z : Z) : Z := Z.lxor (Z.land x y) (Z.land (not32 x) z).
Definition majority (x y z : Z) : Z :=
  Z.lxor (Z.lxor (Z.land x y) (Z.land x z)) (Z.land y z).
Definition big_sigma0 (x : Z) : Z := Z.lxor (Z.lxor (rotr 2 x) (rotr 13 x)) (rotr 22 x).
Definition big_sigma1 (x : Z) : Z := Z.lxor (Z.lxor (rotr 6 x) (rotr 11 x)) (rotr 25 x).
Definition small_sigma0 (x : Z) : Z := Z.lxor (Z.lxor (rotr 7 x) (rotr 18 x)) (Z.shiftr x 3).
Definition small_sigma1 (x : Z) : Z := Z.lxor (Z.lxor (rotr 17 x) (rotr 19 x)) (Z.shiftr x 10).

Definition hex_value (c : ascii) : Z :=
  let n := Z.of_nat (nat_of_ascii c) in
  if (97 <=? n) then n - 87 else n - 48.

(** Reads a string of hexadecimal digits as 32-bit words, eight digits
    each; [acc] and [k] are the word being read and its digit count. *)
Fixpoint words_of_hex (acc : Z) (k : nat) (s : string) : list Z :=
  match s with
  | EmptyString => []
  | String c r =>
      let acc' := acc * 16 + hex_value c in
      match k with
      | 7%nat => acc' :: words_of_hex 0 0 r
      | _ => words_of_hex acc' (S k) r
      end
  end.

(** Fractional parts of the cube roots of the first 64 primes. *)
Definition round_constants : list Z :=
  words_of_hex 0 0
    ("428a2f9871374491b5c0fbcfe9b5dba53956c25b59f111f1923f82a4ab1c5ed5" ++
     "d807aa9812835b01243185be550c7dc372be5d7480deb1fe9bdc06a7c19bf174" ++
     "e49b69c1efbe47860fc19dc6240ca1cc2de92c6f4a7484aa5cb0a9dc76f988da" ++
     "983e5152a831c66db00327c8bf597fc7c6e00bf3d5a7914706ca635114292967" ++
     "27b70a852e1b21384d2c6dfc53380d13650a7354766a0abb81c2c92e92722c85" ++
     "a2bfe8a1a81a664bc24b8b70c76c51a3d192e819d6990624f40e3585106aa070" ++
     "19a4c1161e376c082748774c34b0bcb5391c0cb34ed8aa4a5b9cca4f682e6ff3" ++
     "748f82ee78a5636f84c878148cc7020890befffaa4506cebbef9a3f7c67178f2")%string.

(** Fractional parts of the square roots of the first 8 primes. *)
Definition initial_hash : list Z :=
  words_of_hex 0 0
    "6a09e667bb67ae853c6ef372a54ff53a510e527f9b05688c1f83d9ab5be0cd19".

Fixpoint bytes_of_string (s : string) : list Z :=
  match s with
  | EmptyString => []
  | String c r => Z.of_nat (nat_of_ascii c) :: bytes_of_string r
  end.

(** Big-endian bytes of [x], [n] of them. *)
Fixpoint be_bytes (n : nat) (x : Z) : list Z :=
  match n with
  | O => []
  | S k => Z.land (Z.shiftr x (8 * Z.of_nat k)) 255 :: be_bytes k x
  end.

(** The message, a 1 bit, zero bits up to 448 modulo 512, and the length
    in bits on 64 bits. *)
Definition pad (msg : list Z) : list Z :=
  let len := Z.of_nat (length msg) in
  let zeros := Z.to_nat ((55 - len) mod 64) in
  msg ++ 128 :: repeat 0 zeros ++ be_bytes 8 (8 * len).

Fixpoint be_words (bytes : list Z) : list Z :=
  match bytes with
  | a :: b :: c :: d :: r =>
      (Z.shiftl a 24 + Z.shiftl b 16 + Z.shiftl c 8 + d) :: be_words r
  | _ => []
  end.

(** The message schedule: sixteen words of the block, then forty-eight
    derived ones.  [sched] holds the schedule so far, newest first. *)
Fixpoint extend_schedule (n : nat) (sched : list Z) : list Z :=
  match n with
  | O => sched
  | S k =>
      let w := add32 (add32 (small_sigma1 (nth 1 sched 0)) (nth 6 sched 0))
                     (add32 (small_sigma0 (nth 14 sched 0)) (nth 15 sched 0)) in
      extend_schedule k (w :: sched)
  end.

Definition schedule (block : list Z) : list Z :=
  rev (extend_schedule 48 (rev block)).

Definition round (st : list Z) (kw : Z * Z) : list Z :=
  match st with
  | [a; b; c; d; e; f; g; h] =>
      let t1 := add32 (add32 (add32 h (big_sigma1 e)) (choose e f g))
                      (add32 (fst kw) (snd kw)) in
      let t2 := add32 (big_sigma0 a) (majority a b c) in
      [add32 t1 t2; a; b; c; add32 d t1; e; f; g]
  | _ => st
  end.

Definition compress (h : list Z) (block : list Z) : list Z :=
  let st := fold_left round (combine round_constants (schedule block)) h in
  map (fun p => add32 (fst p) (snd p)) (combine h st).

(** The 16-word blocks of a padded message, [n] of them. *)
Fixpoint blocks (n : nat) (ws : list Z) : list (list Z) :=
  match n with
  | O => []
  | S k => firstn 16 ws :: blocks k (skipn 16 ws)
  end.

Definition digest (msg : list Z) : list Z :=
  let ws := be_words (pad msg) in
  fold_left compress (blocks (length ws / 16) ws) initial_hash.

Definition hex_digit (n : Z) : ascii :=
  ascii_of_nat (Z.to_nat (if n <? 10 then n + 48 else n + 87)).

Fixpoint hex_of_bytes (bs : list Z) : string :=
  match bs with
  | [] => EmptyString
  | b :: r => String (hex_digit (Z.shiftr b 4)) (String (hex_digit (Z.land b 15)) (hex_of_bytes r))
  end.

Definition hexdigest (s : string) : string :=
  hex_of_bytes (flat_map (be_bytes 4) (digest (bytes_of_string s))).

End Sha256.

(** ** Exceptions and results *)

Inductive exn : Type :=
| RedisError (message : string)               (* redis.RedisError *)
| CacheOperationError (operation : string)    (* app.exceptions.cache_exceptions *)
| CacheSerializationError (operation : string)
| ValidationError (field : string)            (* pydantic *)
| KeyError (key : string)
| CollaboratorError (message : string).       (* anything a model chain or a provider raises *)

Inductive result (A : Type) : Type :=
| Ok (a : A)
| Raise (e : exn).

Arguments Ok {A} a.
Arguments Raise {A} e.

(** ** Data model ([app/models/query.py], [app/models/response.py]) *)

Module QueryType.
Inductive t : Type :=
| LOCATION | BUSINESS_MODEL | INVESTMENTS | NEWS | CUSTOMERS | GENERAL.

Definition value (q : t) : string :=
  match q with
  | LOCATION => "location"
  | BUSINESS_MODEL => "business_model"
  | INVESTMENTS => "investments"
  | NEWS => "news"
  | CUSTOMERS => "customers"
  | GENERAL => "general"
  end.

Definition members : list t :=
  [LOCATION; BUSINESS_MODEL; INVESTMENTS; NEWS; CUSTOMERS; GENERAL].

(** [QueryType(v)]: the member whose value is [v], [ValueError] (here
    [None]) when there is none. *)
Definition of_value (v : string) : option t :=
  List.find (fun q => String.eqb (value q) v) members.

Definition eqb (a b : t) : bool := String.eqb (value a) (value b).
End QueryType.

(** [extracted_entities], with the four keys the parser always sets. *)
Record Entities : Type := {
  companies : list string;
  products : list string;
  people : list string;
  attributes : list string
}.

Definition no_entities : Entities :=
  {| companies := []; products := []; people := []; attributes := [] |}.

Record IntentAnalysis : Type := {
  query_type : QueryType.t;
  extracted_entities : Entities;
  time_constraints : option string
}.

(** A confidence score as pydantic accepts it: [ge=0.0, le=1.0]. *)
Definition score_in_range (x : float) : bool :=
  PrimFloat.leb 0 x && PrimFloat.leb x 1.

Record AmbiguityCheck : Type := {
  is_ambiguous : bool;
  clarification_message : option string;
  possible_interpretations : option (list string);
  ambiguity_confidence : float
}.

(** [AmbiguityCheck(...)]: the constructor validates the score. *)
Definition mkAmbiguityCheck (amb : bool) (msg : option string)
    (interp : option (list string)) (score : float) : result AmbiguityCheck :=
  if score_in_range score
  then Ok {| is_ambiguous := amb; clarification_message := msg;
             possible_interpretations := interp; ambiguity_confidence := score |}
  else Raise (ValidationError "confidence_score").

Record ValidationDetails : Type := {
  key_findings : list string;
  summary : string
}.

Definition default_details : ValidationDetails :=
  {| key_findings := []; summary := "" |}.

Record ValidationResult : Type := {
  is_valid : bool;
  confidence_score : float;
  missing_information : list string;
  validation_details : ValidationDetails
}.

Definition mkValidationResult (valid : bool) (score : float)
    (missing : list string) (details : ValidationDetails) : result ValidationResult :=
  if score_in_range score
  then Ok {| is_valid := valid; confidence_score := score;
             missing_information := missing; validation_details := details |}
  else Raise (ValidationError "confidence_score").

Record QueryResponse : Type := {
  response : string;
  response_confidence : float
}.

Definition mkQueryResponse (text : string) (score : float) : result QueryResponse :=
  if score_in_range score
  then Ok {| response := text; response_confidence := score |}
  else Raise (ValidationError "confidence_score").

(** One unit of evidence, as the retrievers build it: a dictionary with the
    keys [content], [source], [query] and, for web results, [url]. *)
Record EvidenceItem : Type := {
  content : string;
  source : string;
  origin_query : string;                      (* the key "query" *)
  url : option string
}.

(** What a retriever returns and the cache holds:
    [{"results": [...], "source": ...}]. *)
Record Payload : Type := {
  results : list EvidenceItem;
  payload_source : string
}.

(** [d.get("results", []) if d else []] on an optional payload. *)
Definition results_of (d : option Payload) : list EvidenceItem :=
  match d with
  | Some p => results p
  | None => []
  end.

(** ** Collaborators and the world *)

(** The JSON object the intent chain produces.  [raw_query_type] is [None]
    when the key is missing. *)
Record RawIntent : Type := {
  raw_query_type : option string;
  raw_entities : Entities;
  raw_time_constraints : option string
}.

(** The JSON object the ambiguity chain produces, after [bool(...)] and
    [float(...)]. *)
Record RawAmbiguity : Type := {
  raw_is_ambiguous : bool;
  raw_clarification_message : option string;
  raw_possible_interpretations : list string;
  raw_confidence_score : float
}.

(** What the evaluator model answers, before [EvaluationOutput] validates
    it. *)
Record RawEvaluation : Type := {
  main_points : list string;
  raw_missing_information : list string;
  raw_confidence : float;
  raw_summary : string
}.

Record EvaluationInput : Type := {
  input_query : string;
  input_query_type : string;
  input_companies : string;
  input_data : string
}.

(** One search hit of the web provider; either key may be missing. *)
Record TavilyItem : Type := {
  hit_content : option string;
  hit_url : option string
}.

(** The web search tool answers a list of hits, or a text. *)
Inductive TavilyOutput : Type :=
| Hits (items : list TavilyItem)
| Text (message : string).

Record Env : Type := {
  CACHE_ENABLED : bool;                       (* settings.CACHE_ENABLED *)
  redis_up : bool;                            (* false: every command raises redis.RedisError *)
  today : string;                             (* datetime.now().strftime('%Y-%m-%d') *)
  last_week : string;                         (* seven days before, same format *)
  json_dumps : Payload -> string;
  json_loads : string -> option Payload;      (* None: json.JSONDecodeError *)
  wikipedia_arun : string -> result string;
  tavily_arun : string -> result TavilyOutput;
  intent_chain : string -> result RawIntent;
  ambiguity_chain : string -> string -> result RawAmbiguity;
  evaluation_llm : EvaluationInput -> result RawEvaluation;
  set_order : list string -> list string      (* iteration order of a Python set *)
}.

(** Calls that leave the process. *)
Inductive event : Type :=
| RedisGet (key : string)
| RedisSetex (key : string) (ttl : Z) (value : string)
| WikipediaCall (q : string)
| TavilyCall (q : string)
| IntentModelCall (q : string)
| AmbiguityModelCall (q : string) (data : string)
| EvaluatorModelCall (input : EvaluationInput).

(** The Redis database (value and time to live of each key) and the log of
    external calls, oldest first. *)
Record World : Type := {
  redis : gmap string (string * Z);
  calls : list event
}.

Definition log (e : event) (w : World) : World :=
  {| redis := redis w; calls := calls w ++ [e] |}.

(** ** Computations: state and exceptions *)

Definition M (A : Type) : Type := World -> result A * World.

Definition ret {A} (a : A) : M A := fun w => (Ok a, w).
Definition raise {A} (e : exn) : M A := fun w => (Raise e, w).

Definition bind {A B} (m : M A) (k : A -> M B) : M B :=
  fun w =>
    match m w with
    | (Ok a, w') => k a w'
    | (Raise e, w') => (Raise e, w')
    end.

(** [try: m  except Exception as e: h e] *)
Definition try_except {A} (m : M A) (h : exn -> M A) : M A :=
  fun w =>
    match m w with
    | (Ok a, w') => (Ok a, w')
    | (Raise e, w') => h e w'
    end.

(** A pure step that may raise. *)
Definition lift {A} (r : result A) : M A := fun w => (r, w).

Declare Scope py_scope.
Delimit Scope py_scope with py.
Notation "'let*' x ':=' m 'in' k" := (bind m (fun x => k))
  (at level 10, x name, m at level 100, k at level 200) : py_scope.
Open Scope py_scope.

(** A call to a collaborator: logged, then answered by the environment. *)
Definition call {A} (e : event) (answer : result A) : M A :=
  fun w => (answer, log e w).

(** A computation that returns, whatever the world. *)
Definition total {A} (m : M A) : Prop :=
  forall w, exists a w', m w = (Ok a, w').

(** Whatever a computation returns satisfies [P]. *)
Definition returns {A} (P : A -> Prop) (m : M A) : Prop :=
  forall w a w', m w = (Ok a, w') -> P a.

(** Unfolds the plumbing of computations. *)
Ltac run_py :=
  unfold try_except, bind, ret, raise, lift, call in *; simpl in *.

(** ** Cache constants ([app/constants/cache_constants.py]) *)

Module CacheTTL.
Definition DEFAULT : Z := 86400.
Definition NEWS : Z := 3600.
Definition LOCATION : Z := 604800.
Definition BUSINESS : Z := 43200.
Definition INVESTMENT : Z := 21600.
End CacheTTL.

Module CachePrefix.
Definition COMPANY_INFO : string := "company_info".
End CachePrefix.

(** The query categories of the cache, which are not those of the intent
    model. *)
Module CacheQueryType.
Inductive t : Type := NEWS | LOCATION | BUSINESS | INVESTMENT | GENERAL.

Definition value (q : t) : string :=
  match q with
  | NEWS => "news"
  | LOCATION => "location"
  | BUSINESS => "business"
  | INVESTMENT => "investment"
  | GENERAL => "general"
  end.
End CacheQueryType.

Definition TTL_MAPPING : gmap string Z :=
  list_to_map
    [ (CacheQueryType.value CacheQueryType.NEWS, CacheTTL.NEWS);
      (CacheQueryType.value CacheQueryType.LOCATION, CacheTTL.LOCATION);
      (CacheQueryType.value CacheQueryType.BUSINESS, CacheTTL.BUSINESS);
      (CacheQueryType.value CacheQueryType.INVESTMENT, CacheTTL.INVESTMENT);
      (CacheQueryType.value CacheQueryType.GENERAL, CacheTTL.DEFAULT) ].

(** ** The result cache ([app/services/cache.py]) *)

Module RedisCacheService.
Section WithEnv.
Variable env : Env.

Definition recency_terms : list string := ["news"; "latest"; "recent"].

(** [any(term in key_lower for term in ['news', 'latest', 'recent'])] *)
Definition has_recency_marker (key_lower : string) : bool :=
  existsb (fun term => Py.contains term key_lower) recency_terms.

(** The text that is hashed; [date] is the clock's day. *)
Definition key_content (date key source : string) : string :=
  let key_lower := Py.strip (Py.lower key) in
  if has_recency_marker key_lower
  then key_lower ++ ":" ++ source ++ ":" ++ date
  else key_lower ++ ":" ++ source.

Definition generate_cache_key_on (date key source : string) : string :=
  let hashed := Sha256.hexdigest (key_content date key source) in
  CachePrefix.COMPANY_INFO ++ ":" ++ hashed.

Definition _generate_cache_key (key source : string) : string :=
  generate_cache_key_on (today env) key source.

Definition _calculate_ttl (query_type : string) : Z :=
  default CacheTTL.DEFAULT (TTL_MAPPING !! query_type).

(** [self.redis_client.get(k)] *)
Definition redis_get (k : string) : M (option string) :=
  fun w =>
    if redis_up env
    then (Ok (fst <$> redis w !! k), log (RedisGet k) w)
    else (Raise (RedisError "connection"), log (RedisGet k) w).

(** [self.redis_client.setex(k, ttl, v)]; the server rejects an expiry
    that is not positive. *)
Definition redis_setex (k : string) (ttl : Z) (v : string) : M bool :=
  fun w =>
    if redis_up env
    then if (0 <? ttl)%Z
         then (Ok true, log (RedisSetex k ttl v)
                            {| redis := <[k := (v, ttl)]> (redis w); calls := calls w |})
         else (Raise (RedisError "invalid expire time in setex"),
               log (RedisSetex k ttl v) w)
    else (Raise (RedisError "connection"), log (RedisSetex k ttl v) w).

(** [except redis.RedisError as e: raise CacheOperationError(op, str(e))];
    other exceptions pass. *)
Definition on_redis_error {A} (op : string) (e : exn) : M A :=
  match e with
  | RedisError _ => raise (CacheOperationError op)
  | _ => raise e
  end.

Definition get_cached_data (key source : string) : M (option Payload) :=
  if negb (CACHE_ENABLED env) then ret None
  else
    try_except
      (let cache_key := _generate_cache_key key source in
       let* cached_data := redis_get cache_key in
       match cached_data with
       | Some text =>
           if Py.truthy text
           then match json_loads env text with
                | Some data => ret (Some data)
                | None => raise (CacheSerializationError "deserialization")
                end
           else ret None
       | None => ret None
       end)
      (on_redis_error "get").

Definition set_cached_data (key source : string) (data : Payload)
    (ttl : option Z) : M bool :=
  if negb (CACHE_ENABLED env) then ret false
  else
    try_except
      (let cache_key := _generate_cache_key key source in
       let serialized_data := json_dumps env data in
       let expiration :=
         match ttl with
         | Some t => t
         | None => _calculate_ttl (CacheQueryType.value CacheQueryType.GENERAL)
         end in
       let* success := redis_setex cache_key expiration serialized_data in
       ret success)
      (on_redis_error "set").

(** [self.redis_client.delete(k)]: the number of keys removed.  The call
    log keeps the reads and writes of entries; deleting, flushing and
    pinging leave it as it is. *)
Definition redis_delete (k : string) : M Z :=
  fun w =>
    if redis_up env
    then match redis w !! k with
         | Some _ => (Ok 1%Z, {| redis := delete k (redis w); calls := calls w |})
         | None => (Ok 0%Z, w)
         end
    else (Raise (RedisError "connection"), w).

(** [self.redis_client.flushdb()] *)
Definition redis_flushdb : M bool :=
  fun w =>
    if redis_up env
    then (Ok true, {| redis := ∅; calls := calls w |})
    else (Raise (RedisError "connection"), w).

(** [self.redis_client.ping()] *)
Definition redis_ping : M bool :=
  fun w =>
    if redis_up env then (Ok true, w) else (Raise (RedisError "connection"), w).

Definition invalidate_cache (key source : string) : M bool :=
  if negb (CACHE_ENABLED env) then ret false
  else
    try_except
      (let cache_key := _generate_cache_key key source in
       let* success := redis_delete cache_key in
       ret (negb (success =? 0)%Z))
      (on_redis_error "invalidate").

(** No test of the toggle here: the server is pinged even when the cache is
    disabled. *)
Definition health_check : M bool :=
  try_except
    (let* pong := redis_ping in ret pong)
    (fun _ => ret false).

Definition clear_all : M bool :=
  if negb (CACHE_ENABLED env) then ret false
  else
    try_except
      (let* flushed := redis_flushdb in ret flushed)
      (on_redis_error "clear_all").

End WithEnv.
End RedisCacheService.

(** ** Evidence retrieval ([app/services/data_retriever.py]) *)

Module DataRetriever.
Section WithEnv.
Variable env : Env.

Definition _generate_wikipedia_query (intent_analysis : IntentAnalysis) : string :=
  match companies (extracted_entities intent_analysis) with
  | [] => ""
  | company :: _ =>
      match query_type intent_analysis with
      | QueryType.LOCATION => company ++ " headquarters location company"
      | QueryType.BUSINESS_MODEL => company ++ " business model revenue"
      | QueryType.INVESTMENTS => company ++ " investments portfolio companies"
      | QueryType.NEWS => company ++ " company recent developments"
      | QueryType.CUSTOMERS => company ++ " customers clients"
      | QueryType.GENERAL => company ++ " company information"
      end
  end.

Definition _generate_tavily_query (intent_analysis : IntentAnalysis) : string :=
  match companies (extracted_entities intent_analysis) with
  | [] => ""
  | company :: _ =>
      let time_constraint :=
        if QueryType.eqb (query_type intent_analysis) QueryType.NEWS
        then "after:" ++ last_week env
        else "" in
      let first_query :=
        match query_type intent_analysis with
        | QueryType.NEWS => "latest news about " ++ company ++ " " ++ time_constraint
        | QueryType.LOCATION => company ++ " headquarters current location"
        | QueryType.BUSINESS_MODEL => "How does " ++ company ++ " make money business model"
        | QueryType.INVESTMENTS => company ++ " investment portfolio companies"
        | QueryType.CUSTOMERS => company ++ " main customers current"
        | QueryType.GENERAL => company ++ " company overview current"
        end in
      match time_constraints intent_analysis with
      | Some tc => if Py.truthy tc then first_query ++ " " ++ tc else first_query
      | None => first_query
      end
  end.

Definition no_results (name : string) : Payload :=
  {| results := []; payload_source := name |}.

(** What the encyclopedia stage answers once the provider has answered
    [wiki_result]: one item, or nothing when the text is empty. *)
Definition wikipedia_evidence (query wiki_result : string) : Payload :=
  if Py.truthy wiki_result
  then {| results := [ {| content := wiki_result;
                          source := "Wikipedia";
                          origin_query := query;
                          url := None |} ];
          payload_source := "Wikipedia" |}
  else no_results "Wikipedia".

Definition retrieve_wikipedia_data (intent_analysis : IntentAnalysis) : M Payload :=
  match companies (extracted_entities intent_analysis) with
  | [] => ret (no_results "Wikipedia")
  | _ :: _ =>
      let query := _generate_wikipedia_query intent_analysis in
      let* cached_data := RedisCacheService.get_cached_data env query "wikipedia" in
      match cached_data with
      | Some data => ret data
      | None =>
          try_except
            (let* wiki_result := call (WikipediaCall query) (wikipedia_arun env query) in
             ret (wikipedia_evidence query wiki_result))
            (fun _ => ret (no_results "Wikipedia"))
      end
  end.

(** [isinstance(item, dict) and item.get("content")] *)
Definition has_content (item : TavilyItem) : bool :=
  match hit_content item with
  | Some c => Py.truthy c
  | None => false
  end.

(** The dictionaries met when iterating over the tool's answer; a text
    yields characters, none of which is one. *)
Definition hits_of (out : TavilyOutput) : list TavilyItem :=
  match out with
  | Hits items => items
  | Text _ => []
  end.

Definition evidence_of_hit (query : string) (item : TavilyItem) : EvidenceItem :=
  {| content := default "" (hit_content item);
     source := "Tavily";
     origin_query := query;
     url := hit_url item |}.

(** What the web stage answers once the provider has answered
    [tavily_results]: for a NEWS intent the hits are first narrowed to those
    with a content (unless none has one), then every hit with a content
    becomes an item. *)
Definition tavily_evidence (intent_analysis : IntentAnalysis) (query : string)
    (tavily_results : TavilyOutput) : Payload :=
  let tavily_results :=
    match tavily_results with
    | Hits items =>
        if QueryType.eqb (query_type intent_analysis) QueryType.NEWS
        then match filter has_content items with
             | [] => tavily_results
             | filtered_results => Hits filtered_results
             end
        else tavily_results
    | Text _ => tavily_results
    end in
  {| results := map (evidence_of_hit query)
                    (filter has_content (hits_of tavily_results));
     payload_source := "Tavily" |}.

Definition retrieve_tavily_data (intent_analysis : IntentAnalysis) : M Payload :=
  match companies (extracted_entities intent_analysis) with
  | [] => ret (no_results "Tavily")
  | _ :: _ =>
      let query := _generate_tavily_query intent_analysis in
      let* cached_data := RedisCacheService.get_cached_data env query "Tavily" in
      match cached_data with
      | Some data => ret data
      | None =>
          try_except
            (let* tavily_results := call (TavilyCall query) (tavily_arun env query) in
             ret (tavily_evidence intent_analysis query tavily_results))
            (fun _ => ret (no_results "Tavily"))
      end
  end.

End WithEnv.
End DataRetriever.

(** ** Intent and ambiguity ([app/services/query_parser.py]) *)

Module QueryParser.
Section WithEnv.
Variable env : Env.

Definition fallback_intent : IntentAnalysis :=
  {| query_type := QueryType.GENERAL;
     extracted_entities := no_entities;
     time_constraints := None |}.

Definition analyze_intent (query : string) : M IntentAnalysis :=
  try_except
    (let* intent_result := call (IntentModelCall query) (intent_chain env query) in
     match raw_query_type intent_result with
     | None => raise (KeyError "query_type")
     | Some v =>
         let query_type_enum := default QueryType.GENERAL (QueryType.of_value v) in
         ret {| query_type := query_type_enum;
                extracted_entities := raw_entities intent_result;
                time_constraints := raw_time_constraints intent_result |}
     end)
    (fun _ => ret fallback_intent).

Definition format_item (source_name : string) (item : EvidenceItem) : string :=
  "Source: " ++ source_name ++ String "010" "Content: " ++ Py.take 500 (content item).

(** [retrieved_data] is the dictionary [{"wiki": ..., "tavily": ...}], in
    insertion order. *)
Definition _format_retrieved_data
    (retrieved_data : list (string * list EvidenceItem)) : string :=
  Py.join (String "010" (String "010" ""))
    (flat_map
       (fun entry =>
          if String.eqb (fst entry) "combined" then []
          else map (format_item (fst entry)) (snd entry))
       retrieved_data).

Definition check_ambiguity (query : string)
    (retrieved_data : list (string * list EvidenceItem)) : M AmbiguityCheck :=
  try_except
    (let formatted_data := _format_retrieved_data retrieved_data in
     let* ambiguity_result :=
       call (AmbiguityModelCall query formatted_data)
            (ambiguity_chain env query formatted_data) in
     lift (mkAmbiguityCheck (raw_is_ambiguous ambiguity_result)
                            (raw_clarification_message ambiguity_result)
                            (Some (raw_possible_interpretations ambiguity_result))
                            (raw_confidence_score ambiguity_result)))
    (fun _ => lift (mkAmbiguityCheck false None None 0.5)).

End WithEnv.
End QueryParser.

(** ** Evaluation and response synthesis ([app/services/evaluator.py]) *)

Record QueryAnalysis : Type := {
  intent_analysis : IntentAnalysis;
  analysis_ambiguity_check : option AmbiguityCheck;
  original_query : string;
  analysis_requires_clarification : bool
}.

(** The dictionary [{"wikipedia": ..., "tavily": ..., "combined": ...}]. *)
Record RetrievedData : Type := {
  wikipedia : list EvidenceItem;
  tavily : list EvidenceItem;
  combined : list EvidenceItem
}.

Module DataEvaluator.
Section WithEnv.
Variable env : Env.

Definition line_feed : string := String "010" "".

Definition format_source (item : EvidenceItem) : list string :=
  let text := Py.strip (content item) in
  if Py.truthy text
  then ["Source(" ++ source item ++ "):" ++ line_feed ++ Py.take 500 text]
  else [].

Definition _format_data_for_evaluation (combined_data : list EvidenceItem) : string :=
  Py.join (line_feed ++ line_feed) (flat_map format_source combined_data).

(** The output parser of the chain: [EvaluationOutput] bounds the score. *)
Definition parse_evaluation (raw : RawEvaluation) : result RawEvaluation :=
  if score_in_range (raw_confidence raw) then Ok raw
  else Raise (ValidationError "confidence_score").

(** [evaluation_prompt | llm | parser] *)
Definition evaluation_chain (input : EvaluationInput) : M RawEvaluation :=
  let* raw := call (EvaluatorModelCall input) (evaluation_llm env input) in
  lift (parse_evaluation raw).

(** The literal [0.7] of the validity test. *)
Definition validity_threshold : float := 0.7%float.

Definition evaluation_input_of (query_analysis : QueryAnalysis)
    (combined_data : list EvidenceItem) : EvaluationInput :=
  let formatted_data := _format_data_for_evaluation combined_data in
  let intent := intent_analysis query_analysis in
  let companies := Py.join ", " (companies (extracted_entities intent)) in
  {| input_query := original_query query_analysis;
     input_query_type := QueryType.value (query_type intent);
     input_companies := if Py.truthy companies then companies else "Not specified";
     input_data := formatted_data |}.

Definition evaluate_data (query_analysis : QueryAnalysis)
    (retrieved_data : RetrievedData) : M ValidationResult :=
  try_except
    (let combined_data := combined retrieved_data in
     match combined_data with
     | [] =>
         lift (mkValidationResult false 0 ["No data retrieved"]
                 {| key_findings := [];
                    summary := "No data available for evaluation" |})
     | _ :: _ =>
         let evaluation_input := evaluation_input_of query_analysis combined_data in
         let* evaluation := evaluation_chain evaluation_input in
         lift (mkValidationResult
                 (PrimFloat.leb validity_threshold (raw_confidence evaluation))
                 (raw_confidence evaluation)
                 (raw_missing_information evaluation)
                 {| key_findings := main_points evaluation;
                    summary := raw_summary evaluation |})
     end)
    (fun e => raise e).

(** [any("news" in str(item.get("query", "")).lower() for item in ...)] *)
Definition is_news_query (combined_data : list EvidenceItem) : bool :=
  existsb (fun item => Py.contains "news" (Py.lower (origin_query item))) combined_data.

(** The clean-up of one news text: bracketed notes and the link marker
    removed, runs of dots and of white space collapsed, and a text of more
    than 200 characters cut after its first sentence. *)
Definition clean_content (text : string) : string :=
  let text := Py.sub_brackets text in
  let text := Py.remove_literal "(Opens in new window)" text in
  let text := Py.sub_dots text in
  let text := Py.join " " (Py.split text) in
  if (200 <? Py.len text)%nat
  then let first_sentence := Py.first_sentence text in
       if Py.truthy first_sentence then first_sentence ++ "." else text
  else text.

(** One bullet of the digest. *)
Definition news_item (item : EvidenceItem) (text : string) : string :=
  let line := "â€¢ " ++ text in
  match url item with
  | Some link =>
      if Py.truthy link
      then line ++ " (Source: " ++ source item ++ ", " ++ link ++ ")"
      else if Py.truthy (source item)
           then line ++ " (Source: " ++ source item ++ ")" else line
  | None =>
      if Py.truthy (source item)
      then line ++ " (Source: " ++ source item ++ ")" else line
  end.

(** The loop over the evidence: [news_items] and [seen_content] are the
    two accumulators of the source. *)
Fixpoint collect_news (combined_data : list EvidenceItem)
    (news_items : list string) (seen_content : gset string) : list string :=
  match combined_data with
  | [] => news_items
  | item :: rest =>
      if negb (Py.truthy (content item))
      then collect_news rest news_items seen_content
      else
        let text := clean_content (content item) in
        if (Py.len text <? 20)%nat || bool_decide (text ∈ seen_content)
        then collect_news rest news_items seen_content
        else collect_news rest (news_items ++ [news_item item text])
                          (seen_content ∪ {[ text ]})
  end.

Definition paragraph_break : string := line_feed ++ line_feed.

Definition format_news (combined_data : list EvidenceItem) : string :=
  match collect_news combined_data [] ∅ with
  | [] => "No recent news found for this query."
  | news_items => "Latest news:" ++ paragraph_break ++
                  Py.join paragraph_break (firstn 3 news_items)
  end.

Definition main_fact_of (validation_result : ValidationResult)
    (first_item : EvidenceItem) : string :=
  match key_findings (validation_details validation_result) with
  | finding :: _ => Py.strip finding
  | [] =>
      let main_fact := Py.strip (content first_item) in
      if (200 <? Py.len main_fact)%nat
      then Py.rsplit_dot_head (Py.take 200 main_fact) ++ "."
      else main_fact
  end.

Definition format_fact (validation_result : ValidationResult)
    (first_item : EvidenceItem) (combined_data : list EvidenceItem) : string :=
  let main_fact := main_fact_of validation_result first_item in
  let sources :=
    set_order env
      (Py.distinct (filter Py.truthy (map source (firstn 2 combined_data)))) in
  let source_citation :=
    match sources with
    | [] => ""
    | _ :: _ => " (Source: " ++ Py.join ", " sources ++ ")"
    end in
  let response := if Py.endswith_dot main_fact then main_fact else main_fact ++ "." in
  response ++ source_citation.

Definition _format_final_response (validation_result : ValidationResult)
    (retrieved_data : RetrievedData) : string :=
  if negb (is_valid validation_result)
  then "I apologize, but I couldn't find enough reliable information to answer your question accurately."
  else
    match combined retrieved_data with
    | [] => "No relevant information found."
    | first_item :: _ =>
        let combined_data := combined retrieved_data in
        if is_news_query combined_data
        then format_news combined_data
        else format_fact validation_result first_item combined_data
    end.

End WithEnv.
End DataEvaluator.

(** ** The orchestrator ([app/core/workflow.py]) *)

Record WorkflowState : Type := {
  query : string;
  intent : option IntentAnalysis;
  ambiguity_check : option AmbiguityCheck;
  wiki_results : option Payload;
  tavily_results : option Payload;
  evaluation : option ValidationResult;
  state_response : option QueryResponse;
  requires_clarification : bool
}.

(** [WorkflowState(query=query)] *)
Definition initial_state (q : string) : WorkflowState :=
  {| query := q; intent := None; ambiguity_check := None;
     wiki_results := None; tavily_results := None; evaluation := None;
     state_response := None; requires_clarification := false |}.

(** The dictionary a node returns: the keys it sets, each with its new
    value.  A key that is set to [None] is [Some None]; a key that is left
    out is [None]. *)
Record Update : Type := {
  set_intent : option (option IntentAnalysis);
  set_ambiguity_check : option (option AmbiguityCheck);
  set_wiki_results : option (option Payload);
  set_tavily_results : option (option Payload);
  set_evaluation : option (option ValidationResult);
  set_response : option (option QueryResponse);
  set_requires_clarification : option bool
}.

Definition no_update : Update :=
  {| set_intent := None; set_ambiguity_check := None; set_wiki_results := None;
     set_tavily_results := None; set_evaluation := None; set_response := None;
     set_requires_clarification := None |}.

(** The graph merges a node's dictionary into the state. *)
Definition apply_update (u : Update) (s : WorkflowState) : WorkflowState :=
  {| query := query s;
     intent := default (intent s) (set_intent u);
     ambiguity_check := default (ambiguity_check s) (set_ambiguity_check u);
     wiki_results := default (wiki_results s) (set_wiki_results u);
     tavily_results := default (tavily_results s) (set_tavily_results u);
     evaluation := default (evaluation s) (set_evaluation u);
     state_response := default (state_response s) (set_response u);
     requires_clarification :=
       default (requires_clarification s) (set_requires_clarification u) |}.

Module CompanyInfoWorkflow.
Section WithEnv.
Variable env : Env.

(** [{"requires_clarification": True, "ambiguity_check": AmbiguityCheck(
    is_ambiguous=True, clarification_message=message, confidence_score=0.0)}] *)
Definition clarification_update (message : string) (with_intent : bool) : M Update :=
  let* check := lift (mkAmbiguityCheck true (Some message) None 0) in
  ret {| set_intent := if with_intent then Some None else None;
         set_ambiguity_check := Some (Some check);
         set_wiki_results := None; set_tavily_results := None;
         set_evaluation := None; set_response := None;
         set_requires_clarification := Some true |}.

Definition analyze_intent (state : WorkflowState) : M Update :=
  try_except
    (let* intent := QueryParser.analyze_intent env (query state) in
     ret {| set_intent := Some (Some intent);
            set_ambiguity_check := Some None;
            set_wiki_results := None; set_tavily_results := None;
            set_evaluation := None; set_response := None;
            set_requires_clarification := Some false |})
    (fun _ => clarification_update "Failed to analyze query intent" true).

Definition check_ambiguity (state : WorkflowState) : M Update :=
  match intent state with
  | None => clarification_update "Could not determine query intent" false
  | Some _ =>
      try_except
        (let* check :=
           QueryParser.check_ambiguity env (query state)
             [ ("wiki", results_of (wiki_results state));
               ("tavily", results_of (tavily_results state)) ] in
         ret {| set_intent := None;
                set_ambiguity_check := Some (Some check);
                set_wiki_results := None; set_tavily_results := None;
                set_evaluation := None; set_response := None;
                set_requires_clarification := Some (is_ambiguous check) |})
        (fun _ => clarification_update "Error checking query ambiguity" false)
  end.

Definition wiki_update (data : option Payload) : Update :=
  {| set_intent := None; set_ambiguity_check := None;
     set_wiki_results := Some data; set_tavily_results := None;
     set_evaluation := None; set_response := None;
     set_requires_clarification := None |}.

Definition tavily_update (data : option Payload) : Update :=
  {| set_intent := None; set_ambiguity_check := None;
     set_wiki_results := None; set_tavily_results := Some data;
     set_evaluation := None; set_response := None;
     set_requires_clarification := None |}.

Definition retrieve_wiki_data (state : WorkflowState) : M Update :=
  match intent state with
  | None => ret (wiki_update None)
  | Some intent_analysis =>
      if requires_clarification state then ret (wiki_update None)
      else
        try_except
          (let* wiki_data := DataRetriever.retrieve_wikipedia_data env intent_analysis in
           ret (wiki_update (Some wiki_data)))
          (fun _ => ret (wiki_update (Some (DataRetriever.no_results "Wikipedia"))))
  end.

Definition retrieve_tavily_data (state : WorkflowState) : M Update :=
  match intent state with
  | None => ret (tavily_update None)
  | Some intent_analysis =>
      if requires_clarification state then ret (tavily_update None)
      else
        try_except
          (let* tavily_data := DataRetriever.retrieve_tavily_data env intent_analysis in
           ret (tavily_update (Some tavily_data)))
          (fun _ => ret (tavily_update (Some (DataRetriever.no_results "Tavily"))))
  end.

Definition evaluation_update (v : ValidationResult) : Update :=
  {| set_intent := None; set_ambiguity_check := None;
     set_wiki_results := None; set_tavily_results := None;
     set_evaluation := Some (Some v); set_response := None;
     set_requires_clarification := None |}.

(** [combined_data] of the last two nodes: first the encyclopedia's items,
    then the web search's. *)
Definition combined_data_of (state : WorkflowState) : RetrievedData :=
  let wiki := results_of (wiki_results state) in
  let tavily := results_of (tavily_results state) in
  {| wikipedia := wiki; tavily := tavily; combined := wiki ++ tavily |}.

Definition evaluate_data (state : WorkflowState) : M Update :=
  if requires_clarification state
  then let* v := lift (mkValidationResult false 0 ["Query requires clarification"]
                         default_details) in
       ret (evaluation_update v)
  else
    try_except
      (let combined_data := combined_data_of state in
       match intent state with
       | None => raise (ValidationError "intent_analysis")
       | Some intent_analysis =>
           let query_analysis :=
             {| intent_analysis := intent_analysis;
                analysis_ambiguity_check := ambiguity_check state;
                original_query := query state;
                analysis_requires_clarification := requires_clarification state |} in
           let* evaluation := DataEvaluator.evaluate_data env query_analysis combined_data in
           ret (evaluation_update evaluation)
       end)
      (fun _ =>
         let* v := lift (mkValidationResult false 0 ["Error evaluating data"]
                           default_details) in
         ret (evaluation_update v)).

Definition response_update (r : QueryResponse) : Update :=
  {| set_intent := None; set_ambiguity_check := None;
     set_wiki_results := None; set_tavily_results := None;
     set_evaluation := None; set_response := Some (Some r);
     set_requires_clarification := None |}.

Definition respond (text : string) (score : float) : M Update :=
  let* r := lift (mkQueryResponse text score) in
  ret (response_update r).

(** [state.ambiguity_check.clarification_message if state.ambiguity_check
    and state.ambiguity_check.clarification_message else "Please clarify
    your query"] *)
Definition clarification_msg_of (state : WorkflowState) : string :=
  match ambiguity_check state with
  | Some check =>
      match clarification_message check with
      | Some message => if Py.truthy message then message else "Please clarify your query"
      | None => "Please clarify your query"
      end
  | None => "Please clarify your query"
  end.

Definition generate_response (state : WorkflowState) : M Update :=
  try_except
    (if requires_clarification state
     then respond (clarification_msg_of state) 0
     else
       match evaluation state with
       | None =>
           respond "Could not find enough reliable information to answer your query" 0
       | Some evaluation =>
           if negb (is_valid evaluation)
           then respond "Could not find enough reliable information to answer your query" 0
           else
             let combined_data := combined_data_of state in
             let response_text :=
               DataEvaluator._format_final_response env evaluation combined_data in
             respond response_text (confidence_score evaluation)
       end)
    (fun _ => respond "An error occurred while generating the response" 0).

(** The compiled graph: [analyze_intent], [check_ambiguity], the two
    retrieval nodes side by side (both read the state [check_ambiguity]
    left, and write different keys), [evaluate_results] once both are
    done, [generate_response]. *)
Definition graph_ainvoke (initial : WorkflowState) : M WorkflowState :=
  let* u := analyze_intent initial in
  let s1 := apply_update u initial in
  let* u := check_ambiguity s1 in
  let s2 := apply_update u s1 in
  let* u_wiki := retrieve_wiki_data s2 in
  let* u_tavily := retrieve_tavily_data s2 in
  let s3 := apply_update u_tavily (apply_update u_wiki s2) in
  let* u := evaluate_data s3 in
  let s4 := apply_update u s3 in
  let* u := generate_response s4 in
  ret (apply_update u s4).

Definition process_query (query : string) : M QueryResponse :=
  try_except
    (let initial_state := initial_state query in
     let* final_state := graph_ainvoke initial_state in
     match state_response final_state with
     | Some response => ret response
     | None => lift (mkQueryResponse "Failed to process query" 0)
     end)
    (fun _ => lift (mkQueryResponse "An error occurred while processing your query" 0)).

End WithEnv.
End CompanyInfoWorkflow.

(** ** The clock ([datetime.now()]) *)

Module Clock.

(** An instant, in seconds since 1970-01-01T00:00:00Z, and the offset of the
    process's local time from UTC at that instant, in seconds, east
    positive. *)
Record t : Type := {
  instant : Z;
  utc_offset : Z
}.

(** The civil date (year, month, day) of a day counted from 1970-01-01, in
    the proleptic Gregorian calendar. *)
Definition civil_of_days (days : Z) : Z * Z * Z :=
  let z := (days + 719468)%Z in
  let era := (z / 146097)%Z in
  let doe := (z - era * 146097)%Z in
  let yoe := ((doe - doe / 1460 + doe / 36524 - doe / 146096) / 365)%Z in
  let doy := (doe - (365 * yoe + yoe / 4 - yoe / 100))%Z in
  let mp := ((5 * doy + 2) / 153)%Z in
  let d := (doy - (153 * mp + 2) / 5 + 1)%Z in
  let m := (if mp <? 10 then mp + 3 else mp - 9)%Z in
  let y := (yoe + era * 400 + (if m <=? 2 then 1 else 0))%Z in
  (y, m, d).

Definition digit (n : Z) : ascii := ascii_of_nat (Z.to_nat (48 + n mod 10)).

Definition two_digits (n : Z) : string :=
  String (digit (n / 10)) (String (digit n) EmptyString).

Definition four_digits (n : Z) : string :=
  String (digit (n / 1000)) (String (digit (n / 100)) (two_digits n)).

(** [strftime('%Y-%m-%d')] of a day, for the years 1000 to 9999. *)
Definition strftime_ymd (days : Z) : string :=
  let '(y, m, d) := civil_of_days days in
  four_digits y ++ "-" ++ two_digits m ++ "-" ++ two_digits d.

Definition day_of (seconds : Z) : Z := (seconds / 86400)%Z.

(** The date in UTC. *)
Definition utc_date (c : t) : string := strftime_ymd (day_of (instant c)).

(** [datetime.now().strftime('%Y-%m-%d')]: [now()] without a time zone is
    the local time of the process. *)
Definition local_date (c : t) : string :=
  strftime_ymd (day_of (instant c + utc_offset c)).

(** [(datetime.now() - timedelta(days=7)).strftime('%Y-%m-%d')] *)
Definition local_date_last_week (c : t) : string :=
  strftime_ymd (day_of (instant c + utc_offset c) - 7).

End Clock.

(** A deployment read on a clock: the two dates the code takes from
    [datetime.now()] are those of the clock. *)
Definition on_clock (c : Clock.t) (env : Env) : Env :=
  {| CACHE_ENABLED := CACHE_ENABLED env;
     redis_up := redis_up env;
     today := Clock.local_date c;
     last_week := Clock.local_date_last_week c;
     json_dumps := json_dumps env;
     json_loads := json_loads env;
     wikipedia_arun := wikipedia_arun env;
     tavily_arun := tavily_arun env;
     intent_chain := intent_chain env;
     ambiguity_chain := ambiguity_chain env;
     evaluation_llm := evaluation_llm env;
     set_order := set_order env |}.

(** ** Observations on a world *)

(** The time to live of the entry stored under a cache key. *)
Definition stored_ttl (w : World) (cache_key : string) : option Z :=
  snd <$> redis w !! cache_key.

Definition is_provider_call (e : event) : bool :=
  match e with
  | WikipediaCall _ | TavilyCall _ => true
  | _ => false
  end.

Definition is_evaluator_call (e : event) : bool :=
  match e with
  | EvaluatorModelCall _ => true
  | _ => false
  end.

Definition is_redis_write (e : event) : bool :=
  match e with
  | RedisSetex _ _ _ => true
  | _ => false
  end.

(** The fixed answer of the last stage when there is no valid verdict. *)
Definition apology : string :=
  "Could not find enough reliable information to answer your query".

(** What the evaluation stage hands to the evaluator model for a state whose
    intent is [i]. *)
Definition evaluator_input (state : WorkflowState) (i : IntentAnalysis) : EvaluationInput :=
  DataEvaluator.evaluation_input_of
    {| intent_analysis := i;
       analysis_ambiguity_check := ambiguity_check state;
       original_query := query state;
       analysis_requires_clarification := requires_clarification state |}
    (combined (CompanyInfoWorkflow.combined_data_of state)).

Definition is_model_call (e : event) : bool :=
  match e with
  | IntentModelCall _ | AmbiguityModelCall _ _ | EvaluatorModelCall _ => true
  | _ => false
  end.

(** A computation that leaves the database as it is and adds at most [n]
    calls to the log: none of them a write to the cache, at most [p] of them
    to a provider and at most [m] of them to a model. *)
Definition frugal {A} (n p m : nat) (c : M A) : Prop :=
  forall w, exists trace,
    snd (c w) = {| redis := redis w; calls := (calls w ++ trace)%list |}
    /\ length trace <= n
    /\ filter is_redis_write trace = []
    /\ length (filter is_provider_call trace) <= p
    /\ length (filter is_model_call trace) <= m.

(** An item whose content is empty or white space only. *)
Definition blank (item : EvidenceItem) : bool :=
  Py.is_empty (Py.strip (content item)).

(** A character of one byte that is not white space, and a text made of
    such characters. *)
Definition plain_char (c : ascii) : bool :=
  negb (Py.is_space c) && (nat_of_ascii c <? 128)%nat.

Fixpoint spaceless (s : string) : bool :=
  match s with
  | EmptyString => true
  | String c r => plain_char c && spaceless r
  end.

(** A lower-case hexadecimal digit, and a text made of such digits. *)
Definition is_hex_digit (c : ascii) : bool :=
  Py.contains (String c EmptyString) "0123456789abcdef".

Fixpoint all_hex (s : string) : bool :=
  match s with
  | EmptyString => true
  | String c r => is_hex_digit c && all_hex r
  end.

(** The text of an evidence item as the news digest shows it, and the
    bullet made of it. *)
Definition cleaned (item : EvidenceItem) : string :=
  DataEvaluator.clean_content (content item).

Definition digest_bullet (item : EvidenceItem) : string :=
  DataEvaluator.news_item item (cleaned item).

(** An item the digest can quote: it has a content, and its cleaned text
    has at least 20 characters. *)
Definition quotable (item : EvidenceItem) : bool :=
  Py.truthy (content item) && (20 <=? Py.len (cleaned item))%nat.

(** The items that survive the removal of duplicates, as the design
    document words it: an item survives when it can be quoted and no item
    before it that can be quoted has the same cleaned text.  [earlier] holds
    the items already passed, in their order. *)
Fixpoint survivors_after (earlier items : list EvidenceItem) : list EvidenceItem :=
  match items with
  | [] => []
  | item :: rest =>
      let repeated :=
        existsb (fun e => quotable e && String.eqb (cleaned e) (cleaned item)) earlier in
      (if quotable item && negb repeated then [item] else [])
        ++ survivors_after (earlier ++ [item]) rest
  end.

Definition survivors (items : list EvidenceItem) : list EvidenceItem :=
  survivors_after [] items.



(** ** A concrete deployment, for running the model *)

Module Demo.

Definition tesla_entities : Entities :=
  {| companies := ["Tesla"]; products := []; people := []; attributes := [] |}.

Definition tesla (kind : QueryType.t) : IntentAnalysis :=
  {| query_type := kind; extracted_entities := tesla_entities;
     time_constraints := None |}.

Definition anonymous : IntentAnalysis :=
  {| query_type := QueryType.GENERAL; extracted_entities := no_entities;
     time_constraints := None |}.

Definition wiki_text : string :=
  "Tesla, Inc. is an American automotive and clean energy company headquartered in Austin, Texas.".

Definition web_hits : TavilyOutput :=
  Hits [ {| hit_content := Some "Tesla moved its corporate headquarters to Austin, Texas in 2021.";
            hit_url := Some "https://example.com/tesla-hq" |} ].

Definition unambiguous : RawAmbiguity :=
  {| raw_is_ambiguous := false; raw_clarification_message := None;
     raw_possible_interpretations := []; raw_confidence_score := 0.9 |}.

Definition ambiguous : RawAmbiguity :=
  {| raw_is_ambiguous := true;
     raw_clarification_message := Some "Did you mean company X or Y?";
     raw_possible_interpretations := ["X"; "Y"]; raw_confidence_score := 0.9 |}.

Definition judged (score : float) : RawEvaluation :=
  {| main_points := ["Tesla is headquartered in Austin, Texas"];
     raw_missing_information := []; raw_confidence := score;
     raw_summary := "Headquarters found" |}.

(** A deployment with the cache enabled and the Redis server up, on the
    day [date], whose ambiguity chain answers [ambiguity] and whose
    evaluator scores [score]. *)
Definition env_with (date : string) (ambiguity : result RawAmbiguity)
    (score : float) : Env :=
  {| CACHE_ENABLED := true;
     redis_up := true;
     today := date;
     last_week := "2024-04-24";
     json_dumps := fun p => payload_source p;
     json_loads := fun _ => None;
     wikipedia_arun := fun _ => Ok wiki_text;
     tavily_arun := fun _ => Ok web_hits;
     intent_chain := fun _ =>
       Ok {| raw_query_type := Some "location"; raw_entities := tesla_entities;
             raw_time_constraints := None |};
     ambiguity_chain := fun _ _ => ambiguity;
     evaluation_llm := fun _ => Ok (judged score);
     set_order := fun l => l |}.

Definition env : Env := env_with "2024-05-01" (Ok unambiguous) 0.85.

Definition world0 : World := {| redis := ∅; calls := [] |}.

(** Three instants on the clock of a process in Tokyo (UTC+9):
    2024-05-01 at 14:00 and at 16:00 UTC, and 2024-05-02 at 10:00 UTC. *)
Definition tokyo_afternoon : Clock.t :=
  {| Clock.instant := 1714572000; Clock.utc_offset := 32400 |}.

Definition tokyo_night : Clock.t :=
  {| Clock.instant := 1714579200; Clock.utc_offset := 32400 |}.

Definition tokyo_next_day : Clock.t :=
  {| Clock.instant := 1714644000; Clock.utc_offset := 32400 |}.

Definition analysis : QueryAnalysis :=
  {| intent_analysis := tesla QueryType.LOCATION;
     analysis_ambiguity_check := None;
     original_query := "Where is Tesla headquartered?";
     analysis_requires_clarification := false |}.

Definition news_about_tesla (text name : string) : EvidenceItem :=
  {| content := text; source := name;
     origin_query := "latest news about Tesla after:2024-04-24"; url := None |}.

(** Two reports that differ in white space and a bracketed note only, and a
    third one. *)
Definition news_evidence : list EvidenceItem :=
  [ news_about_tesla "Tesla  announced [1] a new battery plant in Nevada   today" "Tavily";
    news_about_tesla "Tesla announced a new battery plant in Nevada today" "Wikipedia";
    news_about_tesla "Tesla recalls two million vehicles over autopilot concerns" "Tavily" ].

Definition trusted : ValidationResult :=
  {| is_valid := true; confidence_score := 0.85; missing_information := [];
     validation_details := default_details |}.

Definition wiki_item : EvidenceItem :=
  {| content := wiki_text; source := "Wikipedia";
     origin_query := "Tesla headquarters location company"; url := None |}.

Definition evidence : RetrievedData :=
  {| wikipedia := [wiki_item]; tavily := []; combined := [wiki_item] |}.

Definition no_evidence : RetrievedData :=
  {| wikipedia := []; tavily := []; combined := [] |}.

(** The state the graph holds once the intent is known: a LOCATION question
    about Tesla, no ambiguity verdict yet. *)
Definition classified : WorkflowState :=
  {| query := "Where is Tesla headquartered?";
     intent := Some (tesla QueryType.LOCATION);
     ambiguity_check := None; wiki_results := None; tavily_results := None;
     evaluation := None; state_response := None;
     requires_clarification := false |}.

Definition cached_payload : Payload :=
  {| results := [wiki_item]; payload_source := "Wikipedia" |}.

(** A deployment whose encyclopedia is unreachable and whose JSON codec
    reads the one text the demonstration stores. *)
Definition env_offline : Env :=
  {| CACHE_ENABLED := true;
     redis_up := true;
     today := "2024-05-01";
     last_week := "2024-04-24";
     json_dumps := fun p => payload_source p;
     json_loads := fun text =>
       if String.eqb text "Wikipedia" then Some cached_payload else None;
     wikipedia_arun := fun _ => Raise (CollaboratorError "offline");
     tavily_arun := fun _ => Raise (CollaboratorError "offline");
     intent_chain := intent_chain env;
     ambiguity_chain := ambiguity_chain env;
     evaluation_llm := evaluation_llm env;
     set_order := fun l => l |}.

(** A world in which the encyclopedia's answer about Tesla's headquarters
    has been stored. *)
Definition warm_world : World :=
  snd (RedisCacheService.set_cached_data env_offline
         (DataRetriever._generate_wikipedia_query (tesla QueryType.LOCATION))
         "wikipedia" cached_payload None world0).

(** The same deployment with the cache switched off, and with the Redis
    server down. *)
Definition env_cache_disabled : Env :=
  {| CACHE_ENABLED := false;
     redis_up := true;
     today := today env_offline;
     last_week := last_week env_offline;
     json_dumps := json_dumps env_offline;
     json_loads := json_loads env_offline;
     wikipedia_arun := wikipedia_arun env;
     tavily_arun := tavily_arun env;
     intent_chain := intent_chain env;
     ambiguity_chain := ambiguity_chain env;
     evaluation_llm := evaluation_llm env;
     set_order := fun l => l |}.

Definition env_redis_down : Env :=
  {| CACHE_ENABLED := true;
     redis_up := false;
     today := today env_offline;
     last_week := last_week env_offline;
     json_dumps := json_dumps env_offline;
     json_loads := json_loads env_offline;
     wikipedia_arun := wikipedia_arun env;
     tavily_arun := tavily_arun env;
     intent_chain := intent_chain env;
     ambiguity_chain := ambiguity_chain env;
     evaluation_llm := evaluation_llm env;
     set_order := fun l => l |}.

(** The state of the graph once the encyclopedia has answered. *)
Definition retrieved : WorkflowState :=
  {| query := "Where is Tesla headquartered?";
     intent := Some (tesla QueryType.LOCATION);
     ambiguity_check := None;
     wiki_results := Some cached_payload;
     tavily_results := Some (DataRetriever.no_results "Tavily");
     evaluation := None; state_response := None;
     requires_clarification := false |}.

(** Evidence of a news search whose reports are too short to be quoted. *)
Definition headlines : RetrievedData :=
  {| wikipedia := [];
     tavily := [ news_about_tesla "Tesla up 3%" "Tavily";
                 news_about_tesla "  " "Tavily" ];
     combined := [ news_about_tesla "Tesla up 3%" "Tavily";
                   news_about_tesla "  " "Tavily" ] |}.

(** Evidence whose items are all blank. *)
Definition blank_evidence : RetrievedData :=
  {| wikipedia := [];
     tavily := [ news_about_tesla "  " "Tavily" ];
     combined := [ news_about_tesla "  " "Tavily" ] |}.

(** A deployment whose intent model is out of order. *)
Definition env_intent_down : Env :=
  {| CACHE_ENABLED := true;
     redis_up := true;
     today := today env;
     last_week := last_week env;
     json_dumps := json_dumps env;
     json_loads := json_loads env;
     wikipedia_arun := wikipedia_arun env;
     tavily_arun := tavily_arun env;
     intent_chain := fun _ => Raise (CollaboratorError "model unavailable");
     ambiguity_chain := ambiguity_chain env;
     evaluation_llm := evaluation_llm env;
     set_order := fun l => l |}.

(** A deployment whose ambiguity model is out of order. *)
Definition env_ambiguity_down : Env :=
  env_with "2024-05-01" (Raise (CollaboratorError "model unavailable")) 0.85.

End Demo.

(** * Properties *)

(** ** Running computations *)

Lemma bind_run {A B} (m : M A) (k : A -> M B) w a w' :
  m w = (Ok a, w') -> bind m k w = k a w'.
Proof. intros H. unfold bind. rewrite H. reflexivity. Qed.

Lemma bind_ok_inv {A B} (m : M A) (k : A -> M B) w b w' :
  bind m k w = (Ok b, w') ->
  exists a w1, m w = (Ok a, w1) /\ k a w1 = (Ok b, w').
Proof.
  unfold bind. destruct (m w) as [[a|e] w1]; intros H; [|discriminate].
  exists a, w1. split; [reflexivity | exact H].
Qed.

Lemma try_except_run {A} (m : M A) (h : exn -> M A) w a w' :
  m w = (Ok a, w') -> try_except m h w = (Ok a, w').
Proof. intros H. unfold try_except. rewrite H. reflexivity. Qed.

Lemma try_except_total {A} (m : M A) (h : exn -> M A) :
  (forall e, total (h e)) -> total (try_except m h).
Proof.
  intros Hh w. unfold try_except.
  destruct (m w) as [[a|e] w1]; [exists a, w1; reflexivity | apply Hh].
Qed.

Lemma try_except_returns {A} (P : A -> Prop) (m : M A) (h : exn -> M A) :
  returns P m -> (forall e, returns P (h e)) -> returns P (try_except m h).
Proof.
  intros Hm Hh w a w'. unfold try_except.
  destruct (m w) as [[a1|e] w1] eqn:Hrun.
  - intros H. injection H as <- <-. exact (Hm _ _ _ Hrun).
  - apply Hh.
Qed.

Lemma bind_total {A B} (m : M A) (k : A -> M B) :
  total m -> (forall a, total (k a)) -> total (bind m k).
Proof.
  intros Hm Hk w. destruct (Hm w) as (a & w1 & Hrun).
  rewrite (bind_run _ _ _ _ _ Hrun). apply Hk.
Qed.

Lemma ret_total {A} (a : A) : total (ret a).
Proof. intros w. exists a, w. reflexivity. Qed.

(** ** Evaluation *)

(** C10.  When the combined evidence handed to [evaluate_data] is empty, it
    returns the invalid verdict (not valid, confidence 0.0, missing
    information "No data retrieved") and leaves the world as it found it:
    the evaluator model is not called. *)
Theorem evaluate_data_without_evidence
    (env : Env) (query_analysis : QueryAnalysis) (retrieved_data : RetrievedData)
    (w : World) :
  combined retrieved_data = [] ->
  DataEvaluator.evaluate_data env query_analysis retrieved_data w =
    (Ok {| is_valid := false; confidence_score := 0;
           missing_information := ["No data retrieved"];
           validation_details :=
             {| key_findings := [];
                summary := "No data available for evaluation" |} |}, w).
Proof.
  intros Hempty. unfold DataEvaluator.evaluate_data. rewrite Hempty.
  reflexivity.
Qed.

Lemma evaluate_data_without_evidence_witness :
  DataEvaluator.evaluate_data Demo.env Demo.analysis Demo.no_evidence Demo.world0 =
    (Ok {| is_valid := false; confidence_score := 0;
           missing_information := ["No data retrieved"];
           validation_details :=
             {| key_findings := [];
                summary := "No data available for evaluation" |} |}, Demo.world0).
Proof.
  apply (evaluate_data_without_evidence Demo.env Demo.analysis Demo.no_evidence
           Demo.world0).
  reflexivity.
Defined.

Lemma evaluate_data_scored env query_analysis retrieved_data w raw :
  combined retrieved_data <> [] ->
  evaluation_llm env
    (DataEvaluator.evaluation_input_of query_analysis (combined retrieved_data)) = Ok raw ->
  score_in_range (raw_confidence raw) = true ->
  DataEvaluator.evaluate_data env query_analysis retrieved_data w =
    (Ok {| is_valid := PrimFloat.leb 0.7 (raw_confidence raw);
           confidence_score := raw_confidence raw;
           missing_information := raw_missing_information raw;
           validation_details :=
             {| key_findings := main_points raw; summary := raw_summary raw |} |},
     log (EvaluatorModelCall
            (DataEvaluator.evaluation_input_of query_analysis (combined retrieved_data))) w).
Proof.
  intros Hne Hllm Hrange.
  unfold DataEvaluator.evaluate_data, DataEvaluator.evaluation_chain,
    DataEvaluator.parse_evaluation.
  destruct (combined retrieved_data) as [|item rest]; [congruence|].
  run_py. rewrite Hllm. simpl. rewrite Hrange. simpl.
  unfold mkValidationResult. rewrite Hrange. reflexivity.
Qed.

(** C5.  The verdict [evaluate_data] returns is valid exactly when its
    confidence score is at least 0.7; a model score of 0.699 gives an invalid
    verdict and a score of 0.7 a valid one. *)
Theorem evaluate_data_validity_threshold :
  (forall env query_analysis retrieved_data w v w',
      DataEvaluator.evaluate_data env query_analysis retrieved_data w = (Ok v, w') ->
      is_valid v = true <-> PrimFloat.leb 0.7 (confidence_score v) = true)
  /\ (forall env query_analysis retrieved_data w raw,
        combined retrieved_data <> [] ->
        evaluation_llm env
          (DataEvaluator.evaluation_input_of query_analysis (combined retrieved_data))
          = Ok raw ->
        raw_confidence raw = 0.699%float ->
        exists v w',
          DataEvaluator.evaluate_data env query_analysis retrieved_data w = (Ok v, w')
          /\ confidence_score v = 0.699%float /\ is_valid v = false)
  /\ (forall env query_analysis retrieved_data w raw,
        combined retrieved_data <> [] ->
        evaluation_llm env
          (DataEvaluator.evaluation_input_of query_analysis (combined retrieved_data))
          = Ok raw ->
        raw_confidence raw = 0.7%float ->
        exists v w',
          DataEvaluator.evaluate_data env query_analysis retrieved_data w = (Ok v, w')
          /\ confidence_score v = 0.7%float /\ is_valid v = true).
Proof.
  split; [|split].
  - intros env qa data w v w' Hrun.
    unfold DataEvaluator.evaluate_data in Hrun.
    destruct (combined data) as [|item rest].
    + run_py. injection Hrun as <- _. simpl. split; discriminate.
    + unfold DataEvaluator.evaluation_chain, DataEvaluator.parse_evaluation in Hrun.
      run_py.
      destruct (evaluation_llm env _) as [raw|e]; simpl in Hrun; [|discriminate].
      destruct (score_in_range (raw_confidence raw)) eqn:Hrange; simpl in Hrun;
        [|discriminate].
      unfold mkValidationResult in Hrun. rewrite Hrange in Hrun.
      injection Hrun as <- _. simpl. reflexivity.
  - intros env qa data w raw Hne Hllm Hscore.
    eexists; eexists. split.
    + apply evaluate_data_scored; [exact Hne | exact Hllm |].
      rewrite Hscore. reflexivity.
    + simpl. rewrite Hscore. split; reflexivity.
  - intros env qa data w raw Hne Hllm Hscore.
    eexists; eexists. split.
    + apply evaluate_data_scored; [exact Hne | exact Hllm |].
      rewrite Hscore. reflexivity.
    + simpl. rewrite Hscore. split; reflexivity.
Qed.

Lemma evaluate_data_validity_threshold_witness :
  (exists v w',
      DataEvaluator.evaluate_data
        (Demo.env_with "2024-05-01" (Ok Demo.unambiguous) 0.699)
        Demo.analysis Demo.evidence Demo.world0 = (Ok v, w')
      /\ confidence_score v = 0.699%float /\ is_valid v = false)
  /\ (exists v w',
        DataEvaluator.evaluate_data
          (Demo.env_with "2024-05-01" (Ok Demo.unambiguous) 0.7)
          Demo.analysis Demo.evidence Demo.world0 = (Ok v, w')
        /\ confidence_score v = 0.7%float /\ is_valid v = true).
Proof.
  split.
  - apply (proj1 (proj2 evaluate_data_validity_threshold)
             (Demo.env_with "2024-05-01" (Ok Demo.unambiguous) 0.699)
             Demo.analysis Demo.evidence Demo.world0 (Demo.judged 0.699)).
    + discriminate.
    + reflexivity.
    + reflexivity.
  - apply (proj2 (proj2 evaluate_data_validity_threshold)
             (Demo.env_with "2024-05-01" (Ok Demo.unambiguous) 0.7)
             Demo.analysis Demo.evidence Demo.world0 (Demo.judged 0.7)).
    + discriminate.
    + reflexivity.
    + reflexivity.
Defined.

(** ** The result cache *)

Lemma append_cancel_l (p a b : string) : p ++ a = p ++ b -> a = b.
Proof.
  induction p as [|c p IH]; simpl; intros H; [exact H|].
  injection H as H. exact (IH H).
Qed.

(** C7, as amended.  Keys of the result cache and the calendar.  For a
    logical key and a source tag, computed on two clocks: when the normalised
    key holds a recency marker ("news", "latest" or "recent") the text that
    is hashed ends with the local date of the process, the one
    [datetime.now()] shows, so on different local dates the hashed texts
    differ, and the two cache keys are the same only if SHA-256 collides on
    these two texts; when the key holds no marker the two cache keys are the
    same whatever the clocks; and on the same local date the two keys are
    always the same. *)
Theorem cache_key_recency_binding
    (env : Env) (c1 c2 : Clock.t) (key source : string) :
  (RedisCacheService.has_recency_marker (Py.strip (Py.lower key)) = true ->
   RedisCacheService.key_content (today (on_clock c1 env)) key source =
     Py.strip (Py.lower key) ++ ":" ++ source ++ ":" ++ Clock.local_date c1
   /\ (Clock.local_date c1 <> Clock.local_date c2 ->
       RedisCacheService.key_content (today (on_clock c1 env)) key source <>
       RedisCacheService.key_content (today (on_clock c2 env)) key source
       /\ (RedisCacheService._generate_cache_key (on_clock c1 env) key source =
           RedisCacheService._generate_cache_key (on_clock c2 env) key source ->
           Sha256.hexdigest
             (RedisCacheService.key_content (today (on_clock c1 env)) key source) =
           Sha256.hexdigest
             (RedisCacheService.key_content (today (on_clock c2 env)) key source))))
  /\ (RedisCacheService.has_recency_marker (Py.strip (Py.lower key)) = false ->
      RedisCacheService._generate_cache_key (on_clock c1 env) key source =
      RedisCacheService._generate_cache_key (on_clock c2 env) key source)
  /\ (Clock.local_date c1 = Clock.local_date c2 ->
      RedisCacheService._generate_cache_key (on_clock c1 env) key source =
      RedisCacheService._generate_cache_key (on_clock c2 env) key source).
Proof.
  unfold RedisCacheService._generate_cache_key,
    RedisCacheService.generate_cache_key_on.
  change (today (on_clock c1 env)) with (Clock.local_date c1).
  change (today (on_clock c2 env)) with (Clock.local_date c2).
  split; [|split].
  - intros Hmarker. unfold RedisCacheService.key_content. rewrite Hmarker.
    split; [reflexivity|]. intros Hdays. split.
    + intros Hsame. do 4 apply append_cancel_l in Hsame. exact (Hdays Hsame).
    + intros Hkeys. do 2 apply append_cancel_l in Hkeys. exact Hkeys.
  - intros Hmarker. unfold RedisCacheService.key_content.
    rewrite Hmarker. reflexivity.
  - intros Hsame. rewrite Hsame. reflexivity.
Qed.

Lemma cache_key_recency_binding_witness :
  RedisCacheService.key_content (today (on_clock Demo.tokyo_afternoon Demo.env))
    "latest Tesla news" "web" <>
  RedisCacheService.key_content (today (on_clock Demo.tokyo_night Demo.env))
    "latest Tesla news" "web".
Proof.
  destruct (cache_key_recency_binding Demo.env Demo.tokyo_afternoon Demo.tokyo_night
              "latest Tesla news" "web") as [Hmarked _].
  destruct (Hmarked eq_refl) as [_ Hdays].
  apply Hdays. vm_compute. discriminate.
Defined.

(** The design document binds such keys to the date in UTC.  On the clock of
    a process in Tokyo, two instants of the same UTC date (2024-05-01, 14:00
    and 16:00 UTC) give two different keys, the local date having changed in
    between; and two instants of different UTC dates (2024-05-01 at 16:00 and
    2024-05-02 at 10:00 UTC) give the same key, both being on the local date
    2024-05-02. *)
Lemma cache_key_is_not_bound_to_utc_date :
  (Clock.utc_date Demo.tokyo_afternoon = Clock.utc_date Demo.tokyo_night
   /\ RedisCacheService._generate_cache_key (on_clock Demo.tokyo_afternoon Demo.env)
        "latest Tesla news" "web" <>
      RedisCacheService._generate_cache_key (on_clock Demo.tokyo_night Demo.env)
        "latest Tesla news" "web")
  /\ (Clock.utc_date Demo.tokyo_night <> Clock.utc_date Demo.tokyo_next_day
      /\ RedisCacheService._generate_cache_key (on_clock Demo.tokyo_night Demo.env)
           "latest Tesla news" "web" =
         RedisCacheService._generate_cache_key (on_clock Demo.tokyo_next_day Demo.env)
           "latest Tesla news" "web").
Proof.
  split; split.
  - reflexivity.
  - vm_compute. discriminate.
  - vm_compute. discriminate.
  - reflexivity.
Qed.

(** The dates of the three instants, in UTC and on the clock of the
    process. *)
Example dates_of_the_tokyo_clock :
  map (fun c => (Clock.utc_date c, Clock.local_date c))
      [Demo.tokyo_afternoon; Demo.tokyo_night; Demo.tokyo_next_day] =
    [ ("2024-05-01", "2024-05-01");
      ("2024-05-01", "2024-05-02");
      ("2024-05-02", "2024-05-02") ].
Proof. vm_compute. reflexivity. Qed.

(** A key without a marker is the same on both days. *)
Example cache_key_tesla_headquarters :
  RedisCacheService._generate_cache_key
    (Demo.env_with "2024-05-01" (Ok Demo.unambiguous) 0.85) "Tesla headquarters" "web" =
  RedisCacheService._generate_cache_key
    (Demo.env_with "2024-05-02" (Ok Demo.unambiguous) 0.85) "Tesla headquarters" "web".
Proof. reflexivity. Qed.

(** The key of the first day, as [hashlib] gives it for the text
    [latest tesla news:web:2024-05-01]. *)
Example cache_key_latest_tesla_news :
  RedisCacheService._generate_cache_key
    (Demo.env_with "2024-05-01" (Ok Demo.unambiguous) 0.85) "latest Tesla news" "web" =
  "company_info:6f040c7c318d1ede92f637ac8019adbfc07e92303548b48f64031b801c0fcf12".
Proof. vm_compute. reflexivity. Qed.

Lemma calculate_ttl_general :
  RedisCacheService._calculate_ttl (CacheQueryType.value CacheQueryType.GENERAL) = 86400%Z.
Proof. reflexivity. Qed.

(** What a default-expiry store does when the cache is on and the server
    answers. *)
Lemma set_cached_data_run env key source data w :
  CACHE_ENABLED env = true ->
  redis_up env = true ->
  RedisCacheService.set_cached_data env key source data None w =
    (Ok true,
     log (RedisSetex (RedisCacheService._generate_cache_key env key source) 86400
                     (json_dumps env data))
         {| redis := <[RedisCacheService._generate_cache_key env key source :=
                         (json_dumps env data, 86400%Z)]> (redis w);
            calls := calls w |}).
Proof.
  intros Henabled Hup.
  unfold RedisCacheService.set_cached_data, RedisCacheService.redis_setex.
  rewrite Henabled, calculate_ttl_general. run_py. rewrite Hup. reflexivity.
Qed.

(** C6, as amended.  A call to [set_cached_data] that omits [ttl], with the
    cache enabled and the server reachable, stores the entry with the time to
    live the category table gives for GENERAL, 86400 seconds, whatever the
    entry is about; the table itself assigns 3600 to NEWS, 604800 to
    LOCATION, 43200 to BUSINESS, 21600 to INVESTMENT and 86400 to GENERAL, and
    86400 to a category it does not list. *)
Theorem set_cached_data_default_ttl
    (env : Env) (key source : string) (data : Payload) (w : World) :
  CACHE_ENABLED env = true ->
  redis_up env = true ->
  fst (RedisCacheService.set_cached_data env key source data None w) = Ok true
  /\ stored_ttl (snd (RedisCacheService.set_cached_data env key source data None w))
       (RedisCacheService._generate_cache_key env key source) = Some 86400%Z
  /\ RedisCacheService._calculate_ttl (CacheQueryType.value CacheQueryType.GENERAL) = 86400%Z
  /\ RedisCacheService._calculate_ttl (CacheQueryType.value CacheQueryType.NEWS) = 3600%Z
  /\ RedisCacheService._calculate_ttl (CacheQueryType.value CacheQueryType.LOCATION) = 604800%Z
  /\ RedisCacheService._calculate_ttl (CacheQueryType.value CacheQueryType.BUSINESS) = 43200%Z
  /\ RedisCacheService._calculate_ttl (CacheQueryType.value CacheQueryType.INVESTMENT) = 21600%Z
  /\ (forall category, TTL_MAPPING !! category = None ->
        RedisCacheService._calculate_ttl category = 86400%Z).
Proof.
  intros Henabled Hup.
  rewrite (set_cached_data_run env key source data w Henabled Hup).
  unfold stored_ttl. simpl.
  repeat split; try reflexivity.
  - rewrite lookup_insert_eq. reflexivity.
  - intros category Hnone. unfold RedisCacheService._calculate_ttl.
    rewrite Hnone. reflexivity.
Qed.

Lemma set_cached_data_default_ttl_witness :
  stored_ttl
    (snd (RedisCacheService.set_cached_data Demo.env
            (DataRetriever._generate_wikipedia_query (Demo.tesla QueryType.LOCATION))
            "wikipedia" (DataRetriever.no_results "Wikipedia") None Demo.world0))
    (RedisCacheService._generate_cache_key Demo.env
       (DataRetriever._generate_wikipedia_query (Demo.tesla QueryType.LOCATION))
       "wikipedia") = Some 86400%Z.
Proof.
  apply (set_cached_data_default_ttl Demo.env
           (DataRetriever._generate_wikipedia_query (Demo.tesla QueryType.LOCATION))
           "wikipedia" (DataRetriever.no_results "Wikipedia") Demo.world0);
    reflexivity.
Defined.

(** C6, as stated, fails.  An entry about news (the encyclopedia query of a
    NEWS intent), stored without [ttl], lives 86400 seconds, not the 3600
    seconds of the table's NEWS row. *)
Lemma set_cached_data_ignores_category :
  stored_ttl
    (snd (RedisCacheService.set_cached_data Demo.env
            (DataRetriever._generate_wikipedia_query (Demo.tesla QueryType.NEWS))
            "wikipedia" (DataRetriever.no_results "Wikipedia") None Demo.world0))
    (RedisCacheService._generate_cache_key Demo.env
       (DataRetriever._generate_wikipedia_query (Demo.tesla QueryType.NEWS))
       "wikipedia") = Some 86400%Z
  /\ Some 86400%Z <>
     Some (RedisCacheService._calculate_ttl (CacheQueryType.value CacheQueryType.NEWS)).
Proof.
  split.
  - vm_compute. reflexivity.
  - vm_compute. discriminate.
Qed.

(** ** The orchestrator's stages *)

(** C4, as amended.  In a state whose intent is absent or that needs
    clarification, each of the two retrieval stages skips: it calls nothing
    (the world is unchanged) and sets its evidence field to [None]; the
    stages after it read the absent fields as an empty evidence list. *)
Theorem retrieval_skip_sets_none (env : Env) (state : WorkflowState) (w : World) :
  intent state = None \/ requires_clarification state = true ->
  CompanyInfoWorkflow.retrieve_wiki_data env state w =
    (Ok (CompanyInfoWorkflow.wiki_update None), w)
  /\ CompanyInfoWorkflow.retrieve_tavily_data env state w =
       (Ok (CompanyInfoWorkflow.tavily_update None), w)
  /\ wiki_results (apply_update (CompanyInfoWorkflow.wiki_update None) state) = None
  /\ tavily_results (apply_update (CompanyInfoWorkflow.tavily_update None) state) = None
  /\ combined
       (CompanyInfoWorkflow.combined_data_of
          (apply_update (CompanyInfoWorkflow.tavily_update None)
             (apply_update (CompanyInfoWorkflow.wiki_update None) state))) = [].
Proof.
  intros Hskip.
  unfold CompanyInfoWorkflow.retrieve_wiki_data,
    CompanyInfoWorkflow.retrieve_tavily_data.
  repeat split; try reflexivity.
  - destruct (intent state) as [i|]; [|reflexivity].
    destruct Hskip as [Hi|Hc]; [discriminate|]. rewrite Hc. reflexivity.
  - destruct (intent state) as [i|]; [|reflexivity].
    destruct Hskip as [Hi|Hc]; [discriminate|]. rewrite Hc. reflexivity.
Qed.

Lemma retrieval_skip_sets_none_witness :
  CompanyInfoWorkflow.retrieve_wiki_data Demo.env
      (initial_state "Where is Tesla headquartered?") Demo.world0 =
    (Ok (CompanyInfoWorkflow.wiki_update None), Demo.world0)
  /\ CompanyInfoWorkflow.retrieve_tavily_data Demo.env
       (initial_state "Where is Tesla headquartered?") Demo.world0 =
       (Ok (CompanyInfoWorkflow.tavily_update None), Demo.world0).
Proof.
  destruct (retrieval_skip_sets_none Demo.env
              (initial_state "Where is Tesla headquartered?") Demo.world0
              (or_introl eq_refl)) as (Hwiki & Htavily & _).
  split; [exact Hwiki | exact Htavily].
Defined.

(** C4, as stated, fails.  With no intent, the encyclopedia stage leaves its
    field [None], which is not the empty evidence list tagged "Wikipedia";
    likewise the web stage and "Tavily". *)
Lemma retrieval_skip_is_not_tagged_empty :
  (exists u w',
      CompanyInfoWorkflow.retrieve_wiki_data Demo.env
        (initial_state "Where is Tesla headquartered?") Demo.world0 = (Ok u, w')
      /\ wiki_results (apply_update u (initial_state "Where is Tesla headquartered?"))
         <> Some (DataRetriever.no_results "Wikipedia"))
  /\ (exists u w',
        CompanyInfoWorkflow.retrieve_tavily_data Demo.env
          (initial_state "Where is Tesla headquartered?") Demo.world0 = (Ok u, w')
        /\ tavily_results (apply_update u (initial_state "Where is Tesla headquartered?"))
           <> Some (DataRetriever.no_results "Tavily")).
Proof.
  split; eexists; eexists; (split; [reflexivity | discriminate]).
Qed.

(** The parser's ambiguity check never raises: a failing model call gives
    the fixed answer "not ambiguous", confidence 0.5. *)
Lemma parser_check_ambiguity_failure env query retrieved_data w e :
  ambiguity_chain env query (QueryParser._format_retrieved_data retrieved_data) = Raise e ->
  QueryParser.check_ambiguity env query retrieved_data w =
    (Ok {| is_ambiguous := false; clarification_message := None;
           possible_interpretations := None; ambiguity_confidence := 0.5 |},
     log (AmbiguityModelCall query (QueryParser._format_retrieved_data retrieved_data)) w).
Proof.
  intros Hfail. unfold QueryParser.check_ambiguity. run_py.
  rewrite Hfail. reflexivity.
Qed.

(** C3, as amended.  When the model call under the ambiguity checker raises,
    the checker absorbs the error and answers "not ambiguous" with
    confidence 0.5; the [check_ambiguity] stage raises nothing, records that
    answer and sets [requires_clarification] to false. *)
Theorem check_ambiguity_model_failure
    (env : Env) (state : WorkflowState) (w : World)
    (intent_analysis : IntentAnalysis) (e : exn) :
  intent state = Some intent_analysis ->
  ambiguity_chain env (query state)
    (QueryParser._format_retrieved_data
       [ ("wiki", results_of (wiki_results state));
         ("tavily", results_of (tavily_results state)) ]) = Raise e ->
  exists u w',
    CompanyInfoWorkflow.check_ambiguity env state w = (Ok u, w')
    /\ set_ambiguity_check u =
         Some (Some {| is_ambiguous := false; clarification_message := None;
                       possible_interpretations := None;
                       ambiguity_confidence := 0.5 |})
    /\ set_requires_clarification u = Some false
    /\ requires_clarification (apply_update u state) = false.
Proof.
  intros Hintent Hfail.
  unfold CompanyInfoWorkflow.check_ambiguity. rewrite Hintent.
  unfold try_except, bind at 1.
  rewrite (parser_check_ambiguity_failure env (query state) _ w e Hfail).
  eexists; eexists. split; [reflexivity|]. simpl. repeat split.
Qed.

Lemma check_ambiguity_model_failure_witness :
  exists u w',
    CompanyInfoWorkflow.check_ambiguity Demo.env_ambiguity_down Demo.classified
      Demo.world0 = (Ok u, w')
    /\ set_ambiguity_check u =
         Some (Some {| is_ambiguous := false; clarification_message := None;
                       possible_interpretations := None;
                       ambiguity_confidence := 0.5 |})
    /\ set_requires_clarification u = Some false
    /\ requires_clarification (apply_update u Demo.classified) = false.
Proof.
  apply (check_ambiguity_model_failure Demo.env_ambiguity_down Demo.classified
           Demo.world0 (Demo.tesla QueryType.LOCATION)
           (CollaboratorError "model unavailable")); reflexivity.
Defined.

(** C3, as stated, fails.  With the ambiguity model out of order, the
    [check_ambiguity] stage of a classified query ends with
    [requires_clarification] false, and the pipeline goes on as if the query
    were unambiguous: both providers are called and the answer comes with
    the evaluator's confidence. *)
Lemma check_ambiguity_failure_goes_on :
  (exists u w',
      CompanyInfoWorkflow.check_ambiguity Demo.env_ambiguity_down Demo.classified
        Demo.world0 = (Ok u, w')
      /\ requires_clarification (apply_update u Demo.classified) <> true)
  /\ fst (CompanyInfoWorkflow.process_query Demo.env_ambiguity_down
            "Where is Tesla headquartered?" Demo.world0) =
       Ok {| response := "Tesla is headquartered in Austin, Texas. (Source: Wikipedia, Tavily)";
             response_confidence := 0.85 |}
  /\ filter is_provider_call
       (calls (snd (CompanyInfoWorkflow.process_query Demo.env_ambiguity_down
                      "Where is Tesla headquartered?" Demo.world0))) =
       [ WikipediaCall "Tesla headquarters location company";
         TavilyCall "Tesla headquarters current location" ].
Proof.
  split; [|split].
  - eexists; eexists. split; [reflexivity | discriminate].
  - vm_compute. reflexivity.
  - vm_compute. reflexivity.
Qed.

(** ** Retrieval and the cache *)

(** A cache lookup writes nothing and reaches nothing but the Redis server:
    it leaves the database and the provider calls of the log as they were. *)
Lemma get_cached_data_quiet env key source w :
  redis (snd (RedisCacheService.get_cached_data env key source w)) = redis w
  /\ filter is_provider_call
       (calls (snd (RedisCacheService.get_cached_data env key source w))) =
     filter is_provider_call (calls w).
Proof.
  unfold RedisCacheService.get_cached_data, RedisCacheService.redis_get.
  destruct (CACHE_ENABLED env); simpl; [|split; reflexivity].
  run_py. destruct (redis_up env); simpl.
  - destruct (redis w !! _) as [[text ttl]|]; simpl.
    + destruct (Py.truthy text); simpl.
      * destruct (json_loads env text); simpl;
          (split; [reflexivity | rewrite filter_app; simpl; apply app_nil_r]).
      * split; [reflexivity | rewrite filter_app; simpl; apply app_nil_r].
    + split; [reflexivity | rewrite filter_app; simpl; apply app_nil_r].
  - split; [reflexivity | rewrite filter_app; simpl; apply app_nil_r].
Qed.

(** C1, as amended.  A retrieval for an intent that names a company first
    looks its generated query up in the result cache, under its source tag,
    in the world it starts from.  On a hit it returns the cached payload as
    it is, in the world the lookup left: the live provider is not called.  On
    a miss it calls the live provider with the same query and returns the
    evidence built from the provider's answer (none when the provider
    raises).  A retrieval for an intent that names no company returns an
    empty evidence list at once. *)
Theorem retrievers_consult_cache_first
    (env : Env) (intent_analysis : IntentAnalysis) (w : World) :
  (companies (extracted_entities intent_analysis) = [] ->
   DataRetriever.retrieve_wikipedia_data env intent_analysis w =
     (Ok (DataRetriever.no_results "Wikipedia"), w)
   /\ DataRetriever.retrieve_tavily_data env intent_analysis w =
        (Ok (DataRetriever.no_results "Tavily"), w))
  /\ (companies (extracted_entities intent_analysis) <> [] ->
      (forall data w1,
          RedisCacheService.get_cached_data env
            (DataRetriever._generate_wikipedia_query intent_analysis) "wikipedia" w
            = (Ok (Some data), w1) ->
          DataRetriever.retrieve_wikipedia_data env intent_analysis w = (Ok data, w1)
          /\ filter is_provider_call (calls w1) = filter is_provider_call (calls w))
      /\ (forall w1,
            RedisCacheService.get_cached_data env
              (DataRetriever._generate_wikipedia_query intent_analysis) "wikipedia" w
              = (Ok None, w1) ->
            DataRetriever.retrieve_wikipedia_data env intent_analysis w =
              (Ok match wikipedia_arun env
                          (DataRetriever._generate_wikipedia_query intent_analysis) with
                  | Ok wiki_result =>
                      DataRetriever.wikipedia_evidence
                        (DataRetriever._generate_wikipedia_query intent_analysis)
                        wiki_result
                  | Raise _ => DataRetriever.no_results "Wikipedia"
                  end,
               log (WikipediaCall
                      (DataRetriever._generate_wikipedia_query intent_analysis)) w1))
      /\ (forall data w1,
            RedisCacheService.get_cached_data env
              (DataRetriever._generate_tavily_query env intent_analysis) "Tavily" w
              = (Ok (Some data), w1) ->
            DataRetriever.retrieve_tavily_data env intent_analysis w = (Ok data, w1)
            /\ filter is_provider_call (calls w1) = filter is_provider_call (calls w))
      /\ (forall w1,
            RedisCacheService.get_cached_data env
              (DataRetriever._generate_tavily_query env intent_analysis) "Tavily" w
              = (Ok None, w1) ->
            DataRetriever.retrieve_tavily_data env intent_analysis w =
              (Ok match tavily_arun env
                          (DataRetriever._generate_tavily_query env intent_analysis) with
                  | Ok tavily_results =>
                      DataRetriever.tavily_evidence intent_analysis
                        (DataRetriever._generate_tavily_query env intent_analysis)
                        tavily_results
                  | Raise _ => DataRetriever.no_results "Tavily"
                  end,
               log (TavilyCall
                      (DataRetriever._generate_tavily_query env intent_analysis)) w1))).
Proof.
  unfold DataRetriever.retrieve_wikipedia_data, DataRetriever.retrieve_tavily_data.
  split.
  { intros Hnone. rewrite Hnone. split; reflexivity. }
  intros Hcompanies.
  destruct (companies (extracted_entities intent_analysis)) as [|company others] eqn:Hc;
    [congruence|].
  split; [|split; [|split]].
  - intros data w1 Hhit. split.
    + rewrite (bind_run _ _ _ _ _ Hhit). reflexivity.
    + pose proof (get_cached_data_quiet env
                    (DataRetriever._generate_wikipedia_query intent_analysis)
                    "wikipedia" w) as [_ Hquiet].
      rewrite Hhit in Hquiet. exact Hquiet.
  - intros w1 Hmiss. rewrite (bind_run _ _ _ _ _ Hmiss). run_py.
    destruct (wikipedia_arun env _); reflexivity.
  - intros data w1 Hhit. split.
    + rewrite (bind_run _ _ _ _ _ Hhit). reflexivity.
    + pose proof (get_cached_data_quiet env
                    (DataRetriever._generate_tavily_query env intent_analysis)
                    "Tavily" w) as [_ Hquiet].
      rewrite Hhit in Hquiet. exact Hquiet.
  - intros w1 Hmiss. rewrite (bind_run _ _ _ _ _ Hmiss). run_py.
    destruct (tavily_arun env _); reflexivity.
Qed.

Lemma retrievers_consult_cache_first_witness :
  (DataRetriever.retrieve_wikipedia_data Demo.env_offline
     (Demo.tesla QueryType.LOCATION) Demo.warm_world =
     (Ok Demo.cached_payload,
      log (RedisGet (RedisCacheService._generate_cache_key Demo.env_offline
                       "Tesla headquarters location company" "wikipedia"))
          Demo.warm_world))
  /\ (DataRetriever.retrieve_tavily_data Demo.env
        (Demo.tesla QueryType.LOCATION) Demo.world0 =
        (Ok {| results :=
                 [ {| content := "Tesla moved its corporate headquarters to Austin, Texas in 2021.";
                      source := "Tavily";
                      origin_query := "Tesla headquarters current location";
                      url := Some "https://example.com/tesla-hq" |} ];
               payload_source := "Tavily" |},
         log (TavilyCall "Tesla headquarters current location")
             (log (RedisGet (RedisCacheService._generate_cache_key Demo.env
                               "Tesla headquarters current location" "Tavily"))
                  Demo.world0))).
Proof.
  split.
  - apply (proj1 (proj2 (retrievers_consult_cache_first Demo.env_offline
                           (Demo.tesla QueryType.LOCATION) Demo.warm_world)
                    ltac:(discriminate))).
    vm_compute. reflexivity.
  - apply (proj2 (proj2 (proj2 (proj2 (retrievers_consult_cache_first Demo.env
                                         (Demo.tesla QueryType.LOCATION) Demo.world0)
                                  ltac:(discriminate))))).
    vm_compute. reflexivity.
Defined.

(** C1, as stated, fails.  On a miss followed by a successful provider call
    the encyclopedia stage returns the evidence and stores nothing: no write
    reaches the Redis server, the database is as empty as before, and the
    same lookup misses again.  And for an intent that names no company a
    retrieval returns at once, without looking anything up. *)
Lemma retrievers_store_nothing :
  fst (DataRetriever.retrieve_wikipedia_data Demo.env
         (Demo.tesla QueryType.LOCATION) Demo.world0) = Ok Demo.cached_payload
  /\ filter is_redis_write
       (calls (snd (DataRetriever.retrieve_wikipedia_data Demo.env
                      (Demo.tesla QueryType.LOCATION) Demo.world0))) = []
  /\ redis (snd (DataRetriever.retrieve_wikipedia_data Demo.env
                   (Demo.tesla QueryType.LOCATION) Demo.world0)) = ∅
  /\ fst (RedisCacheService.get_cached_data Demo.env
            "Tesla headquarters location company" "wikipedia"
            (snd (DataRetriever.retrieve_wikipedia_data Demo.env
                    (Demo.tesla QueryType.LOCATION) Demo.world0))) = Ok None
  /\ DataRetriever.retrieve_wikipedia_data Demo.env Demo.anonymous Demo.world0 =
       (Ok (DataRetriever.no_results "Wikipedia"), Demo.world0)
  /\ DataRetriever.retrieve_tavily_data Demo.env Demo.anonymous Demo.world0 =
       (Ok (DataRetriever.no_results "Tavily"), Demo.world0).
Proof.
  repeat split; vm_compute; reflexivity.
Qed.

(** ** Every stage returns *)

Lemma clarification_update_total message with_intent :
  total (CompanyInfoWorkflow.clarification_update message with_intent).
Proof. intros w. eexists; eexists. reflexivity. Qed.

Lemma node_analyze_intent_total env state :
  total (CompanyInfoWorkflow.analyze_intent env state).
Proof.
  apply try_except_total. intros e. apply clarification_update_total.
Qed.

Lemma node_check_ambiguity_total env state :
  total (CompanyInfoWorkflow.check_ambiguity env state).
Proof.
  unfold CompanyInfoWorkflow.check_ambiguity.
  destruct (intent state); [|apply clarification_update_total].
  apply try_except_total. intros e. apply clarification_update_total.
Qed.

Lemma node_retrieve_wiki_data_total env state :
  total (CompanyInfoWorkflow.retrieve_wiki_data env state).
Proof.
  unfold CompanyInfoWorkflow.retrieve_wiki_data.
  destruct (intent state); [|apply ret_total].
  destruct (requires_clarification state); [apply ret_total|].
  apply try_except_total. intros e. apply ret_total.
Qed.

Lemma node_retrieve_tavily_data_total env state :
  total (CompanyInfoWorkflow.retrieve_tavily_data env state).
Proof.
  unfold CompanyInfoWorkflow.retrieve_tavily_data.
  destruct (intent state); [|apply ret_total].
  destruct (requires_clarification state); [apply ret_total|].
  apply try_except_total. intros e. apply ret_total.
Qed.

Lemma node_evaluate_data_total env state :
  total (CompanyInfoWorkflow.evaluate_data env state).
Proof.
  unfold CompanyInfoWorkflow.evaluate_data.
  destruct (requires_clarification state).
  - intros w. eexists; eexists. reflexivity.
  - apply try_except_total. intros e w. eexists; eexists. reflexivity.
Qed.

Lemma respond_zero text w :
  CompanyInfoWorkflow.respond text 0 w =
    (Ok (CompanyInfoWorkflow.response_update
           {| response := text; response_confidence := 0 |}), w).
Proof. reflexivity. Qed.

Lemma node_generate_response_total env state :
  total (CompanyInfoWorkflow.generate_response env state).
Proof.
  apply try_except_total. intros e w. rewrite respond_zero. eauto.
Qed.

(** The graph reaches its end from any state, in any deployment. *)
Lemma graph_ainvoke_total env initial :
  total (CompanyInfoWorkflow.graph_ainvoke env initial).
Proof.
  unfold CompanyInfoWorkflow.graph_ainvoke.
  apply bind_total; [apply node_analyze_intent_total | intros u1].
  apply bind_total; [apply node_check_ambiguity_total | intros u2].
  apply bind_total; [apply node_retrieve_wiki_data_total | intros u3].
  apply bind_total; [apply node_retrieve_tavily_data_total | intros u4].
  apply bind_total; [apply node_evaluate_data_total | intros u5].
  apply bind_total; [apply node_generate_response_total | intros u6].
  apply ret_total.
Qed.

(** ** The pipeline as a whole *)

Lemma respond_returns text score :
  returns (fun u => exists r, set_response u = Some (Some r)
                              /\ score_in_range (response_confidence r) = true)
          (CompanyInfoWorkflow.respond text score).
Proof.
  intros w u w'. unfold CompanyInfoWorkflow.respond, mkQueryResponse. run_py.
  destruct (score_in_range score) eqn:Hrange; simpl; intros H; [|discriminate].
  injection H as <- _. eexists. split; [reflexivity | exact Hrange].
Qed.

Lemma node_generate_response_returns env state :
  returns (fun u => exists r, set_response u = Some (Some r)
                              /\ score_in_range (response_confidence r) = true)
          (CompanyInfoWorkflow.generate_response env state).
Proof.
  unfold CompanyInfoWorkflow.generate_response.
  apply try_except_returns; [|intros e; apply respond_returns].
  destruct (requires_clarification state); [apply respond_returns|].
  destruct (evaluation state) as [verdict|]; [|apply respond_returns].
  destruct (negb (is_valid verdict)); apply respond_returns.
Qed.

(** The state the graph ends in carries a response, and its score passed
    the validation of [QueryResponse]. *)
Lemma graph_ainvoke_returns env initial :
  returns (fun final => exists r, state_response final = Some r
                                  /\ score_in_range (response_confidence r) = true)
          (CompanyInfoWorkflow.graph_ainvoke env initial).
Proof.
  intros w final w'. unfold CompanyInfoWorkflow.graph_ainvoke. intros Hrun.
  apply bind_ok_inv in Hrun as (u1 & w1 & _ & Hrun).
  apply bind_ok_inv in Hrun as (u2 & w2 & _ & Hrun).
  apply bind_ok_inv in Hrun as (u3 & w3 & _ & Hrun).
  apply bind_ok_inv in Hrun as (u4 & w4 & _ & Hrun).
  apply bind_ok_inv in Hrun as (u5 & w5 & _ & Hrun).
  apply bind_ok_inv in Hrun as (u6 & w6 & Hlast & Hrun).
  apply node_generate_response_returns in Hlast as (r & Hset & Hrange).
  unfold ret in Hrun. injection Hrun as <- _.
  exists r. split; [|exact Hrange].
  unfold apply_update. simpl. rewrite Hset. reflexivity.
Qed.

(** C2.  For every query, in every deployment and from every world,
    [process_query] raises nothing and returns a response whose confidence
    score lies between 0 and 1.  The graph itself always reaches its end,
    whatever its collaborators do, and the response returned is the one its
    last stage produced. *)
Theorem process_query_never_raises (env : Env) (q : string) (w : World) :
  exists r final w',
    CompanyInfoWorkflow.graph_ainvoke env (initial_state q) w = (Ok final, w')
    /\ state_response final = Some r
    /\ CompanyInfoWorkflow.process_query env q w = (Ok r, w')
    /\ PrimFloat.leb 0 (response_confidence r) = true
    /\ PrimFloat.leb (response_confidence r) 1 = true.
Proof.
  destruct (graph_ainvoke_total env (initial_state q) w) as (final & w' & Hgraph).
  destruct (graph_ainvoke_returns env _ _ _ _ Hgraph) as (r & Hresponse & Hrange).
  exists r, final, w'.
  apply andb_true_iff in Hrange as [Hlow Hhigh].
  repeat split; try assumption.
  unfold CompanyInfoWorkflow.process_query. apply try_except_run.
  rewrite (bind_run _ _ _ _ _ Hgraph). rewrite Hresponse. reflexivity.
Qed.

(** ** The clarification path *)

Lemma parser_analyze_intent_run env q w :
  exists i, QueryParser.analyze_intent env q w = (Ok i, log (IntentModelCall q) w).
Proof.
  unfold QueryParser.analyze_intent. run_py.
  destruct (intent_chain env q) as [raw|e]; simpl; [|eauto].
  destruct (raw_query_type raw); simpl; eauto.
Qed.

Lemma node_analyze_intent_run env state w :
  exists i,
    CompanyInfoWorkflow.analyze_intent env state w =
      (Ok {| set_intent := Some (Some i); set_ambiguity_check := Some None;
             set_wiki_results := None; set_tavily_results := None;
             set_evaluation := None; set_response := None;
             set_requires_clarification := Some false |},
       log (IntentModelCall (query state)) w).
Proof.
  destruct (parser_analyze_intent_run env (query state) w) as [i Hi].
  exists i. unfold CompanyInfoWorkflow.analyze_intent.
  apply try_except_run. rewrite (bind_run _ _ _ _ _ Hi). reflexivity.
Qed.

(** The checker's answer does not depend on the world, and its only trace
    is the call to the ambiguity model. *)
Lemma parser_check_ambiguity_frame env q retrieved_data w w0 :
  QueryParser.check_ambiguity env q retrieved_data w =
    (fst (QueryParser.check_ambiguity env q retrieved_data w0),
     log (AmbiguityModelCall q (QueryParser._format_retrieved_data retrieved_data)) w).
Proof.
  unfold QueryParser.check_ambiguity. run_py.
  destruct (ambiguity_chain env q _) as [raw|e]; simpl; [|reflexivity].
  destruct (mkAmbiguityCheck _ _ _ _); reflexivity.
Qed.

Lemma node_check_ambiguity_run env state w w0 i check :
  intent state = Some i ->
  fst (QueryParser.check_ambiguity env (query state)
         [ ("wiki", results_of (wiki_results state));
           ("tavily", results_of (tavily_results state)) ] w0) = Ok check ->
  CompanyInfoWorkflow.check_ambiguity env state w =
    (Ok {| set_intent := None; set_ambiguity_check := Some (Some check);
           set_wiki_results := None; set_tavily_results := None;
           set_evaluation := None; set_response := None;
           set_requires_clarification := Some (is_ambiguous check) |},
     log (AmbiguityModelCall (query state)
            (QueryParser._format_retrieved_data
               [ ("wiki", results_of (wiki_results state));
                 ("tavily", results_of (tavily_results state)) ])) w).
Proof.
  intros Hintent Hcheck. unfold CompanyInfoWorkflow.check_ambiguity.
  rewrite Hintent. apply try_except_run.
  erewrite bind_run; [reflexivity|].
  rewrite (parser_check_ambiguity_frame env _ _ w w0), Hcheck. reflexivity.
Qed.

Lemma node_retrieve_skip env state w :
  requires_clarification state = true ->
  CompanyInfoWorkflow.retrieve_wiki_data env state w =
    (Ok (CompanyInfoWorkflow.wiki_update None), w)
  /\ CompanyInfoWorkflow.retrieve_tavily_data env state w =
       (Ok (CompanyInfoWorkflow.tavily_update None), w).
Proof.
  intros Hc. unfold CompanyInfoWorkflow.retrieve_wiki_data,
    CompanyInfoWorkflow.retrieve_tavily_data.
  rewrite Hc. destruct (intent state); split; reflexivity.
Qed.

Lemma node_evaluate_skip env state w :
  requires_clarification state = true ->
  CompanyInfoWorkflow.evaluate_data env state w =
    (Ok (CompanyInfoWorkflow.evaluation_update
           {| is_valid := false; confidence_score := 0;
              missing_information := ["Query requires clarification"];
              validation_details := default_details |}), w).
Proof.
  intros Hc. unfold CompanyInfoWorkflow.evaluate_data. rewrite Hc. reflexivity.
Qed.

Lemma node_generate_clarification env state w :
  requires_clarification state = true ->
  CompanyInfoWorkflow.generate_response env state w =
    (Ok (CompanyInfoWorkflow.response_update
           {| response := CompanyInfoWorkflow.clarification_msg_of state;
              response_confidence := 0 |}), w).
Proof.
  intros Hc. unfold CompanyInfoWorkflow.generate_response. rewrite Hc.
  apply try_except_run. apply respond_zero.
Qed.

(** C8.  When the ambiguity checker answers that the query is ambiguous and
    gives a (non-empty) clarification message, [process_query] returns that
    very message with confidence 0.0, and the only calls that leave the
    process are the intent model's and the ambiguity model's: neither
    retrieval provider nor the evaluator model is called, and the cache is
    not touched. *)
Theorem ambiguous_query_asks_for_clarification
    (env : Env) (q : string) (w : World) (check : AmbiguityCheck) (message : string) :
  fst (QueryParser.check_ambiguity env q [("wiki", []); ("tavily", [])] w) = Ok check ->
  is_ambiguous check = true ->
  clarification_message check = Some message ->
  message <> "" ->
  exists w',
    CompanyInfoWorkflow.process_query env q w =
      (Ok {| response := message; response_confidence := 0 |}, w')
    /\ calls w' = (calls w ++ [IntentModelCall q; AmbiguityModelCall q ""])%list
    /\ filter is_provider_call (calls w') = filter is_provider_call (calls w)
    /\ filter is_evaluator_call (calls w') = filter is_evaluator_call (calls w)
    /\ redis w' = redis w.
Proof.
  intros Hcheck Hamb Hmsg Hne.
  destruct (node_analyze_intent_run env (initial_state q) w) as [i Hi].
  assert (Hgraph : exists final,
             CompanyInfoWorkflow.graph_ainvoke env (initial_state q) w =
               (Ok final,
                log (AmbiguityModelCall q "") (log (IntentModelCall q) w))
             /\ state_response final =
                  Some {| response := message; response_confidence := 0 |}).
  { eexists. split.
    - unfold CompanyInfoWorkflow.graph_ainvoke.
      rewrite (bind_run _ _ _ _ _ Hi). cbv zeta.
      erewrite bind_run;
        [|eapply (node_check_ambiguity_run env _ _ w i check);
          [reflexivity | exact Hcheck]].
      cbv zeta.
      erewrite bind_run; [|eapply node_retrieve_skip; simpl; exact Hamb].
      erewrite bind_run; [|eapply node_retrieve_skip; simpl; exact Hamb].
      erewrite bind_run; [|eapply node_evaluate_skip; simpl; exact Hamb].
      erewrite bind_run; [|eapply node_generate_clarification; simpl; exact Hamb].
      reflexivity.
    - simpl. unfold CompanyInfoWorkflow.clarification_msg_of. simpl.
      rewrite Hmsg. destruct message as [|c rest]; [congruence|]. reflexivity. }
  destruct Hgraph as (final & Hgraph & Hresponse).
  eexists. split.
  - unfold CompanyInfoWorkflow.process_query. apply try_except_run.
    rewrite (bind_run _ _ _ _ _ Hgraph). rewrite Hresponse. reflexivity.
  - simpl. rewrite <- !app_assoc. simpl.
    rewrite !filter_app. simpl. rewrite !app_nil_r. repeat split.
Qed.

Lemma ambiguous_query_asks_for_clarification_witness :
  exists w',
    CompanyInfoWorkflow.process_query
      (Demo.env_with "2024-05-01" (Ok Demo.ambiguous) 0.85)
      "Tell me about Midas" Demo.world0 =
      (Ok {| response := "Did you mean company X or Y?"; response_confidence := 0 |}, w')
    /\ calls w' = (calls Demo.world0 ++
         [IntentModelCall "Tell me about Midas";
          AmbiguityModelCall "Tell me about Midas" ""])%list
    /\ filter is_provider_call (calls w') = filter is_provider_call (calls Demo.world0)
    /\ filter is_evaluator_call (calls w') = filter is_evaluator_call (calls Demo.world0)
    /\ redis w' = redis Demo.world0.
Proof.
  apply (ambiguous_query_asks_for_clarification
           (Demo.env_with "2024-05-01" (Ok Demo.ambiguous) 0.85)
           "Tell me about Midas" Demo.world0
           {| is_ambiguous := true;
              clarification_message := Some "Did you mean company X or Y?";
              possible_interpretations := Some ["X"; "Y"];
              ambiguity_confidence := 0.9 |}
           "Did you mean company X or Y?").
  - reflexivity.
  - reflexivity.
  - reflexivity.
  - discriminate.
Defined.

(** ** The news digest *)

Lemma repeated_iff_seen (earlier : list EvidenceItem) (seen : gset string)
    (text : string) :
  (forall t, t ∈ seen <->
             exists e, In e earlier /\ quotable e = true /\ cleaned e = t) ->
  existsb (fun e => quotable e && String.eqb (cleaned e) text) earlier =
    bool_decide (text ∈ seen).
Proof.
  intros Hseen. apply Bool.eq_iff_eq_true.
  rewrite existsb_exists, bool_decide_eq_true, Hseen.
  split; intros (e & Hin & H).
  - apply andb_true_iff in H as [Hq Heq]. apply String.eqb_eq in Heq.
    exists e. repeat split; assumption.
  - destruct H as [Hq Heq]. exists e. split; [exact Hin|].
    rewrite Hq, Heq, String.eqb_refl. reflexivity.
Qed.

(** The loop of the code, with its list of bullets and its set of texts
    seen, emits the bullets of the survivors: the set holds the cleaned
    texts of the items passed that can be quoted. *)
Lemma collect_news_survivors (items : list EvidenceItem) :
  forall (earlier : list EvidenceItem) (news_items : list string)
         (seen_content : gset string),
    (forall t, t ∈ seen_content <->
               exists e, In e earlier /\ quotable e = true /\ cleaned e = t) ->
    DataEvaluator.collect_news items news_items seen_content =
      (news_items ++ map digest_bullet (survivors_after earlier items))%list.
Proof.
  induction items as [|item rest IH]; intros earlier news_items seen_content Hseen.
  - simpl. rewrite app_nil_r. reflexivity.
  - cbn [DataEvaluator.collect_news survivors_after].
    rewrite (repeated_iff_seen earlier seen_content (cleaned item) Hseen).
    fold (cleaned item). unfold quotable at 1.
    destruct (Py.truthy (content item)) eqn:Hcontent; cbn [negb andb].
    + destruct (Py.len (cleaned item) <? 20)%nat eqn:Hshort.
      * apply Nat.ltb_lt in Hshort.
        replace (20 <=? Py.len (cleaned item))%nat with false
          by (symmetry; apply Nat.leb_gt; exact Hshort).
        cbn [orb andb app]. apply IH. intros t. rewrite Hseen.
        split; intros (e & Hin & Hq & Heq).
        -- exists e. rewrite in_app_iff. auto.
        -- apply in_app_iff in Hin as [Hin | [<- | []]]; [eauto|].
           unfold quotable in Hq. rewrite Hcontent in Hq. cbn [andb] in Hq.
           apply Nat.leb_le in Hq. lia.
      * apply Nat.ltb_ge in Hshort.
        assert (Hq : quotable item = true).
        { unfold quotable. rewrite Hcontent. apply Nat.leb_le. exact Hshort. }
        replace (20 <=? Py.len (cleaned item))%nat with true
          by (symmetry; apply Nat.leb_le; exact Hshort).
        cbn [orb andb].
        destruct (bool_decide (cleaned item ∈ seen_content)) eqn:Hdup;
          cbn [negb app].
        -- apply bool_decide_eq_true in Hdup.
           apply IH. intros t. rewrite Hseen.
           split; intros (e & Hin & Hqe & Heq).
           ++ exists e. rewrite in_app_iff. auto.
           ++ apply in_app_iff in Hin as [Hin | [<- | []]]; [eauto|].
              subst t. apply Hseen. exact Hdup.
        -- rewrite (IH (earlier ++ [item])%list
                      (news_items ++ [DataEvaluator.news_item item (cleaned item)])%list
                      (seen_content ∪ {[ cleaned item ]})).
           ++ rewrite <- app_assoc. reflexivity.
           ++ intros t. rewrite elem_of_union, elem_of_singleton, Hseen.
              split.
              ** intros [(e & Hin & Hqe & Heq) | ->].
                 --- exists e. rewrite in_app_iff. auto.
                 --- exists item. rewrite in_app_iff. simpl. auto.
              ** intros (e & Hin & Hqe & Heq).
                 apply in_app_iff in Hin as [Hin | [<- | []]]; [left; eauto|].
                 right. symmetry. exact Heq.
    + cbn [app]. apply IH. intros t. rewrite Hseen.
      split; intros (e & Hin & Hq & Heq).
      * exists e. rewrite in_app_iff. auto.
      * apply in_app_iff in Hin as [Hin | [<- | []]]; [eauto|].
        unfold quotable in Hq. rewrite Hcontent in Hq. discriminate.
Qed.



(** Every text that can be quoted is quoted: an item that can be quoted has
    its cleaned text among the survivors', unless an item passed before that
    can be quoted has it already. *)
Lemma survivors_after_complete (items : list EvidenceItem) :
  forall earlier item,
    In item items -> quotable item = true ->
    In (cleaned item) (map cleaned (survivors_after earlier items))
    \/ exists e, In e earlier /\ quotable e = true /\ cleaned e = cleaned item.
Proof.
  induction items as [|first rest IH]; intros earlier item Hin Hq; [destruct Hin|].
  simpl. destruct Hin as [-> | Hin].
  - rewrite Hq. simpl.
    destruct (existsb _ earlier) eqn:Hrepeated; simpl.
    + right. apply existsb_exists in Hrepeated as (e & Hine & H).
      apply andb_true_iff in H as [Hqe Heq]. apply String.eqb_eq in Heq.
      exists e. repeat split; assumption.
    + left. left. reflexivity.
  - destruct (IH (earlier ++ [first])%list item Hin Hq)
      as [Hkept | (e & Hine & Hqe & Heq)].
    + left. rewrite map_app, in_app_iff. right. exact Hkept.
    + apply in_app_iff in Hine as [Hine | [<- | []]]; [right; eauto|].
      rewrite Hqe. simpl.
      destruct (existsb _ earlier) eqn:Hrepeated; simpl.
      * right. apply existsb_exists in Hrepeated as (e' & Hine' & H).
        apply andb_true_iff in H as [Hqe' Heq']. apply String.eqb_eq in Heq'.
        exists e'. repeat split; [assumption | assumption | congruence].
      * left. left. exact Heq.
Qed.



(** Of the three reports of the example the first and the third survive:
    the second repeats the first. *)
Example survivors_of_near_duplicates :
  survivors Demo.news_evidence =
    [ Demo.news_about_tesla
        "Tesla  announced [1] a new battery plant in Nevada   today" "Tavily";
      Demo.news_about_tesla
        "Tesla recalls two million vehicles over autopilot concerns" "Tavily" ].
Proof. vm_compute. reflexivity. Qed.

(** The design document's example: two reports that differ in white space
    and a bracketed note give one bullet. *)
Example news_digest_of_near_duplicates :
  DataEvaluator._format_final_response Demo.env Demo.trusted
    {| wikipedia := []; tavily := Demo.news_evidence; combined := Demo.news_evidence |} =
  "Latest news:" ++ DataEvaluator.paragraph_break ++
  "â€¢ Tesla announced a new battery plant in Nevada today (Source: Tavily)" ++
  DataEvaluator.paragraph_break ++
  "â€¢ Tesla recalls two million vehicles over autopilot concerns (Source: Tavily)".
Proof. vm_compute. reflexivity. Qed.

(** * Further properties of the result cache *)

(** A lookup with the cache on and the server up: one read of the derived
    key, answered from the database. *)
Lemma get_cached_data_lookup env key source w :
  CACHE_ENABLED env = true ->
  redis_up env = true ->
  RedisCacheService.get_cached_data env key source w =
    (match redis w !! RedisCacheService._generate_cache_key env key source with
     | Some (text, _) =>
         if Py.truthy text
         then match json_loads env text with
              | Some data => Ok (Some data)
              | None => Raise (CacheSerializationError "deserialization")
              end
         else Ok None
     | None => Ok None
     end,
     log (RedisGet (RedisCacheService._generate_cache_key env key source)) w).
Proof.
  intros Henabled Hup.
  unfold RedisCacheService.get_cached_data, RedisCacheService.redis_get.
  rewrite Henabled. run_py. rewrite Hup. simpl.
  destruct (redis w !! _) as [[text ttl]|]; simpl; [|reflexivity].
  destruct (Py.truthy text); simpl; [|reflexivity].
  destruct (json_loads env text); reflexivity.
Qed.

(** A store with the cache on and the server up, for a positive expiry. *)
Lemma set_cached_data_store env key source data ttl w :
  CACHE_ENABLED env = true ->
  redis_up env = true ->
  (0 < default 86400 ttl)%Z ->
  RedisCacheService.set_cached_data env key source data ttl w =
    (Ok true,
     log (RedisSetex (RedisCacheService._generate_cache_key env key source)
                     (default 86400%Z ttl) (json_dumps env data))
         {| redis := <[RedisCacheService._generate_cache_key env key source :=
                         (json_dumps env data, default 86400%Z ttl)]> (redis w);
            calls := calls w |}).
Proof.
  intros Henabled Hup Hpositive.
  destruct ttl as [t|]; [|apply set_cached_data_run; assumption].
  simpl in Hpositive. apply Z.ltb_lt in Hpositive.
  unfold RedisCacheService.set_cached_data, RedisCacheService.redis_setex.
  rewrite Henabled. run_py. rewrite Hup, Hpositive. reflexivity.
Qed.

(** X1.  With the cache switched off, looking up, storing, invalidating and
    clearing do nothing: they answer "absent" or "not done" and leave the
    world, database and call log, as it was. *)
Theorem cache_disabled_is_inert
    (env : Env) (key source : string) (data : Payload) (ttl : option Z) (w : World) :
  CACHE_ENABLED env = false ->
  RedisCacheService.get_cached_data env key source w = (Ok None, w)
  /\ RedisCacheService.set_cached_data env key source data ttl w = (Ok false, w)
  /\ RedisCacheService.invalidate_cache env key source w = (Ok false, w)
  /\ RedisCacheService.clear_all env w = (Ok false, w).
Proof.
  intros Hoff.
  unfold RedisCacheService.get_cached_data, RedisCacheService.set_cached_data,
    RedisCacheService.invalidate_cache, RedisCacheService.clear_all.
  rewrite Hoff. repeat split.
Qed.

Lemma cache_disabled_is_inert_witness :
  RedisCacheService.get_cached_data Demo.env_cache_disabled
      "Tesla headquarters location company" "wikipedia" Demo.warm_world =
    (Ok None, Demo.warm_world)
  /\ RedisCacheService.set_cached_data Demo.env_cache_disabled
       "Tesla headquarters location company" "wikipedia" Demo.cached_payload (Some 60%Z)
       Demo.warm_world = (Ok false, Demo.warm_world)
  /\ RedisCacheService.invalidate_cache Demo.env_cache_disabled
       "Tesla headquarters location company" "wikipedia" Demo.warm_world =
       (Ok false, Demo.warm_world)
  /\ RedisCacheService.clear_all Demo.env_cache_disabled Demo.warm_world =
       (Ok false, Demo.warm_world).
Proof.
  apply (cache_disabled_is_inert Demo.env_cache_disabled
           "Tesla headquarters location company" "wikipedia" Demo.cached_payload
           (Some 60%Z) Demo.warm_world).
  reflexivity.
Defined.

(** X2.  What is stored is found again.  With the cache on and the server
    up, a payload stored with a positive expiry (or none given) is what the
    next lookup of the same key and source returns, provided the JSON codec
    reads back what it wrote; the entry carries the expiry given, or 86400
    seconds, and every other key of the database keeps its entry. *)
Theorem set_then_get_returns_payload
    (env : Env) (key source : string) (data : Payload) (ttl : option Z) (w : World) :
  CACHE_ENABLED env = true ->
  redis_up env = true ->
  (0 < default 86400 ttl)%Z ->
  json_dumps env data <> "" ->
  json_loads env (json_dumps env data) = Some data ->
  fst (RedisCacheService.set_cached_data env key source data ttl w) = Ok true
  /\ fst (RedisCacheService.get_cached_data env key source
            (snd (RedisCacheService.set_cached_data env key source data ttl w))) =
       Ok (Some data)
  /\ stored_ttl (snd (RedisCacheService.set_cached_data env key source data ttl w))
       (RedisCacheService._generate_cache_key env key source) =
       Some (default 86400%Z ttl)
  /\ (forall other,
        other <> RedisCacheService._generate_cache_key env key source ->
        redis (snd (RedisCacheService.set_cached_data env key source data ttl w)) !! other =
        redis w !! other).
Proof.
  intros Henabled Hup Hpositive Hnonempty Hcodec.
  rewrite (set_cached_data_store env key source data ttl w Henabled Hup Hpositive).
  simpl. repeat split.
  - rewrite (get_cached_data_lookup env key source _ Henabled Hup). simpl.
    rewrite lookup_insert_eq.
    destruct (json_dumps env data) as [|c rest] eqn:Htext; [congruence|].
    simpl. rewrite Hcodec. reflexivity.
  - unfold stored_ttl. simpl. rewrite lookup_insert_eq. reflexivity.
  - intros other Hother. rewrite lookup_insert_ne; [reflexivity | congruence].
Qed.

Lemma set_then_get_returns_payload_witness :
  fst (RedisCacheService.get_cached_data Demo.env_offline
         "Tesla headquarters location company" "wikipedia"
         (snd (RedisCacheService.set_cached_data Demo.env_offline
                 "Tesla headquarters location company" "wikipedia"
                 Demo.cached_payload (Some 60%Z) Demo.world0))) =
    Ok (Some Demo.cached_payload).
Proof.
  apply (set_then_get_returns_payload Demo.env_offline
           "Tesla headquarters location company" "wikipedia"
           Demo.cached_payload (Some 60%Z) Demo.world0).
  - reflexivity.
  - reflexivity.
  - reflexivity.
  - discriminate.
  - reflexivity.
Defined.

(** An invalidation with the cache on and the server up. *)
Lemma invalidate_cache_run env key source w :
  CACHE_ENABLED env = true ->
  redis_up env = true ->
  RedisCacheService.invalidate_cache env key source w =
    match redis w !! RedisCacheService._generate_cache_key env key source with
    | Some _ =>
        (Ok true,
         {| redis := delete (RedisCacheService._generate_cache_key env key source)
                            (redis w);
            calls := calls w |})
    | None => (Ok false, w)
    end.
Proof.
  intros Henabled Hup.
  unfold RedisCacheService.invalidate_cache, RedisCacheService.redis_delete.
  rewrite Henabled. run_py. rewrite Hup.
  destruct (redis w !! _); reflexivity.
Qed.

(** X3.  Invalidation removes one entry.  With the cache on and the server
    up: invalidating a key that has an entry answers true, after which a
    lookup of that key misses while every other key keeps its entry;
    invalidating a key that has no entry answers false and changes nothing.
    In particular a payload that was stored and then invalidated is not found
    again. *)
Theorem invalidate_cache_removes_entry
    (env : Env) (key source : string) (w : World) :
  CACHE_ENABLED env = true ->
  redis_up env = true ->
  (is_Some (redis w !! RedisCacheService._generate_cache_key env key source) ->
   fst (RedisCacheService.invalidate_cache env key source w) = Ok true
   /\ fst (RedisCacheService.get_cached_data env key source
             (snd (RedisCacheService.invalidate_cache env key source w))) = Ok None
   /\ (forall other,
         other <> RedisCacheService._generate_cache_key env key source ->
         redis (snd (RedisCacheService.invalidate_cache env key source w)) !! other =
         redis w !! other))
  /\ (redis w !! RedisCacheService._generate_cache_key env key source = None ->
      RedisCacheService.invalidate_cache env key source w = (Ok false, w))
  /\ (forall data ttl,
        (0 < default 86400 ttl)%Z ->
        fst (RedisCacheService.get_cached_data env key source
               (snd (RedisCacheService.invalidate_cache env key source
                       (snd (RedisCacheService.set_cached_data env key source data ttl
                               w))))) = Ok None).
Proof.
  intros Henabled Hup. split; [|split].
  - intros [entry Hentry].
    rewrite (invalidate_cache_run env key source w Henabled Hup), Hentry. simpl.
    repeat split.
    + rewrite (get_cached_data_lookup env key source _ Henabled Hup). simpl.
      rewrite lookup_delete_eq. reflexivity.
    + intros other Hother. rewrite lookup_delete_ne; [reflexivity | congruence].
  - intros Habsent.
    rewrite (invalidate_cache_run env key source w Henabled Hup), Habsent.
    reflexivity.
  - intros data ttl Hpositive.
    rewrite (set_cached_data_store env key source data ttl w Henabled Hup Hpositive).
    rewrite (invalidate_cache_run env key source _ Henabled Hup). simpl.
    rewrite lookup_insert_eq. simpl.
    rewrite (get_cached_data_lookup env key source _ Henabled Hup). simpl.
    rewrite lookup_delete_eq. reflexivity.
Qed.

Lemma invalidate_cache_removes_entry_witness :
  fst (RedisCacheService.invalidate_cache Demo.env_offline
         "Tesla headquarters location company" "wikipedia" Demo.warm_world) = Ok true
  /\ fst (RedisCacheService.get_cached_data Demo.env_offline
            "Tesla headquarters location company" "wikipedia"
            (snd (RedisCacheService.invalidate_cache Demo.env_offline
                    "Tesla headquarters location company" "wikipedia"
                    Demo.warm_world))) = Ok None
  /\ RedisCacheService.invalidate_cache Demo.env_offline
       "Tesla headquarters location company" "wikipedia" Demo.world0 =
       (Ok false, Demo.world0).
Proof.
  destruct (invalidate_cache_removes_entry Demo.env_offline
              "Tesla headquarters location company" "wikipedia" Demo.warm_world
              eq_refl eq_refl) as (Hpresent & _ & _).
  destruct (invalidate_cache_removes_entry Demo.env_offline
              "Tesla headquarters location company" "wikipedia" Demo.world0
              eq_refl eq_refl) as (_ & Habsent & _).
  destruct Hpresent as (Hdone & Hgone & _).
  { vm_compute. eexists. reflexivity. }
  split; [exact Hdone | split; [exact Hgone | apply Habsent; vm_compute; reflexivity]].
Defined.

(** X4.  A server that does not answer.  With the cache on and the Redis
    server down, each operation raises the cache's operation error carrying
    its own name ("get", "set", "invalidate", "clear_all") and leaves the
    database as it was. *)
Theorem store_failure_names_operation
    (env : Env) (key source : string) (data : Payload) (ttl : option Z) (w : World) :
  CACHE_ENABLED env = true ->
  redis_up env = false ->
  (fst (RedisCacheService.get_cached_data env key source w) =
     Raise (CacheOperationError "get")
   /\ redis (snd (RedisCacheService.get_cached_data env key source w)) = redis w)
  /\ (fst (RedisCacheService.set_cached_data env key source data ttl w) =
        Raise (CacheOperationError "set")
      /\ redis (snd (RedisCacheService.set_cached_data env key source data ttl w)) =
         redis w)
  /\ RedisCacheService.invalidate_cache env key source w =
       (Raise (CacheOperationError "invalidate"), w)
  /\ RedisCacheService.clear_all env w = (Raise (CacheOperationError "clear_all"), w).
Proof.
  intros Henabled Hdown.
  unfold RedisCacheService.get_cached_data, RedisCacheService.set_cached_data,
    RedisCacheService.invalidate_cache, RedisCacheService.clear_all,
    RedisCacheService.redis_get, RedisCacheService.redis_setex,
    RedisCacheService.redis_delete, RedisCacheService.redis_flushdb.
  rewrite Henabled. run_py. rewrite Hdown. simpl. repeat split.
Qed.

Lemma store_failure_names_operation_witness :
  fst (RedisCacheService.get_cached_data Demo.env_redis_down
         "Tesla headquarters location company" "wikipedia" Demo.warm_world) =
    Raise (CacheOperationError "get")
  /\ RedisCacheService.clear_all Demo.env_redis_down Demo.warm_world =
       (Raise (CacheOperationError "clear_all"), Demo.warm_world).
Proof.
  destruct (store_failure_names_operation Demo.env_redis_down
              "Tesla headquarters location company" "wikipedia" Demo.cached_payload
              None Demo.warm_world eq_refl eq_refl) as ((Hget & _) & _ & _ & Hclear).
  split; [exact Hget | exact Hclear].
Defined.

(** The health check raises nothing and tells whether the server answers;
    it does so whether the cache is switched on or off, and changes
    nothing. *)
Lemma health_check_reports_server (env : Env) (w : World) :
  RedisCacheService.health_check env w = (Ok (redis_up env), w).
Proof.
  unfold RedisCacheService.health_check, RedisCacheService.redis_ping. run_py.
  destruct (redis_up env); reflexivity.
Qed.

(** X5.  An entry that cannot be read.  With the cache on and the server
    up, a lookup that finds a text the JSON codec cannot decode raises the
    serialization error (not the operation error); a lookup that finds an
    empty text is a miss. *)
Theorem undecodable_entry_raises
    (env : Env) (key source : string) (w : World) (text : string) (ttl : Z) :
  CACHE_ENABLED env = true ->
  redis_up env = true ->
  redis w !! RedisCacheService._generate_cache_key env key source = Some (text, ttl) ->
  (text <> "" -> json_loads env text = None ->
   fst (RedisCacheService.get_cached_data env key source w) =
     Raise (CacheSerializationError "deserialization"))
  /\ (text = "" ->
      fst (RedisCacheService.get_cached_data env key source w) = Ok None).
Proof.
  intros Henabled Hup Hentry.
  rewrite (get_cached_data_lookup env key source w Henabled Hup), Hentry. simpl.
  split.
  - intros Hnonempty Hcodec. destruct text as [|c rest]; [congruence|].
    simpl. rewrite Hcodec. reflexivity.
  - intros ->. reflexivity.
Qed.

Lemma undecodable_entry_raises_witness :
  fst (RedisCacheService.get_cached_data Demo.env
         "Tesla headquarters location company" "wikipedia" Demo.warm_world) =
    Raise (CacheSerializationError "deserialization").
Proof.
  apply (proj1 (undecodable_entry_raises Demo.env
                  "Tesla headquarters location company" "wikipedia" Demo.warm_world
                  "Wikipedia" 86400%Z eq_refl eq_refl
                  ltac:(vm_compute; reflexivity))).
  - discriminate.
  - reflexivity.
Defined.

(** X6.  Clearing empties the cache.  With the cache on and the server up,
    [clear_all] answers true and afterwards every lookup, of any key and
    source, misses. *)
Theorem clear_all_empties_cache (env : Env) (w : World) :
  CACHE_ENABLED env = true ->
  redis_up env = true ->
  fst (RedisCacheService.clear_all env w) = Ok true
  /\ forall key source,
       fst (RedisCacheService.get_cached_data env key source
              (snd (RedisCacheService.clear_all env w))) = Ok None.
Proof.
  intros Henabled Hup.
  unfold RedisCacheService.clear_all, RedisCacheService.redis_flushdb.
  rewrite Henabled. run_py. rewrite Hup. simpl. split; [reflexivity|].
  intros key source.
  rewrite (get_cached_data_lookup env key source _ Henabled Hup). simpl.
  rewrite lookup_empty. reflexivity.
Qed.

Lemma clear_all_empties_cache_witness :
  fst (RedisCacheService.clear_all Demo.env_offline Demo.warm_world) = Ok true
  /\ forall key source,
       fst (RedisCacheService.get_cached_data Demo.env_offline key source
              (snd (RedisCacheService.clear_all Demo.env_offline Demo.warm_world))) =
       Ok None.
Proof.
  apply (clear_all_empties_cache Demo.env_offline Demo.warm_world); reflexivity.
Defined.

(** ** The shape of cache keys *)

Lemma string_length_append (a b : string) :
  String.length (a ++ b) = String.length a + String.length b.
Proof. induction a as [|c a IH]; simpl; [reflexivity | rewrite IH; reflexivity]. Qed.

Lemma round_length st kw : length (Sha256.round st kw) = length st.
Proof.
  unfold Sha256.round.
  destruct st as [|a [|b [|c [|d [|e [|f [|g [|h [|i rest]]]]]]]]]; reflexivity.
Qed.

Lemma fold_round_length kws st :
  length (fold_left Sha256.round kws st) = length st.
Proof.
  revert st. induction kws as [|kw kws IH]; intros st; simpl; [reflexivity|].
  rewrite IH. apply round_length.
Qed.

Lemma compress_length h block : length (Sha256.compress h block) = length h.
Proof.
  unfold Sha256.compress.
  rewrite length_map, length_combine, fold_round_length. apply Nat.min_id.
Qed.

Lemma digest_length msg : length (Sha256.digest msg) = 8.
Proof.
  unfold Sha256.digest.
  generalize (Sha256.blocks (length (Sha256.be_words (Sha256.pad msg)) / 16)
                (Sha256.be_words (Sha256.pad msg))).
  assert (Hinit : length Sha256.initial_hash = 8) by reflexivity.
  revert Hinit. generalize Sha256.initial_hash.
  intros h Hh blocks. revert h Hh.
  induction blocks as [|b blocks IH]; intros h Hh; simpl; [exact Hh|].
  apply IH. rewrite compress_length. exact Hh.
Qed.

Lemma be_bytes_range n x : Forall (fun b => 0 <= b < 256)%Z (Sha256.be_bytes n x).
Proof.
  induction n as [|n IH]; simpl; constructor; [|exact IH].
  change 255%Z with (Z.ones 8). rewrite Z.land_ones by lia.
  apply Z.mod_pos_bound. lia.
Qed.

Lemma hex_digit_is_hex n : (0 <= n < 16)%Z -> is_hex_digit (Sha256.hex_digit n) = true.
Proof.
  intros Hn.
  assert (exists k, (k < 16)%nat /\ n = Z.of_nat k) as (k & Hk & ->)
    by (exists (Z.to_nat n); lia).
  do 16 (destruct k as [|k]; [reflexivity|]). lia.
Qed.

Lemma hex_of_bytes_shape bs :
  Forall (fun b => 0 <= b < 256)%Z bs ->
  String.length (Sha256.hex_of_bytes bs) = 2 * length bs
  /\ all_hex (Sha256.hex_of_bytes bs) = true.
Proof.
  induction 1 as [|b bs Hb _ [IHlen IHhex]]; simpl; [split; reflexivity|].
  split; [rewrite IHlen; lia|].
  rewrite IHhex, !hex_digit_is_hex; [reflexivity | idtac | idtac].
  - change 15%Z with (Z.ones 4). rewrite Z.land_ones by lia.
    apply Z.mod_pos_bound. lia.
  - rewrite Z.shiftr_div_pow2 by lia. change (2 ^ 4)%Z with 16%Z.
    split; [apply Z.div_pos; lia | apply Z.div_lt_upper_bound; lia].
Qed.

Lemma flat_map_be_bytes ws :
  length (flat_map (Sha256.be_bytes 4) ws) = 4 * length ws
  /\ Forall (fun b => 0 <= b < 256)%Z (flat_map (Sha256.be_bytes 4) ws).
Proof.
  induction ws as [|x ws [IHlen IHrange]]; [split; [reflexivity | constructor]|].
  split.
  - change (flat_map (Sha256.be_bytes 4) (x :: ws))
      with (Sha256.be_bytes 4 x ++ flat_map (Sha256.be_bytes 4) ws)%list.
    rewrite length_app, IHlen. simpl. lia.
  - change (flat_map (Sha256.be_bytes 4) (x :: ws))
      with (Sha256.be_bytes 4 x ++ flat_map (Sha256.be_bytes 4) ws)%list.
    apply Forall_app. split; [apply be_bytes_range | exact IHrange].
Qed.

(** The digest of any text is 64 lower-case hexadecimal digits. *)
Lemma hexdigest_shape s :
  String.length (Sha256.hexdigest s) = 64 /\ all_hex (Sha256.hexdigest s) = true.
Proof.
  unfold Sha256.hexdigest.
  destruct (flat_map_be_bytes (Sha256.digest (Sha256.bytes_of_string s)))
    as [Hlen Hrange].
  destruct (hex_of_bytes_shape _ Hrange) as [Hlen' Hhex].
  split; [|exact Hhex].
  rewrite Hlen', Hlen, digest_length. reflexivity.
Qed.

(** X7.  Every cache key, for any logical key, source tag and day, is the
    prefix [company_info:] followed by exactly 64 lower-case hexadecimal
    digits: 77 characters in all. *)
Theorem cache_key_shape (env : Env) (key source : string) :
  exists hashed,
    RedisCacheService._generate_cache_key env key source = "company_info:" ++ hashed
    /\ String.length hashed = 64
    /\ all_hex hashed = true
    /\ String.length (RedisCacheService._generate_cache_key env key source) = 77.
Proof.
  unfold RedisCacheService._generate_cache_key,
    RedisCacheService.generate_cache_key_on.
  destruct (hexdigest_shape
              (RedisCacheService.key_content (today env) key source)) as [Hlen Hhex].
  eexists. split; [reflexivity|]. split; [exact Hlen|]. split; [exact Hhex|].
  rewrite !string_length_append, Hlen. reflexivity.
Qed.

(** ** Normal forms of logical keys *)

Lemma prefix_empty s : String.prefix "" s = true.
Proof. destruct s; reflexivity. Qed.

Lemma prefix_cons a sub c r :
  String.prefix (String a sub) (String c r) = true ->
  a = c /\ String.prefix sub r = true.
Proof.
  simpl. destruct (ascii_dec a c) as [->|Hne]; [|discriminate].
  intros H. split; [reflexivity | exact H].
Qed.

Lemma prefix_cons_same a sub r :
  String.prefix (String a sub) (String a r) = String.prefix sub r.
Proof. simpl. destruct (ascii_dec a a); [reflexivity | congruence]. Qed.







(** Induction on the length of a text: white space characters take up to
    three bytes. *)
Lemma string_length_ind (P : string -> Prop) :
  (forall s, (forall t, String.length t < String.length s -> P t) -> P s) ->
  forall s, P s.
Proof.
  intros Hstep s. remember (String.length s) as n eqn:Hn. revert s Hn.
  induction n as [n IH] using lt_wf_ind. intros s ->.
  apply Hstep. intros t Ht. exact (IH _ Ht t eq_refl).
Qed.

Lemma lstrip_unfold s :
  Py.lstrip s =
    match Py.space_width s with
    | O => s
    | S k => Py.lstrip (Py.skip (S k) s)
    end.
Proof.
  destruct s as [|c [|d [|e r3]]]; simpl; try reflexivity.
  - destruct (Py.is_space c); reflexivity.
  - destruct (Py.is_space c); [reflexivity|].
    destruct (Py.is_space2 c d); reflexivity.
  - destruct (Py.is_space c); [reflexivity|].
    destruct (Py.is_space2 c d); [reflexivity|].
    destruct (Py.is_space3 c d e); reflexivity.
Qed.

Lemma rstrip_cons c r :
  Py.rstrip (String c r) =
    if Py.is_empty (Py.lstrip (String c r)) then EmptyString
    else String c (Py.rstrip r).
Proof. reflexivity. Qed.

Lemma skip_length_le n s : String.length (Py.skip n s) <= String.length s.
Proof.
  revert s. induction n as [|n IH]; intros [|c r]; simpl; try lia.
  specialize (IH r). lia.
Qed.

Lemma skip_space_shorter s k :
  Py.space_width s = S k ->
  String.length (Py.skip (S k) s) < String.length s.
Proof.
  destruct s as [|c r]; [discriminate|]. intros _. simpl.
  pose proof (skip_length_le k r). lia.
Qed.
















(** The same, run: shouting and padding a key changes nothing. *)
Example cache_key_of_padded_key :
  RedisCacheService._generate_cache_key Demo.env "  TESLA Headquarters " "web" =
  RedisCacheService._generate_cache_key Demo.env "tesla headquarters" "web".
Proof. vm_compute. reflexivity. Qed.

(** ** Source tags *)

Lemma append_cancel_r (a b c : string) : a ++ c = b ++ c -> a = b.
Proof.
  revert b. induction a as [|x a IH]; intros [|y b] H; simpl in H.
  - reflexivity.
  - exfalso. apply (f_equal String.length) in H.
    simpl in H. rewrite !string_length_append in H. simpl in H. lia.
  - exfalso. apply (f_equal String.length) in H.
    simpl in H. rewrite !string_length_append in H. simpl in H. lia.
  - injection H as -> H. rewrite (IH b H). reflexivity.
Qed.

(** X9.  Source tags keep entries apart.  The same logical key under two
    different source tags is hashed from two different texts, on any day;
    the two cache keys differ as long as SHA-256 does not collide on these
    two texts. *)
Theorem cache_key_separates_sources (env : Env) (key source1 source2 : string) :
  source1 <> source2 ->
  RedisCacheService.key_content (today env) key source1 <>
    RedisCacheService.key_content (today env) key source2
  /\ ((Sha256.hexdigest (RedisCacheService.key_content (today env) key source1) =
       Sha256.hexdigest (RedisCacheService.key_content (today env) key source2) ->
       RedisCacheService.key_content (today env) key source1 =
       RedisCacheService.key_content (today env) key source2) ->
      RedisCacheService._generate_cache_key env key source1 <>
      RedisCacheService._generate_cache_key env key source2).
Proof.
  intros Hsources.
  assert (Hcontent :
            RedisCacheService.key_content (today env) key source1 <>
            RedisCacheService.key_content (today env) key source2).
  { unfold RedisCacheService.key_content.
    destruct (RedisCacheService.has_recency_marker (Py.strip (Py.lower key)));
      intros Hsame; do 2 apply append_cancel_l in Hsame.
    - apply append_cancel_r in Hsame. exact (Hsources Hsame).
    - exact (Hsources Hsame). }
  split; [exact Hcontent|].
  intros Hfree Hkeys.
  unfold RedisCacheService._generate_cache_key,
    RedisCacheService.generate_cache_key_on in Hkeys.
  do 2 apply append_cancel_l in Hkeys. exact (Hcontent (Hfree Hkeys)).
Qed.

Lemma cache_key_separates_sources_witness :
  RedisCacheService._generate_cache_key Demo.env
    "Tesla headquarters location company" "wikipedia" <>
  RedisCacheService._generate_cache_key Demo.env
    "Tesla headquarters location company" "Tavily".
Proof.
  apply (proj2 (cache_key_separates_sources Demo.env
                  "Tesla headquarters location company" "wikipedia" "Tavily"
                  ltac:(discriminate))).
  intros Hdigest. vm_compute in Hdigest. discriminate Hdigest.
Defined.

(** * Further properties of retrieval *)

(** ** Substrings and stripping *)

Lemma contains_empty_text a sub : Py.contains (String a sub) "" = false.
Proof. reflexivity. Qed.

Lemma contains_append_r sub a b :
  Py.contains sub b = true -> Py.contains sub (a ++ b) = true.
Proof.
  intros Hb. induction a as [|c a IH]; simpl; [exact Hb|].
  rewrite IH. apply orb_true_r.
Qed.

Lemma lower_append a b : Py.lower (a ++ b) = Py.lower a ++ Py.lower b.
Proof. induction a as [|c a IH]; simpl; [reflexivity | rewrite IH; reflexivity]. Qed.

(** The bytes of a white space character of several bytes are none of
    them plain. *)
Lemma is_space2_not_plain c d :
  Py.is_space2 c d = true -> plain_char c = false /\ plain_char d = false.
Proof.
  unfold Py.is_space2, plain_char. intros H.
  apply andb_true_iff in H as [Hc Hd]. apply Nat.eqb_eq in Hc.
  apply orb_true_iff in Hd as [Hd | Hd]; apply Nat.eqb_eq in Hd;
    rewrite Hc, Hd; split; apply andb_false_r.
Qed.

Lemma is_space3_not_plain c d e :
  Py.is_space3 c d e = true ->
  plain_char c = false /\ plain_char d = false /\ plain_char e = false.
Proof.
  unfold Py.is_space3, plain_char. cbv zeta. intros H.
  assert (Hhigh : 128 <= nat_of_ascii c /\ 128 <= nat_of_ascii d
                  /\ 128 <= nat_of_ascii e).
  { repeat (apply orb_true_iff in H as [H | H]);
      repeat match goal with
        | H : (_ && _) = true |- _ => apply andb_true_iff in H as [? ?]
        | H : (_ || _) = true |- _ => apply orb_true_iff in H as [? | ?]
        | H : (_ =? _)%nat = true |- _ => apply Nat.eqb_eq in H
        | H : (_ <=? _)%nat = true |- _ => apply Nat.leb_le in H
        end; lia. }
  destruct Hhigh as (Hc & Hd & He).
  repeat split; apply andb_false_iff; right; apply Nat.ltb_ge; assumption.
Qed.

Lemma plain_char_not_space a : plain_char a = true -> Py.is_space a = false.
Proof.
  unfold plain_char. intros H. apply andb_true_iff in H as [H _].
  apply negb_true_iff in H. exact H.
Qed.

(** A text that begins with a plain character begins with no white
    space. *)
Lemma space_width_plain a r : plain_char a = true -> Py.space_width (String a r) = 0.
Proof.
  intros Ha. simpl. rewrite (plain_char_not_space a Ha).
  destruct r as [|d [|e r3]]; [reflexivity | |].
  - destruct (Py.is_space2 a d) eqn:H2; [|reflexivity].
    apply is_space2_not_plain in H2 as [H2 _]. congruence.
  - destruct (Py.is_space2 a d) eqn:H2.
    { apply is_space2_not_plain in H2 as [H2 _]. congruence. }
    destruct (Py.is_space3 a d e) eqn:H3; [|reflexivity].
    apply is_space3_not_plain in H3 as (H3 & _). congruence.
Qed.

Lemma contains_cons a sub c r :
  Py.contains (String a sub) (String c r) =
    String.prefix (String a sub) (String c r) || Py.contains (String a sub) r.
Proof. reflexivity. Qed.

(** A word that begins with a plain character does not begin inside a
    white space character. *)
Lemma contains_skip_space a sub s k :
  plain_char a = true ->
  Py.space_width s = S k ->
  Py.contains (String a sub) s = true ->
  Py.contains (String a sub) (Py.skip (S k) s) = true.
Proof.
  intros Ha Hwidth Hin.
  assert (Hstep : forall c r,
             plain_char c = false ->
             Py.contains (String a sub) (String c r) = true ->
             Py.contains (String a sub) r = true).
  { intros c r Hc H. rewrite contains_cons in H.
    apply orb_true_iff in H as [H | H]; [|exact H].
    apply prefix_cons in H as [<- _]. congruence. }
  destruct s as [|c r]; [discriminate|].
  simpl in Hwidth. destruct (Py.is_space c) eqn:Hc.
  { injection Hwidth as <-. simpl. apply (Hstep c r); [|exact Hin].
    unfold plain_char. rewrite Hc. reflexivity. }
  destruct r as [|d r2]; [discriminate|].
  destruct (Py.is_space2 c d) eqn:H2.
  { injection Hwidth as <-. simpl.
    apply is_space2_not_plain in H2 as [Hpc Hpd].
    apply (Hstep d r2 Hpd). apply (Hstep c _ Hpc). exact Hin. }
  destruct r2 as [|e r3]; [discriminate|].
  destruct (Py.is_space3 c d e) eqn:H3; [|discriminate].
  injection Hwidth as <-. simpl.
  apply is_space3_not_plain in H3 as (Hpc & Hpd & Hpe).
  apply (Hstep e r3 Hpe). apply (Hstep d _ Hpd). apply (Hstep c _ Hpc). exact Hin.
Qed.

Lemma contains_lstrip a sub s :
  plain_char a = true ->
  Py.contains (String a sub) s = true ->
  Py.contains (String a sub) (Py.lstrip s) = true.
Proof.
  intros Ha. induction s as [s IH] using string_length_ind. intros Hin.
  rewrite lstrip_unfold.
  destruct (Py.space_width s) as [|k] eqn:Hwidth; [exact Hin|].
  apply IH; [apply skip_space_shorter; exact Hwidth|].
  apply contains_skip_space; assumption.
Qed.

(** A text in which a plain word occurs is not white space only. *)
Lemma contains_not_blank a sub s :
  plain_char a = true ->
  Py.contains (String a sub) s = true ->
  Py.is_empty (Py.lstrip s) = false.
Proof.
  intros Ha Hin. pose proof (contains_lstrip a sub s Ha Hin) as Hkept.
  destruct (Py.lstrip s); [discriminate | reflexivity].
Qed.

Lemma prefix_rstrip sub s :
  spaceless sub = true ->
  String.prefix sub s = true ->
  String.prefix sub (Py.rstrip s) = true.
Proof.
  revert s. induction sub as [|a sub IH]; intros s Hspace Hprefix.
  - apply prefix_empty.
  - destruct s as [|c r]; [discriminate|].
    apply prefix_cons in Hprefix as [<- Hprefix].
    simpl in Hspace. apply andb_true_iff in Hspace as [Ha Hsub].
    rewrite rstrip_cons, lstrip_unfold, (space_width_plain a r Ha).
    cbn [Py.is_empty]. rewrite prefix_cons_same. exact (IH r Hsub Hprefix).
Qed.

Lemma contains_rstrip a sub s :
  spaceless (String a sub) = true ->
  Py.contains (String a sub) s = true ->
  Py.contains (String a sub) (Py.rstrip s) = true.
Proof.
  intros Hspace. induction s as [|c r IH]; intros Hin; [discriminate|].
  assert (Ha : plain_char a = true).
  { simpl in Hspace. apply andb_true_iff in Hspace as [Ha _]. exact Ha. }
  rewrite rstrip_cons, (contains_not_blank a sub _ Ha Hin).
  rewrite contains_cons in Hin. rewrite contains_cons.
  apply orb_true_iff in Hin as [Hprefix | Hrest].
  - pose proof (prefix_rstrip _ _ Hspace Hprefix) as Hkept.
    rewrite rstrip_cons in Hkept.
    destruct (Py.is_empty (Py.lstrip (String c r))); [discriminate|].
    rewrite Hkept. reflexivity.
  - rewrite (IH Hrest). apply orb_true_r.
Qed.

(** Stripping a text keeps every occurrence of a word made of plain
    characters. *)
Lemma contains_strip a sub s :
  spaceless (String a sub) = true ->
  Py.contains (String a sub) s = true ->
  Py.contains (String a sub) (Py.strip s) = true.
Proof.
  intros Hspace Hin. unfold Py.strip.
  apply contains_rstrip; [exact Hspace|].
  apply contains_lstrip; [|exact Hin].
  simpl in Hspace. apply andb_true_iff in Hspace as [Ha _]. exact Ha.
Qed.

(** X10.  News retrievals are cached by the day.  For a NEWS intent that
    names a company, the query generated for the encyclopedia and the query
    generated for the web search both carry a recency marker once
    normalised, so the text hashed into each cache key ends with the day. *)
Theorem news_queries_are_bound_to_the_day
    (env : Env) (intent_analysis : IntentAnalysis) :
  query_type intent_analysis = QueryType.NEWS ->
  companies (extracted_entities intent_analysis) <> [] ->
  (RedisCacheService.has_recency_marker
     (Py.strip (Py.lower (DataRetriever._generate_wikipedia_query intent_analysis)))
   = true
   /\ RedisCacheService.key_content (today env)
        (DataRetriever._generate_wikipedia_query intent_analysis) "wikipedia" =
      Py.strip (Py.lower (DataRetriever._generate_wikipedia_query intent_analysis))
      ++ ":wikipedia:" ++ today env)
  /\ (RedisCacheService.has_recency_marker
        (Py.strip (Py.lower (DataRetriever._generate_tavily_query env intent_analysis)))
      = true
      /\ RedisCacheService.key_content (today env)
           (DataRetriever._generate_tavily_query env intent_analysis) "Tavily" =
         Py.strip (Py.lower (DataRetriever._generate_tavily_query env intent_analysis))
         ++ ":Tavily:" ++ today env).
Proof.
  intros Hnews Hcompanies.
  assert (Hwiki :
            RedisCacheService.has_recency_marker
              (Py.strip (Py.lower
                 (DataRetriever._generate_wikipedia_query intent_analysis))) = true).
  { unfold DataRetriever._generate_wikipedia_query. rewrite Hnews.
    destruct (companies (extracted_entities intent_analysis)) as [|company others];
      [congruence|].
    unfold RedisCacheService.has_recency_marker, RedisCacheService.recency_terms.
    simpl existsb.
    rewrite (contains_strip "r" "ecent"); [rewrite !orb_true_r; reflexivity
                                          | reflexivity |].
    rewrite lower_append. apply contains_append_r. reflexivity. }
  assert (Htavily :
            RedisCacheService.has_recency_marker
              (Py.strip (Py.lower
                 (DataRetriever._generate_tavily_query env intent_analysis))) = true).
  { unfold DataRetriever._generate_tavily_query. rewrite Hnews.
    destruct (companies (extracted_entities intent_analysis)) as [|company others];
      [congruence|].
    unfold RedisCacheService.has_recency_marker, RedisCacheService.recency_terms.
    simpl existsb.
    rewrite (contains_strip "l" "atest"); [rewrite !orb_true_r; reflexivity
                                          | reflexivity |].
    destruct (time_constraints intent_analysis) as [tc|];
      [destruct (Py.truthy tc)|]; reflexivity. }
  unfold RedisCacheService.key_content. rewrite Hwiki, Htavily.
  repeat split.
Qed.

Lemma news_queries_are_bound_to_the_day_witness :
  RedisCacheService.key_content (today Demo.env)
    (DataRetriever._generate_tavily_query Demo.env (Demo.tesla QueryType.NEWS)) "Tavily" =
  Py.strip (Py.lower
    (DataRetriever._generate_tavily_query Demo.env (Demo.tesla QueryType.NEWS)))
  ++ ":Tavily:" ++ today Demo.env.
Proof.
  apply (news_queries_are_bound_to_the_day Demo.env (Demo.tesla QueryType.NEWS)).
  - reflexivity.
  - discriminate.
Defined.

(** ** Evidence from the web search *)

Lemma filter_has_content_idem (items : list TavilyItem) :
  filter DataRetriever.has_content (filter DataRetriever.has_content items) =
  filter DataRetriever.has_content items.
Proof.
  induction items as [|item items IH]; [reflexivity|].
  rewrite filter_cons. destruct (decide (DataRetriever.has_content item)) as [Hitem|Hitem].
  - rewrite filter_cons_True by exact Hitem. rewrite IH. reflexivity.
  - exact IH.
Qed.

(** X11.  The evidence built from a web search answer is the hits that have
    a content, in their order, each tagged "Tavily" and with the query that
    found it; a hit without content gives no item, a text answer gives none
    at all, and the narrowing done for NEWS intents changes nothing of
    this. *)
Theorem tavily_evidence_keeps_hits_with_content
    (intent_analysis : IntentAnalysis) (query : string) (answer : TavilyOutput) :
  results (DataRetriever.tavily_evidence intent_analysis query answer) =
    map (DataRetriever.evidence_of_hit query)
        (filter DataRetriever.has_content (DataRetriever.hits_of answer))
  /\ payload_source (DataRetriever.tavily_evidence intent_analysis query answer) = "Tavily"
  /\ Forall (fun item => content item <> "" /\ source item = "Tavily"
                         /\ origin_query item = query)
            (results (DataRetriever.tavily_evidence intent_analysis query answer))
  /\ length (results (DataRetriever.tavily_evidence intent_analysis query answer))
     <= length (DataRetriever.hits_of answer).
Proof.
  assert (Hresults :
            results (DataRetriever.tavily_evidence intent_analysis query answer) =
            map (DataRetriever.evidence_of_hit query)
                (filter DataRetriever.has_content (DataRetriever.hits_of answer))).
  { unfold DataRetriever.tavily_evidence. simpl.
    destruct answer as [items|message]; [|reflexivity].
    destruct (QueryType.eqb (query_type intent_analysis) QueryType.NEWS);
      [|reflexivity].
    destruct (filter DataRetriever.has_content items) as [|hit hits] eqn:Hfiltered.
    - simpl. rewrite Hfiltered. reflexivity.
    - simpl DataRetriever.hits_of. rewrite <- Hfiltered, filter_has_content_idem.
      reflexivity. }
  split; [exact Hresults|]. split; [reflexivity|]. rewrite Hresults.
  clear Hresults. split.
  - induction (DataRetriever.hits_of answer) as [|hit hits IH]; [constructor|].
    rewrite filter_cons.
    destruct (decide (DataRetriever.has_content hit)) as [Hhit|Hhit]; [|exact IH].
    simpl. constructor; [|exact IH].
    unfold DataRetriever.has_content in Hhit. simpl.
    destruct (hit_content hit) as [text|]; [|contradiction].
    destruct text; [contradiction|]. repeat split. discriminate.
  - rewrite length_map. apply length_filter.
Qed.

(** ** Retrieval and the state of the cache *)

(** X12.  A cache that fails is not a miss.  With the cache on and the Redis
    server down, a retrieval for an intent that names a company raises the
    cache's error before its provider is called, and the retrieval stage of
    the graph answers the empty evidence list tagged with its source: no
    provider is called at all. *)
Theorem redis_outage_silences_retrieval
    (env : Env) (state : WorkflowState) (intent_analysis : IntentAnalysis) (w : World) :
  CACHE_ENABLED env = true ->
  redis_up env = false ->
  intent state = Some intent_analysis ->
  requires_clarification state = false ->
  companies (extracted_entities intent_analysis) <> [] ->
  fst (DataRetriever.retrieve_wikipedia_data env intent_analysis w) =
    Raise (CacheOperationError "get")
  /\ fst (DataRetriever.retrieve_tavily_data env intent_analysis w) =
       Raise (CacheOperationError "get")
  /\ fst (CompanyInfoWorkflow.retrieve_wiki_data env state w) =
       Ok (CompanyInfoWorkflow.wiki_update (Some (DataRetriever.no_results "Wikipedia")))
  /\ fst (CompanyInfoWorkflow.retrieve_tavily_data env state w) =
       Ok (CompanyInfoWorkflow.tavily_update (Some (DataRetriever.no_results "Tavily")))
  /\ filter is_provider_call
       (calls (snd (CompanyInfoWorkflow.retrieve_wiki_data env state w))) =
     filter is_provider_call (calls w)
  /\ filter is_provider_call
       (calls (snd (CompanyInfoWorkflow.retrieve_tavily_data env state w))) =
     filter is_provider_call (calls w).
Proof.
  intros Henabled Hdown Hintent Hclear Hcompanies.
  unfold CompanyInfoWorkflow.retrieve_wiki_data,
    CompanyInfoWorkflow.retrieve_tavily_data.
  rewrite Hintent, Hclear.
  unfold DataRetriever.retrieve_wikipedia_data, DataRetriever.retrieve_tavily_data.
  destruct (companies (extracted_entities intent_analysis)) as [|company others];
    [congruence|].
  unfold RedisCacheService.get_cached_data, RedisCacheService.redis_get.
  rewrite Henabled. run_py. rewrite Hdown. simpl.
  rewrite !filter_app. simpl. rewrite !app_nil_r. repeat split.
Qed.

Lemma redis_outage_silences_retrieval_witness :
  fst (CompanyInfoWorkflow.retrieve_wiki_data Demo.env_redis_down Demo.classified
         Demo.world0) =
    Ok (CompanyInfoWorkflow.wiki_update (Some (DataRetriever.no_results "Wikipedia")))
  /\ filter is_provider_call
       (calls (snd (CompanyInfoWorkflow.retrieve_wiki_data Demo.env_redis_down
                      Demo.classified Demo.world0))) =
     filter is_provider_call (calls Demo.world0).
Proof.
  destruct (redis_outage_silences_retrieval Demo.env_redis_down Demo.classified
              (Demo.tesla QueryType.LOCATION) Demo.world0
              eq_refl eq_refl eq_refl eq_refl ltac:(discriminate))
    as (_ & _ & Hstage & _ & Hquiet & _).
  split; [exact Hstage | exact Hquiet].
Defined.

(** X13.  With the cache switched off, a retrieval for an intent that names
    a company goes straight to its provider: it calls it once, with the
    generated query, reaches nothing else, and returns the evidence built
    from the answer, or the empty list of its source when the provider
    raises.  It raises nothing itself. *)
Theorem retrieval_without_cache_calls_provider
    (env : Env) (intent_analysis : IntentAnalysis) (w : World) :
  CACHE_ENABLED env = false ->
  companies (extracted_entities intent_analysis) <> [] ->
  DataRetriever.retrieve_wikipedia_data env intent_analysis w =
    (Ok match wikipedia_arun env
                (DataRetriever._generate_wikipedia_query intent_analysis) with
        | Ok wiki_result =>
            DataRetriever.wikipedia_evidence
              (DataRetriever._generate_wikipedia_query intent_analysis) wiki_result
        | Raise _ => DataRetriever.no_results "Wikipedia"
        end,
     log (WikipediaCall (DataRetriever._generate_wikipedia_query intent_analysis)) w)
  /\ DataRetriever.retrieve_tavily_data env intent_analysis w =
       (Ok match tavily_arun env
                   (DataRetriever._generate_tavily_query env intent_analysis) with
           | Ok answer =>
               DataRetriever.tavily_evidence intent_analysis
                 (DataRetriever._generate_tavily_query env intent_analysis) answer
           | Raise _ => DataRetriever.no_results "Tavily"
           end,
        log (TavilyCall (DataRetriever._generate_tavily_query env intent_analysis)) w).
Proof.
  intros Hoff Hcompanies.
  unfold DataRetriever.retrieve_wikipedia_data, DataRetriever.retrieve_tavily_data.
  destruct (companies (extracted_entities intent_analysis)) as [|company others];
    [congruence|].
  unfold RedisCacheService.get_cached_data. rewrite Hoff. run_py.
  destruct (wikipedia_arun env _), (tavily_arun env _); split; reflexivity.
Qed.

Lemma retrieval_without_cache_calls_provider_witness :
  DataRetriever.retrieve_wikipedia_data Demo.env_cache_disabled
    (Demo.tesla QueryType.LOCATION) Demo.warm_world =
    (Ok Demo.cached_payload,
     log (WikipediaCall "Tesla headquarters location company") Demo.warm_world).
Proof.
  apply (proj1 (retrieval_without_cache_calls_provider Demo.env_cache_disabled
                  (Demo.tesla QueryType.LOCATION) Demo.warm_world
                  eq_refl ltac:(discriminate))).
Defined.

(** * Further properties of the parser *)

Lemma of_value_value (t : QueryType.t) : QueryType.of_value (QueryType.value t) = Some t.
Proof. destruct t; reflexivity. Qed.

Lemma of_value_unknown (v : string) :
  (forall t, v <> QueryType.value t) -> QueryType.of_value v = None.
Proof.
  intros Hunknown.
  assert (Hneq : forall t, String.eqb (QueryType.value t) v = false).
  { intros t. apply String.eqb_neq. intros E. exact (Hunknown t (eq_sym E)). }
  pose proof (Hneq QueryType.LOCATION) as H1.
  pose proof (Hneq QueryType.BUSINESS_MODEL) as H2.
  pose proof (Hneq QueryType.INVESTMENTS) as H3.
  pose proof (Hneq QueryType.NEWS) as H4.
  pose proof (Hneq QueryType.CUSTOMERS) as H5.
  pose proof (Hneq QueryType.GENERAL) as H6.
  unfold QueryType.of_value, QueryType.members. simpl in *.
  rewrite H1, H2, H3, H4, H5, H6. reflexivity.
Qed.

(** X14.  The intent analysis always answers.  It calls the intent model
    once and raises nothing.  When the model call fails, or its answer has no
    query type, the intent is the fallback: GENERAL, no entities, no time
    constraint (entities the model may have extracted are dropped).  When the
    answer has a query type, the entities and the time constraint are the
    model's, and the category is the one the text names, or GENERAL when it
    names none. *)
Theorem analyze_intent_outcomes (env : Env) (q : string) (w : World) :
  exists i,
    QueryParser.analyze_intent env q w = (Ok i, log (IntentModelCall q) w)
    /\ match intent_chain env q with
       | Raise _ => i = QueryParser.fallback_intent
       | Ok raw =>
           match raw_query_type raw with
           | None => i = QueryParser.fallback_intent
           | Some v =>
               extracted_entities i = raw_entities raw
               /\ time_constraints i = raw_time_constraints raw
               /\ (forall t, v = QueryType.value t -> query_type i = t)
               /\ ((forall t, v <> QueryType.value t) ->
                   query_type i = QueryType.GENERAL)
           end
       end.
Proof.
  unfold QueryParser.analyze_intent. run_py.
  destruct (intent_chain env q) as [raw|e]; simpl; [|eauto].
  destruct (raw_query_type raw) as [v|]; simpl; [|eauto].
  eexists. split; [reflexivity|]. simpl. repeat split.
  - intros t ->. rewrite of_value_value. reflexivity.
  - intros Hunknown. rewrite (of_value_unknown v Hunknown). reflexivity.
Qed.

(** * Further properties of the pipeline *)

Lemma parser_check_ambiguity_total env q retrieved_data w :
  exists check, fst (QueryParser.check_ambiguity env q retrieved_data w) = Ok check.
Proof.
  unfold QueryParser.check_ambiguity. run_py.
  destruct (ambiguity_chain env q _) as [raw|e]; simpl; [|eauto].
  unfold mkAmbiguityCheck.
  destruct (score_in_range (raw_confidence_score raw)); simpl; eauto.
Qed.

Lemma node_retrieve_no_company env state i w :
  intent state = Some i ->
  requires_clarification state = false ->
  companies (extracted_entities i) = [] ->
  CompanyInfoWorkflow.retrieve_wiki_data env state w =
    (Ok (CompanyInfoWorkflow.wiki_update (Some (DataRetriever.no_results "Wikipedia"))), w)
  /\ CompanyInfoWorkflow.retrieve_tavily_data env state w =
       (Ok (CompanyInfoWorkflow.tavily_update (Some (DataRetriever.no_results "Tavily"))),
        w).
Proof.
  intros Hintent Hclear Hnone.
  unfold CompanyInfoWorkflow.retrieve_wiki_data,
    CompanyInfoWorkflow.retrieve_tavily_data,
    DataRetriever.retrieve_wikipedia_data, DataRetriever.retrieve_tavily_data.
  rewrite Hintent, Hclear, Hnone. split; reflexivity.
Qed.

Lemma node_evaluate_no_evidence env state i w :
  intent state = Some i ->
  requires_clarification state = false ->
  combined (CompanyInfoWorkflow.combined_data_of state) = [] ->
  CompanyInfoWorkflow.evaluate_data env state w =
    (Ok (CompanyInfoWorkflow.evaluation_update
           {| is_valid := false; confidence_score := 0;
              missing_information := ["No data retrieved"];
              validation_details :=
                {| key_findings := [];
                   summary := "No data available for evaluation" |} |}), w).
Proof.
  intros Hintent Hclear Hempty.
  unfold CompanyInfoWorkflow.evaluate_data, DataEvaluator.evaluate_data.
  rewrite Hclear, Hintent. run_py. rewrite Hempty. reflexivity.
Qed.

Lemma node_generate_invalid env state v w :
  requires_clarification state = false ->
  evaluation state = Some v ->
  is_valid v = false ->
  CompanyInfoWorkflow.generate_response env state w =
    (Ok (CompanyInfoWorkflow.response_update
           {| response := apology; response_confidence := 0 |}), w).
Proof.
  intros Hclear Hevaluation Hinvalid.
  unfold CompanyInfoWorkflow.generate_response.
  rewrite Hclear, Hevaluation, Hinvalid. reflexivity.
Qed.

(** X15.  A query in which no company is found is never answered from
    evidence.  When the intent analysis names no company (as its fallback
    does after a failure of the intent model), [process_query] returns a
    response with confidence 0.0, the database is left as it was, and the
    only calls that leave the process are the intent model's and the
    ambiguity model's: no cache lookup, no provider, no evaluator. *)
Theorem query_without_company_gets_no_evidence
    (env : Env) (q : string) (w : World) (i : IntentAnalysis) :
  fst (QueryParser.analyze_intent env q w) = Ok i ->
  companies (extracted_entities i) = [] ->
  exists r w',
    CompanyInfoWorkflow.process_query env q w = (Ok r, w')
    /\ response_confidence r = 0%float
    /\ calls w' = (calls w ++ [IntentModelCall q; AmbiguityModelCall q ""])%list
    /\ redis w' = redis w.
Proof.
  intros Hparsed Hnone.
  destruct (node_analyze_intent_run env (initial_state q) w) as [i' Hi].
  assert (i' = i) as ->.
  { destruct (parser_analyze_intent_run env q w) as [i'' Hrun].
    unfold CompanyInfoWorkflow.analyze_intent in Hi.
    rewrite (try_except_run _ _ _ _ _
               (eq_trans (bind_run _ _ _ _ _ Hrun) eq_refl)) in Hi.
    rewrite Hrun in Hparsed. simpl in Hparsed.
    injection Hparsed as ->. injection Hi as Hi. congruence. }
  destruct (parser_check_ambiguity_total env q [("wiki", []); ("tavily", [])] w)
    as [check Hcheck].
  assert (Hgraph : exists final r,
             CompanyInfoWorkflow.graph_ainvoke env (initial_state q) w =
               (Ok final, log (AmbiguityModelCall q "") (log (IntentModelCall q) w))
             /\ state_response final = Some r
             /\ response_confidence r = 0%float).
  { unfold CompanyInfoWorkflow.graph_ainvoke.
    rewrite (bind_run _ _ _ _ _ Hi). cbv zeta.
    erewrite bind_run;
      [|eapply (node_check_ambiguity_run env _ _ w i check);
        [reflexivity | exact Hcheck]].
    cbv zeta.
    destruct (is_ambiguous check) eqn:Hamb.
    - erewrite bind_run; [|eapply node_retrieve_skip; simpl; reflexivity].
      erewrite bind_run; [|eapply node_retrieve_skip; simpl; reflexivity].
      erewrite bind_run; [|eapply node_evaluate_skip; simpl; reflexivity].
      erewrite bind_run; [|eapply node_generate_clarification; simpl; reflexivity].
      eexists; eexists. split; [reflexivity|]. split; reflexivity.
    - erewrite bind_run;
        [|eapply (node_retrieve_no_company env _ i);
          [reflexivity | simpl; reflexivity | exact Hnone]].
      erewrite bind_run;
        [|eapply (node_retrieve_no_company env _ i);
          [reflexivity | simpl; reflexivity | exact Hnone]].
      erewrite bind_run;
        [|eapply (node_evaluate_no_evidence env _ i);
          [reflexivity | simpl; reflexivity | reflexivity]].
      erewrite bind_run;
        [|eapply node_generate_invalid;
          [simpl; reflexivity | reflexivity | reflexivity]].
      eexists; eexists. split; [reflexivity|]. split; reflexivity. }
  destruct Hgraph as (final & r & Hgraph & Hresponse & Hzero).
  exists r. eexists. split; [|split; [exact Hzero|]].
  - unfold CompanyInfoWorkflow.process_query. apply try_except_run.
    rewrite (bind_run _ _ _ _ _ Hgraph). rewrite Hresponse. reflexivity.
  - simpl. rewrite <- !app_assoc. split; reflexivity.
Qed.

Lemma query_without_company_gets_no_evidence_witness :
  exists r w',
    CompanyInfoWorkflow.process_query Demo.env_intent_down
      "Where is Tesla headquartered?" Demo.world0 = (Ok r, w')
    /\ response_confidence r = 0%float
    /\ calls w' = (calls Demo.world0 ++
                   [IntentModelCall "Where is Tesla headquartered?";
                    AmbiguityModelCall "Where is Tesla headquartered?" ""])%list
    /\ redis w' = redis Demo.world0.
Proof.
  apply (query_without_company_gets_no_evidence Demo.env_intent_down
           "Where is Tesla headquartered?" Demo.world0 QueryParser.fallback_intent).
  - reflexivity.
  - reflexivity.
Defined.

Lemma bind_returns {A B} (P : B -> Prop) (m : M A) (k : A -> M B) :
  (forall a, returns P (k a)) -> returns P (bind m k).
Proof.
  intros Hk w b w' Hrun.
  apply bind_ok_inv in Hrun as (a & w1 & _ & Hrun). exact (Hk a _ _ _ Hrun).
Qed.

Lemma lift_validation_returns valid score missing details :
  returns (fun v => is_valid v = valid /\ confidence_score v = score)
          (lift (mkValidationResult valid score missing details)).
Proof.
  intros w v w'. unfold lift, mkValidationResult.
  destruct (score_in_range score); intros H; [|discriminate].
  injection H as <- _. split; reflexivity.
Qed.

(** Whatever verdict the evaluator returns, it is valid exactly when its
    score reaches the threshold. *)
Lemma data_evaluate_returns_threshold env query_analysis retrieved_data :
  returns (fun v => is_valid v = PrimFloat.leb 0.7 (confidence_score v))
          (DataEvaluator.evaluate_data env query_analysis retrieved_data).
Proof.
  unfold DataEvaluator.evaluate_data.
  apply try_except_returns; [|intros e w v w'; discriminate].
  destruct (combined retrieved_data) as [|item rest].
  - intros w v w' Hrun.
    apply lift_validation_returns in Hrun as [-> ->]. reflexivity.
  - apply bind_returns. intros raw w v w' Hrun.
    apply lift_validation_returns in Hrun as [-> ->]. reflexivity.
Qed.

Lemma node_evaluate_returns env state :
  returns (fun u => exists v, set_evaluation u = Some (Some v)
                              /\ is_valid v = PrimFloat.leb 0.7 (confidence_score v))
          (CompanyInfoWorkflow.evaluate_data env state).
Proof.
  assert (Hfixed : forall missing,
             returns (fun u => exists v, set_evaluation u = Some (Some v)
                               /\ is_valid v = PrimFloat.leb 0.7 (confidence_score v))
                     (let* v := lift (mkValidationResult false 0 missing default_details)
                      in ret (CompanyInfoWorkflow.evaluation_update v))).
  { intros missing w u w' Hrun.
    apply bind_ok_inv in Hrun as (v & w1 & Hv & Hrun).
    apply lift_validation_returns in Hv as [Hvalid Hscore].
    unfold ret in Hrun. injection Hrun as <- _.
    exists v. split; [reflexivity|]. rewrite Hvalid, Hscore. reflexivity. }
  unfold CompanyInfoWorkflow.evaluate_data.
  destruct (requires_clarification state); [apply Hfixed|].
  apply try_except_returns; [|intros e; apply Hfixed].
  destruct (intent state) as [i|]; [|intros w u w'; discriminate].
  intros w u w' Hrun.
  apply bind_ok_inv in Hrun as (v & w1 & Hv & Hrun).
  apply data_evaluate_returns_threshold in Hv.
  unfold ret in Hrun. injection Hrun as <- _.
  exists v. split; [reflexivity | exact Hv].
Qed.

Lemma respond_returns_score text score :
  returns (fun u => exists r, set_response u = Some (Some r)
                              /\ response_confidence r = score)
          (CompanyInfoWorkflow.respond text score).
Proof.
  intros w u w'. unfold CompanyInfoWorkflow.respond, mkQueryResponse. run_py.
  destruct (score_in_range score); simpl; intros H; [|discriminate].
  injection H as <- _. eexists. split; reflexivity.
Qed.

Lemma node_generate_returns_score env state :
  returns (fun u => exists r, set_response u = Some (Some r)
                     /\ (response_confidence r = 0%float
                         \/ exists v, evaluation state = Some v
                                      /\ is_valid v = true
                                      /\ response_confidence r = confidence_score v))
          (CompanyInfoWorkflow.generate_response env state).
Proof.
  assert (Hzero : forall text,
             returns (fun u => exists r, set_response u = Some (Some r)
                       /\ (response_confidence r = 0%float
                           \/ exists v, evaluation state = Some v
                                        /\ is_valid v = true
                                        /\ response_confidence r = confidence_score v))
                     (CompanyInfoWorkflow.respond text 0)).
  { intros text w u w' Hrun.
    apply respond_returns_score in Hrun as (r & Hset & Hscore).
    exists r. split; [exact Hset | left; exact Hscore]. }
  unfold CompanyInfoWorkflow.generate_response.
  apply try_except_returns; [|intros e; apply Hzero].
  destruct (requires_clarification state); [apply Hzero|].
  destruct (evaluation state) as [v|]; [|apply Hzero].
  destruct (is_valid v) eqn:Hvalid; simpl; [|apply Hzero].
  intros w u w' Hrun.
  apply respond_returns_score in Hrun as (r & Hset & Hscore).
  exists r. split; [exact Hset|]. right. exists v. repeat split; assumption.
Qed.

Lemma graph_ainvoke_returns_score env initial :
  returns (fun final => exists r, state_response final = Some r
                          /\ (response_confidence r = 0%float
                              \/ PrimFloat.leb 0.7 (response_confidence r) = true))
          (CompanyInfoWorkflow.graph_ainvoke env initial).
Proof.
  intros w final w'. unfold CompanyInfoWorkflow.graph_ainvoke. intros Hrun.
  apply bind_ok_inv in Hrun as (u1 & w1 & _ & Hrun).
  apply bind_ok_inv in Hrun as (u2 & w2 & _ & Hrun).
  apply bind_ok_inv in Hrun as (u3 & w3 & _ & Hrun).
  apply bind_ok_inv in Hrun as (u4 & w4 & _ & Hrun).
  apply bind_ok_inv in Hrun as (u5 & w5 & Hevaluate & Hrun).
  apply bind_ok_inv in Hrun as (u6 & w6 & Hlast & Hrun).
  apply node_evaluate_returns in Hevaluate as (v & Hset5 & Hthreshold).
  apply node_generate_returns_score in Hlast as (r & Hset6 & Hscore).
  unfold ret in Hrun. injection Hrun as <- _.
  exists r. split.
  - unfold apply_update. simpl. rewrite Hset6. reflexivity.
  - destruct Hscore as [Hzero | (v' & Hstate & Hvalid & Hconf)]; [left; exact Hzero|].
    right. unfold apply_update in Hstate. simpl in Hstate. rewrite Hset5 in Hstate.
    simpl in Hstate. injection Hstate as <-.
    rewrite Hconf, <- Hthreshold. exact Hvalid.
Qed.

(** X16.  A response is either without confidence or well founded.  For
    every query, in every deployment, the response [process_query] returns
    has a confidence score that is 0.0 or at least 0.7: no answer comes with
    a score strictly between the two. *)
Theorem response_confidence_is_zero_or_valid (env : Env) (q : string) (w : World) :
  exists r w',
    CompanyInfoWorkflow.process_query env q w = (Ok r, w')
    /\ (response_confidence r = 0%float
        \/ PrimFloat.leb 0.7 (response_confidence r) = true).
Proof.
  destruct (graph_ainvoke_total env (initial_state q) w) as (final & w' & Hgraph).
  destruct (graph_ainvoke_returns_score env _ _ _ _ Hgraph) as (r & Hresponse & Hscore).
  exists r, w'. split; [|exact Hscore].
  unfold CompanyInfoWorkflow.process_query. apply try_except_run.
  rewrite (bind_run _ _ _ _ _ Hgraph). rewrite Hresponse. reflexivity.
Qed.

(** ** The evaluation and the answer *)

Lemma data_evaluate_failure env query_analysis retrieved_data w :
  combined retrieved_data <> [] ->
  (forall raw,
      evaluation_llm env
        (DataEvaluator.evaluation_input_of query_analysis (combined retrieved_data))
        = Ok raw ->
      score_in_range (raw_confidence raw) = false) ->
  exists e,
    DataEvaluator.evaluate_data env query_analysis retrieved_data w =
      (Raise e,
       log (EvaluatorModelCall
              (DataEvaluator.evaluation_input_of query_analysis
                 (combined retrieved_data))) w).
Proof.
  intros Hevidence Hbad.
  unfold DataEvaluator.evaluate_data, DataEvaluator.evaluation_chain,
    DataEvaluator.parse_evaluation.
  destruct (combined retrieved_data) as [|item rest]; [congruence|].
  run_py.
  destruct (evaluation_llm env _) as [raw|e] eqn:Hllm; simpl; [|eauto].
  rewrite (Hbad raw eq_refl). simpl. eauto.
Qed.

Lemma node_evaluate_failure env state i w :
  intent state = Some i ->
  requires_clarification state = false ->
  combined (CompanyInfoWorkflow.combined_data_of state) <> [] ->
  (forall raw, evaluation_llm env (evaluator_input state i) = Ok raw ->
               score_in_range (raw_confidence raw) = false) ->
  CompanyInfoWorkflow.evaluate_data env state w =
    (Ok (CompanyInfoWorkflow.evaluation_update
           {| is_valid := false; confidence_score := 0;
              missing_information := ["Error evaluating data"];
              validation_details := default_details |}),
     log (EvaluatorModelCall (evaluator_input state i)) w).
Proof.
  intros Hintent Hclear Hevidence Hbad.
  destruct (data_evaluate_failure env _ _ w Hevidence Hbad) as [e Hraise].
  unfold CompanyInfoWorkflow.evaluate_data, evaluator_input.
  rewrite Hintent. destruct (requires_clarification state); [discriminate|].
  unfold try_except, bind. cbv zeta. rewrite Hraise. reflexivity.
Qed.

Lemma node_evaluate_scored env state i raw w :
  intent state = Some i ->
  requires_clarification state = false ->
  combined (CompanyInfoWorkflow.combined_data_of state) <> [] ->
  evaluation_llm env (evaluator_input state i) = Ok raw ->
  score_in_range (raw_confidence raw) = true ->
  CompanyInfoWorkflow.evaluate_data env state w =
    (Ok (CompanyInfoWorkflow.evaluation_update
           {| is_valid := PrimFloat.leb 0.7 (raw_confidence raw);
              confidence_score := raw_confidence raw;
              missing_information := raw_missing_information raw;
              validation_details :=
                {| key_findings := main_points raw;
                   summary := raw_summary raw |} |}),
     log (EvaluatorModelCall (evaluator_input state i)) w).
Proof.
  intros Hintent Hclear Hevidence Hllm Hrange.
  unfold CompanyInfoWorkflow.evaluate_data, evaluator_input in *.
  rewrite Hintent. destruct (requires_clarification state); [discriminate|].
  unfold DataEvaluator.evaluate_data, DataEvaluator.evaluation_chain,
    DataEvaluator.parse_evaluation.
  destruct (combined (CompanyInfoWorkflow.combined_data_of state))
    as [|item rest]; [congruence|].
  unfold try_except, bind, call, lift, ret. cbv zeta.
  rewrite Hllm. cbv iota beta. rewrite Hrange. cbv iota beta.
  unfold mkValidationResult. rewrite Hrange. reflexivity.
Qed.

(** X17.  An evaluator that fails costs the answer, not the request.  When
    the evaluation stage holds evidence and the evaluator model fails, or
    returns a score outside [0, 1], the stage makes one call to the model and
    records the verdict "Error evaluating data" (invalid, score 0.0); the
    response stage that follows answers with the fixed apology and confidence
    0.0, and makes no call of its own. *)
Theorem evaluator_failure_yields_apology
    (env : Env) (state : WorkflowState) (i : IntentAnalysis) (w : World) :
  intent state = Some i ->
  requires_clarification state = false ->
  combined (CompanyInfoWorkflow.combined_data_of state) <> [] ->
  (forall raw, evaluation_llm env (evaluator_input state i) = Ok raw ->
               score_in_range (raw_confidence raw) = false) ->
  exists u v w',
    CompanyInfoWorkflow.evaluate_data env state w = (Ok u, w')
    /\ set_evaluation u = Some (Some v)
    /\ is_valid v = false
    /\ confidence_score v = 0%float
    /\ missing_information v = ["Error evaluating data"]
    /\ w' = log (EvaluatorModelCall (evaluator_input state i)) w
    /\ CompanyInfoWorkflow.generate_response env (apply_update u state) w' =
         (Ok (CompanyInfoWorkflow.response_update
                {| response := apology; response_confidence := 0 |}), w').
Proof.
  intros Hintent Hclear Hevidence Hbad.
  eexists; eexists; eexists.
  split; [exact (node_evaluate_failure env state i w Hintent Hclear Hevidence Hbad)|].
  repeat (split; [reflexivity|]).
  eapply node_generate_invalid; [exact Hclear | reflexivity | reflexivity].
Qed.

Lemma evaluator_failure_yields_apology_witness :
  exists u v w',
    CompanyInfoWorkflow.evaluate_data (Demo.env_with "2024-05-01" (Ok Demo.unambiguous) 1.5)
      Demo.retrieved Demo.world0 = (Ok u, w')
    /\ set_evaluation u = Some (Some v)
    /\ is_valid v = false
    /\ confidence_score v = 0%float
    /\ missing_information v = ["Error evaluating data"]
    /\ w' = log (EvaluatorModelCall
                   (evaluator_input Demo.retrieved (Demo.tesla QueryType.LOCATION)))
                Demo.world0
    /\ CompanyInfoWorkflow.generate_response
         (Demo.env_with "2024-05-01" (Ok Demo.unambiguous) 1.5)
         (apply_update u Demo.retrieved) w' =
         (Ok (CompanyInfoWorkflow.response_update
                {| response := apology; response_confidence := 0 |}), w').
Proof.
  apply (evaluator_failure_yields_apology
           (Demo.env_with "2024-05-01" (Ok Demo.unambiguous) 1.5)
           Demo.retrieved (Demo.tesla QueryType.LOCATION) Demo.world0).
  - reflexivity.
  - reflexivity.
  - discriminate.
  - intros raw Hraw. injection Hraw as <-. reflexivity.
Defined.

(** X18.  The evaluator's score decides the answer.  When the evaluation
    stage holds evidence and the evaluator model returns a score within
    [0, 1], the stage records that score, and the response stage that
    follows answers with the formatted evidence and that very score if the
    score is at least 0.7, and with the fixed apology and confidence 0.0
    otherwise.  The two stages together make one call, to the evaluator. *)
Theorem evaluator_score_decides_answer
    (env : Env) (state : WorkflowState) (i : IntentAnalysis)
    (raw : RawEvaluation) (w : World) :
  intent state = Some i ->
  requires_clarification state = false ->
  combined (CompanyInfoWorkflow.combined_data_of state) <> [] ->
  evaluation_llm env (evaluator_input state i) = Ok raw ->
  score_in_range (raw_confidence raw) = true ->
  exists u v w',
    CompanyInfoWorkflow.evaluate_data env state w = (Ok u, w')
    /\ set_evaluation u = Some (Some v)
    /\ confidence_score v = raw_confidence raw
    /\ w' = log (EvaluatorModelCall (evaluator_input state i)) w
    /\ CompanyInfoWorkflow.generate_response env (apply_update u state) w' =
         (Ok (CompanyInfoWorkflow.response_update
                (if PrimFloat.leb 0.7 (raw_confidence raw)
                 then {| response :=
                           DataEvaluator._format_final_response env v
                             (CompanyInfoWorkflow.combined_data_of state);
                         response_confidence := raw_confidence raw |}
                 else {| response := apology; response_confidence := 0 |})), w').
Proof.
  intros Hintent Hclear Hevidence Hllm Hrange.
  eexists; eexists; eexists.
  split;
    [exact (node_evaluate_scored env state i raw w Hintent Hclear Hevidence Hllm Hrange)|].
  repeat (split; [reflexivity|]).
  unfold CompanyInfoWorkflow.generate_response, apply_update. simpl.
  rewrite Hclear.
  destruct (PrimFloat.leb 0.7 (raw_confidence raw)) eqn:Hvalid; simpl.
  - unfold try_except, CompanyInfoWorkflow.respond, bind, lift, ret, mkQueryResponse.
    rewrite Hrange. reflexivity.
  - reflexivity.
Qed.

Lemma evaluator_score_decides_answer_witness :
  exists u v w',
    CompanyInfoWorkflow.evaluate_data Demo.env Demo.retrieved Demo.world0 = (Ok u, w')
    /\ set_evaluation u = Some (Some v)
    /\ confidence_score v = raw_confidence (Demo.judged 0.85)
    /\ w' = log (EvaluatorModelCall
                   (evaluator_input Demo.retrieved (Demo.tesla QueryType.LOCATION)))
                Demo.world0
    /\ CompanyInfoWorkflow.generate_response Demo.env
         (apply_update u Demo.retrieved) w' =
         (Ok (CompanyInfoWorkflow.response_update
                (if PrimFloat.leb 0.7 (raw_confidence (Demo.judged 0.85))
                 then {| response :=
                           DataEvaluator._format_final_response Demo.env v
                             (CompanyInfoWorkflow.combined_data_of Demo.retrieved);
                         response_confidence := raw_confidence (Demo.judged 0.85) |}
                 else {| response := apology; response_confidence := 0 |})), w').
Proof.
  apply (evaluator_score_decides_answer Demo.env Demo.retrieved
           (Demo.tesla QueryType.LOCATION) (Demo.judged 0.85) Demo.world0).
  - reflexivity.
  - reflexivity.
  - discriminate.
  - reflexivity.
  - reflexivity.
Defined.

(** ** What a request costs *)

Lemma frugal_here {A} (c : M A) :
  (forall w, snd (c w) = w) -> frugal 0 0 0 c.
Proof.
  intros Hc w. exists []. rewrite Hc, app_nil_r. destruct w.
  repeat split; simpl; auto.
Qed.

Lemma frugal_ret {A} (a : A) : frugal 0 0 0 (ret a).
Proof. apply frugal_here. reflexivity. Qed.

Lemma frugal_raise {A} (e : exn) : frugal 0 0 0 (raise (A := A) e).
Proof. apply frugal_here. reflexivity. Qed.

Lemma frugal_lift {A} (r : result A) : frugal 0 0 0 (lift r).
Proof. apply frugal_here. reflexivity. Qed.

Lemma frugal_mono {A} n p m n' p' m' (c : M A) :
  frugal n p m c -> n <= n' -> p <= p' -> m <= m' -> frugal n' p' m' c.
Proof.
  intros Hc Hn Hp Hm w.
  destruct (Hc w) as (trace & Hw & Hlen & Hwrite & Hprov & Hmodel).
  exists trace. repeat split; try assumption; lia.
Qed.

Lemma frugal_bind {A B} n1 p1 m1 n2 p2 m2 (c : M A) (k : A -> M B) :
  frugal n1 p1 m1 c ->
  (forall a, frugal n2 p2 m2 (k a)) ->
  frugal (n1 + n2) (p1 + p2) (m1 + m2) (bind c k).
Proof.
  intros Hc Hk w.
  destruct (Hc w) as (t1 & Hw1 & Hlen1 & Hwrite1 & Hprov1 & Hmodel1).
  unfold bind. destruct (c w) as [[a|e] w1]; simpl in Hw1; subst w1.
  - destruct (Hk a {| redis := redis w; calls := (calls w ++ t1)%list |})
      as (t2 & Hw2 & Hlen2 & Hwrite2 & Hprov2 & Hmodel2).
    simpl in Hw2. exists (t1 ++ t2)%list.
    rewrite Hw2, app_assoc, !filter_app, !length_app, Hwrite1, Hwrite2.
    repeat split; simpl; try reflexivity; lia.
  - exists t1. repeat split; simpl; try assumption; lia.
Qed.

Lemma frugal_try_except {A} n1 p1 m1 n2 p2 m2 (c : M A) (h : exn -> M A) :
  frugal n1 p1 m1 c ->
  (forall e, frugal n2 p2 m2 (h e)) ->
  frugal (n1 + n2) (p1 + p2) (m1 + m2) (try_except c h).
Proof.
  intros Hc Hh w.
  destruct (Hc w) as (t1 & Hw1 & Hlen1 & Hwrite1 & Hprov1 & Hmodel1).
  unfold try_except. destruct (c w) as [[a|e] w1]; simpl in Hw1; subst w1.
  - exists t1. repeat split; simpl; try assumption; lia.
  - destruct (Hh e {| redis := redis w; calls := (calls w ++ t1)%list |})
      as (t2 & Hw2 & Hlen2 & Hwrite2 & Hprov2 & Hmodel2).
    simpl in Hw2. exists (t1 ++ t2)%list.
    rewrite Hw2, app_assoc, !filter_app, !length_app, Hwrite1, Hwrite2.
    repeat split; simpl; try reflexivity; lia.
Qed.

Lemma frugal_call {A} (e : event) (answer : result A) :
  is_redis_write e = false ->
  frugal 1 (if is_provider_call e then 1 else 0) (if is_model_call e then 1 else 0)
         (call e answer).
Proof.
  intros Hwrite w. exists [e]. unfold call, log. simpl.
  repeat split; try reflexivity.
  - destruct e; try discriminate; reflexivity.
  - destruct e; simpl; auto.
  - destruct e; simpl; auto.
Qed.

Lemma frugal_redis_get env k : frugal 1 0 0 (RedisCacheService.redis_get env k).
Proof.
  intros w. exists [RedisGet k]. unfold RedisCacheService.redis_get, log.
  destruct (redis_up env); simpl; repeat split; auto.
Qed.

Lemma frugal_get_cached_data env key source :
  frugal 1 0 0 (RedisCacheService.get_cached_data env key source).
Proof.
  unfold RedisCacheService.get_cached_data.
  destruct (CACHE_ENABLED env); simpl;
    [|eapply frugal_mono; [apply frugal_ret | lia | lia | lia]].
  apply (frugal_try_except 1 0 0 0 0 0).
  - apply (frugal_bind 1 0 0 0 0 0); [apply frugal_redis_get|].
    intros [text|]; [|apply frugal_ret].
    destruct (Py.truthy text); [|apply frugal_ret].
    destruct (json_loads env text); [apply frugal_ret | apply frugal_raise].
  - intros e. unfold RedisCacheService.on_redis_error.
    destruct e; apply frugal_raise.
Qed.

Lemma frugal_retrieve_wikipedia_data env intent_analysis :
  frugal 2 1 0 (DataRetriever.retrieve_wikipedia_data env intent_analysis).
Proof.
  unfold DataRetriever.retrieve_wikipedia_data.
  destruct (companies (extracted_entities intent_analysis));
    [eapply frugal_mono; [apply frugal_ret | lia | lia | lia]|].
  apply (frugal_bind 1 0 0 1 1 0); [apply frugal_get_cached_data|].
  intros [data|]; [eapply frugal_mono; [apply frugal_ret | lia | lia | lia]|].
  apply (frugal_try_except 1 1 0 0 0 0); [|intros e; apply frugal_ret].
  apply (frugal_bind 1 1 0 0 0 0); [|intros a; apply frugal_ret].
  apply (frugal_call (WikipediaCall _)). reflexivity.
Qed.

Lemma frugal_retrieve_tavily_data env intent_analysis :
  frugal 2 1 0 (DataRetriever.retrieve_tavily_data env intent_analysis).
Proof.
  unfold DataRetriever.retrieve_tavily_data.
  destruct (companies (extracted_entities intent_analysis));
    [eapply frugal_mono; [apply frugal_ret | lia | lia | lia]|].
  apply (frugal_bind 1 0 0 1 1 0); [apply frugal_get_cached_data|].
  intros [data|]; [eapply frugal_mono; [apply frugal_ret | lia | lia | lia]|].
  apply (frugal_try_except 1 1 0 0 0 0); [|intros e; apply frugal_ret].
  apply (frugal_bind 1 1 0 0 0 0); [|intros a; apply frugal_ret].
  apply (frugal_call (TavilyCall _)). reflexivity.
Qed.

Lemma frugal_clarification_update message with_intent :
  frugal 0 0 0 (CompanyInfoWorkflow.clarification_update message with_intent).
Proof.
  apply (frugal_bind 0 0 0 0 0 0); [apply frugal_lift | intros a; apply frugal_ret].
Qed.

Lemma frugal_node_analyze_intent env state :
  frugal 1 0 1 (CompanyInfoWorkflow.analyze_intent env state).
Proof.
  apply (frugal_try_except 1 0 1 0 0 0);
    [|intros e; apply frugal_clarification_update].
  apply (frugal_bind 1 0 1 0 0 0); [|intros a; apply frugal_ret].
  apply (frugal_try_except 1 0 1 0 0 0); [|intros e; apply frugal_ret].
  apply (frugal_bind 1 0 1 0 0 0);
    [apply (frugal_call (IntentModelCall _)); reflexivity|].
  intros raw. destruct (raw_query_type raw); [apply frugal_ret | apply frugal_raise].
Qed.

Lemma frugal_node_check_ambiguity env state :
  frugal 1 0 1 (CompanyInfoWorkflow.check_ambiguity env state).
Proof.
  unfold CompanyInfoWorkflow.check_ambiguity.
  destruct (intent state);
    [|eapply frugal_mono; [apply frugal_clarification_update | lia | lia | lia]].
  apply (frugal_try_except 1 0 1 0 0 0);
    [|intros e; apply frugal_clarification_update].
  apply (frugal_bind 1 0 1 0 0 0); [|intros a; apply frugal_ret].
  apply (frugal_try_except 1 0 1 0 0 0); [|intros e; apply frugal_lift].
  apply (frugal_bind 1 0 1 0 0 0); [|intros a; apply frugal_lift].
  apply (frugal_call (AmbiguityModelCall _ _)). reflexivity.
Qed.

Lemma frugal_node_retrieve_wiki_data env state :
  frugal 2 1 0 (CompanyInfoWorkflow.retrieve_wiki_data env state).
Proof.
  unfold CompanyInfoWorkflow.retrieve_wiki_data.
  destruct (intent state);
    [|eapply frugal_mono; [apply frugal_ret | lia | lia | lia]].
  destruct (requires_clarification state);
    [eapply frugal_mono; [apply frugal_ret | lia | lia | lia]|].
  apply (frugal_try_except 2 1 0 0 0 0); [|intros e; apply frugal_ret].
  apply (frugal_bind 2 1 0 0 0 0); [|intros a; apply frugal_ret].
  apply frugal_retrieve_wikipedia_data.
Qed.

Lemma frugal_node_retrieve_tavily_data env state :
  frugal 2 1 0 (CompanyInfoWorkflow.retrieve_tavily_data env state).
Proof.
  unfold CompanyInfoWorkflow.retrieve_tavily_data.
  destruct (intent state);
    [|eapply frugal_mono; [apply frugal_ret | lia | lia | lia]].
  destruct (requires_clarification state);
    [eapply frugal_mono; [apply frugal_ret | lia | lia | lia]|].
  apply (frugal_try_except 2 1 0 0 0 0); [|intros e; apply frugal_ret].
  apply (frugal_bind 2 1 0 0 0 0); [|intros a; apply frugal_ret].
  apply frugal_retrieve_tavily_data.
Qed.

Lemma frugal_node_evaluate_data env state :
  frugal 1 0 1 (CompanyInfoWorkflow.evaluate_data env state).
Proof.
  assert (Hfixed : forall missing,
             frugal 0 0 0
               (let* v := lift (mkValidationResult false 0 missing default_details)
                in ret (CompanyInfoWorkflow.evaluation_update v))).
  { intros missing.
    apply (frugal_bind 0 0 0 0 0 0); [apply frugal_lift | intros a; apply frugal_ret]. }
  unfold CompanyInfoWorkflow.evaluate_data.
  destruct (requires_clarification state);
    [eapply frugal_mono; [apply Hfixed | lia | lia | lia]|].
  apply (frugal_try_except 1 0 1 0 0 0); [|intros e; apply Hfixed].
  destruct (intent state) as [i|];
    [|eapply frugal_mono; [apply frugal_raise | lia | lia | lia]].
  apply (frugal_bind 1 0 1 0 0 0); [|intros a; apply frugal_ret].
  unfold DataEvaluator.evaluate_data.
  apply (frugal_try_except 1 0 1 0 0 0); [|intros e; apply frugal_raise].
  destruct (combined _);
    [eapply frugal_mono; [apply frugal_lift | lia | lia | lia]|].
  apply (frugal_bind 1 0 1 0 0 0); [|intros a; apply frugal_lift].
  apply (frugal_bind 1 0 1 0 0 0); [|intros a; apply frugal_lift].
  apply (frugal_call (EvaluatorModelCall _)). reflexivity.
Qed.

Lemma frugal_respond text score : frugal 0 0 0 (CompanyInfoWorkflow.respond text score).
Proof.
  apply (frugal_bind 0 0 0 0 0 0); [apply frugal_lift | intros a; apply frugal_ret].
Qed.

Lemma frugal_node_generate_response env state :
  frugal 0 0 0 (CompanyInfoWorkflow.generate_response env state).
Proof.
  apply (frugal_try_except 0 0 0 0 0 0); [|intros e; apply frugal_respond].
  destruct (requires_clarification state); [apply frugal_respond|].
  destruct (evaluation state) as [v|]; [|apply frugal_respond].
  destruct (negb (is_valid v)); apply frugal_respond.
Qed.

Lemma frugal_graph_ainvoke env initial :
  frugal 7 2 3 (CompanyInfoWorkflow.graph_ainvoke env initial).
Proof.
  unfold CompanyInfoWorkflow.graph_ainvoke.
  apply (frugal_bind 1 0 1 6 2 2); [apply frugal_node_analyze_intent|]. intros u1.
  apply (frugal_bind 1 0 1 5 2 1); [apply frugal_node_check_ambiguity|]. intros u2.
  apply (frugal_bind 2 1 0 3 1 1); [apply frugal_node_retrieve_wiki_data|]. intros u3.
  apply (frugal_bind 2 1 0 1 0 1); [apply frugal_node_retrieve_tavily_data|]. intros u4.
  apply (frugal_bind 1 0 1 0 0 0); [apply frugal_node_evaluate_data|]. intros u5.
  apply (frugal_bind 0 0 0 0 0 0); [apply frugal_node_generate_response|]. intros u6.
  apply frugal_ret.
Qed.

(** X19.  What a request costs.  For every query, in every deployment and
    whatever the cache holds, [process_query] returns a response having left
    the Redis database exactly as it found it, and having added at most
    seven calls to the log: none of them a write to the cache, at most two
    to the providers (the encyclopedia and the web search) and at most three
    to the models (intent, ambiguity, evaluator). *)
Theorem process_query_footprint (env : Env) (q : string) (w : World) :
  exists r w' trace,
    CompanyInfoWorkflow.process_query env q w = (Ok r, w')
    /\ redis w' = redis w
    /\ calls w' = (calls w ++ trace)%list
    /\ length trace <= 7
    /\ filter is_redis_write trace = []
    /\ length (filter is_provider_call trace) <= 2
    /\ length (filter is_model_call trace) <= 3.
Proof.
  destruct (graph_ainvoke_total env (initial_state q) w) as (final & w' & Hgraph).
  destruct (graph_ainvoke_returns env _ _ _ _ Hgraph) as (r & Hresponse & _).
  destruct (frugal_graph_ainvoke env (initial_state q) w)
    as (trace & Hw & Hlen & Hwrite & Hprov & Hmodel).
  rewrite Hgraph in Hw. simpl in Hw.
  exists r, w', trace. split.
  - unfold CompanyInfoWorkflow.process_query. apply try_except_run.
    rewrite (bind_run _ _ _ _ _ Hgraph). rewrite Hresponse. reflexivity.
  - rewrite Hw. simpl. repeat split; assumption.
Qed.

(** X20.  The ambiguity check sees the query alone.  Every request, in
    every deployment, begins with the same two calls: the intent model on
    the query, then the ambiguity model on the query and an empty evidence
    text, since the check runs before any retrieval.  Of the calls that
    follow, at most five in number, at most one reaches a model. *)
Theorem ambiguity_check_precedes_retrieval (env : Env) (q : string) (w : World) :
  exists r w' rest,
    CompanyInfoWorkflow.process_query env q w = (Ok r, w')
    /\ calls w' =
         (calls w ++ IntentModelCall q :: AmbiguityModelCall q "" :: rest)%list
    /\ length rest <= 5
    /\ length (filter is_model_call rest) <= 1.
Proof.
  destruct (graph_ainvoke_total env (initial_state q) w) as (final & w' & Hgraph).
  destruct (graph_ainvoke_returns env _ _ _ _ Hgraph) as (r & Hresponse & _).
  destruct (node_analyze_intent_run env (initial_state q) w) as [i Hi].
  destruct (parser_check_ambiguity_total env q [("wiki", []); ("tavily", [])] w)
    as [check Hcheck].
  assert (Hrest : exists rest,
             w' = {| redis := redis w;
                     calls := (calls w ++ IntentModelCall q ::
                                 AmbiguityModelCall q "" :: rest)%list |}
             /\ length rest <= 5
             /\ length (filter is_model_call rest) <= 1).
  { unfold CompanyInfoWorkflow.graph_ainvoke in Hgraph.
    rewrite (bind_run _ _ _ _ _ Hi) in Hgraph. cbv zeta in Hgraph.
    erewrite bind_run in Hgraph;
      [|eapply (node_check_ambiguity_run env _ _ w i check);
        [reflexivity | exact Hcheck]].
    cbv zeta in Hgraph.
    match type of Hgraph with
    | ?tail ?w2 = _ =>
        assert (Htail : frugal 5 2 1 tail);
        [|destruct (Htail w2) as (rest & Hw & Hlen & _ & _ & Hmodel)]
    end.
    { apply (frugal_bind 2 1 0 3 1 1); [apply frugal_node_retrieve_wiki_data|].
      intros u3.
      apply (frugal_bind 2 1 0 1 0 1); [apply frugal_node_retrieve_tavily_data|].
      intros u4.
      apply (frugal_bind 1 0 1 0 0 0); [apply frugal_node_evaluate_data|]. intros u5.
      apply (frugal_bind 0 0 0 0 0 0); [apply frugal_node_generate_response|].
      intros u6. apply frugal_ret. }
    rewrite Hgraph in Hw. simpl in Hw. exists rest. split; [|split; assumption].
    rewrite Hw. rewrite <- !app_assoc. reflexivity. }
  destruct Hrest as (rest & Hw' & Hlen & Hmodel).
  exists r, w', rest. split.
  - unfold CompanyInfoWorkflow.process_query. apply try_except_run.
    rewrite (bind_run _ _ _ _ _ Hgraph). rewrite Hresponse. reflexivity.
  - rewrite Hw'. simpl. repeat split; assumption.
Qed.

(** ** Edge cases of the evaluator *)

Lemma format_blank_evidence (combined_data : list EvidenceItem) :
  Forall (fun item => blank item = true) combined_data ->
  DataEvaluator._format_data_for_evaluation combined_data = "".
Proof.
  intros Hblank. unfold DataEvaluator._format_data_for_evaluation.
  assert (Hnone : flat_map DataEvaluator.format_source combined_data = []).
  { induction Hblank as [|item rest Hitem _ IH]; [reflexivity|].
    simpl. rewrite IH. unfold DataEvaluator.format_source, Py.truthy.
    unfold blank in Hitem. rewrite Hitem. reflexivity. }
  rewrite Hnone. reflexivity.
Qed.

(** X21.  Blank evidence is still evaluated.  The evaluator's shortcut for
    missing evidence tests the list of items, not their text: when there are
    items but each has an empty or white-space content, [evaluate_data]
    still makes its one call to the evaluator model, with an empty data
    text. *)
Theorem blank_evidence_is_still_evaluated
    (env : Env) (query_analysis : QueryAnalysis) (retrieved_data : RetrievedData)
    (w : World) :
  combined retrieved_data <> [] ->
  Forall (fun item => blank item = true) (combined retrieved_data) ->
  exists input,
    snd (DataEvaluator.evaluate_data env query_analysis retrieved_data w) =
      log (EvaluatorModelCall input) w
    /\ input_query input = original_query query_analysis
    /\ input_data input = "".
Proof.
  intros Hevidence Hblank.
  exists (DataEvaluator.evaluation_input_of query_analysis (combined retrieved_data)).
  split; [|split; [reflexivity|]].
  - unfold DataEvaluator.evaluate_data, DataEvaluator.evaluation_chain.
    destruct (combined retrieved_data) as [|item rest]; [congruence|].
    run_py.
    destruct (evaluation_llm env _) as [raw|e]; simpl; [|reflexivity].
    destruct (DataEvaluator.parse_evaluation raw); simpl; [|reflexivity].
    destruct (mkValidationResult _ _ _ _); reflexivity.
  - simpl. apply format_blank_evidence. exact Hblank.
Qed.

Lemma blank_evidence_is_still_evaluated_witness :
  exists input,
    snd (DataEvaluator.evaluate_data Demo.env Demo.analysis Demo.blank_evidence
           Demo.world0) = log (EvaluatorModelCall input) Demo.world0
    /\ input_query input = original_query Demo.analysis
    /\ input_data input = "".
Proof.
  apply (blank_evidence_is_still_evaluated Demo.env Demo.analysis Demo.blank_evidence
           Demo.world0).
  - discriminate.
  - repeat constructor.
Defined.

Lemma survivors_none (items : list EvidenceItem) :
  survivors items = [] <-> Forall (fun item => quotable item = false) items.
Proof.
  split.
  - intros Hnone. apply Forall_forall. intros item Hin.
    destruct (quotable item) eqn:Hq; [exfalso | reflexivity].
    apply list_elem_of_In in Hin.
    destruct (survivors_after_complete items [] item Hin Hq)
      as [Hkept | (e & [] & _)].
    unfold survivors in Hnone. rewrite Hnone in Hkept. destruct Hkept.
  - intros Hall. unfold survivors. generalize (@nil EvidenceItem) at 1 as earlier.
    induction Hall as [|item rest Hitem _ IH]; intros earlier; simpl; [reflexivity|].
    rewrite Hitem. simpl. apply IH.
Qed.

(** X22.  A digest needs reports worth quoting.  In the news branch of the
    response synthesis (a valid verdict and evidence whose origin query
    mentions news) the answer is "No recent news found for this query."
    exactly when no item can be quoted, that is when each item has an empty
    content or a cleaned text of fewer than 20 characters, whatever the
    verdict's findings are. *)
Theorem news_digest_needs_long_reports
    (env : Env) (validation_result : ValidationResult) (retrieved_data : RetrievedData) :
  is_valid validation_result = true ->
  DataEvaluator.is_news_query (combined retrieved_data) = true ->
  (DataEvaluator._format_final_response env validation_result retrieved_data =
     "No recent news found for this query."
   <-> Forall (fun item => content item = "" \/ Py.len (cleaned item) < 20)
              (combined retrieved_data)).
Proof.
  intros Hvalid Hnews.
  assert (Hquotable : forall item,
             quotable item = false <->
             content item = "" \/ Py.len (cleaned item) < 20).
  { intros item. unfold quotable, Py.truthy.
    rewrite andb_false_iff, negb_false_iff, Nat.leb_gt.
    destruct (content item); simpl; split; intros [H | H]; auto; discriminate. }
  assert (Hall : Forall (fun item => content item = "" \/ Py.len (cleaned item) < 20)
                        (combined retrieved_data)
                 <-> survivors (combined retrieved_data) = []).
  { rewrite survivors_none.
    split; intros H; (eapply Forall_impl; [exact H|]); intros item; apply Hquotable. }
  rewrite Hall.
  unfold DataEvaluator._format_final_response. rewrite Hvalid. simpl.
  destruct (combined retrieved_data) as [|first_item others] eqn:Hcombined;
    [discriminate|].
  rewrite Hnews. unfold DataEvaluator.format_news.
  rewrite (collect_news_survivors (first_item :: others) [] [] ∅);
    [|intros t; split; [intros Hin; set_solver | intros (e & [] & _)]].
  fold (survivors (first_item :: others)). cbn [app].
  destruct (survivors (first_item :: others)) as [|item kept].
  - split; reflexivity.
  - split; intros H; discriminate H.
Qed.

Lemma news_digest_needs_long_reports_witness :
  DataEvaluator._format_final_response Demo.env Demo.trusted Demo.headlines =
    "No recent news found for this query.".
Proof.
  apply (proj2 (news_digest_needs_long_reports Demo.env Demo.trusted Demo.headlines
                  eq_refl eq_refl)).
  repeat constructor; right; vm_compute; lia.
Defined.










(** The answer of the example, run. *)
Example factual_answer_of_the_example :
  DataEvaluator._format_final_response Demo.env Demo.trusted Demo.evidence =
    "Tesla, Inc. is an American automotive and clean energy company headquartered in Austin, Texas. (Source: Wikipedia)".
Proof. vm_compute. reflexivity. Qed.
